(** * Terncy gateway: a shallow embedding of [core/gateway.py]

    The gateway object of the Home Assistant Terncy integration keeps a local
    device/entity model synchronised with a hub that is reached through a
    session client.  This development embeds [TerncyGateway] as functions in a
    state, writer and exception monad:

    - the state holds the attributes of the gateway object together with the
      state of the collaborators it talks to (the connectivity of the session
      client, the host's device registry, the scheduled coroutines);
    - the writer records, in call order, every call the gateway issues on a
      collaborator (logger, registry, bus, listeners, session client, device
      and entity objects);
    - exceptions abort the running handler and keep the state reached so far,
      as a Python exception does.

    Python dictionaries are finite maps ([gmap]); the claims proved below do
    not depend on the iteration order of a dictionary or a set.  Objects of
    the collaborator classes are truthy, and callbacks registered as
    listeners return normally.  [__init__], [start] and the discovery
    callbacks it registers take no part in the statements below and are left
    out. *)

From Stdlib Require Import ZArith.
From stdpp Require Import gmap strings list fin_maps.

Local Open Scope string_scope.

(** ** Values carried by hub payloads *)

(** A JSON scalar, as found in the [value] slot of an attribute report. *)
Inductive pyval :=
| VNone
| VBool (b : bool)
| VInt (z : Z)
| VStr (s : string).

(** [AttrValue]: [{"attr": str, "value": ...}]. *)
Record AttrValue := mkAttr { attr : string; value : pyval }.

(** Exceptions a handler can end with. *)
Inductive exn :=
| KeyError
| IndexError
| TypeError
| AttributeError
| TransportError (what : string).

Inductive Result (A : Type) :=
| Ok (a : A)
| Raise (e : exn).
Arguments Ok {A} a.
Arguments Raise {A} e.

(** ** Payload records ([types.py])

    Keys read with [d["k"]] are plain fields; keys read with [d.get("k")] or
    tested with ["k" in d] are optional fields. *)

Record KeyPressedAttr := mkTimes { times : Z }.

Record KeyPressedItem := mkKeyPressed {
  kp_id : string;
  kp_attributes : option (list KeyPressedAttr)
}.

Record ReportItem := mkReport {
  rep_id : option string;
  rep_attributes : option (list AttrValue)
}.

Record SimpleItem := mkSimple { simple_id : string }.

Record SvcData := mkSvc {
  svc_id : string;
  svc_name : string;
  svc_attributes : option (list AttrValue);
  svc_profile : option Z;
  svc_room : option string
}.

(** [version] and [hwVersion] hold the text [str(...)] yields for them. *)
Record PhysicalDeviceData := mkDeviceData {
  dd_id : string;
  dd_model : option string;
  dd_version : option string;
  dd_hwVersion : option string;
  dd_online : option bool;
  dd_room : option string;
  dd_name : option string;
  dd_services : option (list SvcData)
}.

(** A device group is read both as the device data and as its own service. *)
Record DeviceGroupData := mkGroup {
  dg_id : string;
  dg_name : string;
  dg_model : option string;
  dg_version : option string;
  dg_hwVersion : option string;
  dg_online : option bool;
  dg_room : option string;
  dg_attributes : option (list AttrValue);
  dg_profile : option Z
}.

Record SceneData := mkScene {
  scene_id : string;
  scene_actions : option (list pyval);
  scene_name : option string;
  scene_online : option bool;
  scene_on : pyval
}.

Record RoomData := mkRoom { room_id : string; room_name : string }.

(** The entity dictionaries of [entityAvailable], [entityCreated] and
    [entityUpdated]: the ["type"] key and the typed body that goes with it. *)
Inductive EntityData :=
| EDevice (d : PhysicalDeviceData)
| EDeviceGroup (g : DeviceGroupData)
| EScene (s : SceneData)
| EOther (type : string).

Definition entity_type (e : EntityData) : string :=
  match e with
  | EDevice _ => "device"
  | EDeviceGroup _ => "devicegroup"
  | EScene _ => "scene"
  | EOther t => t
  end.

(** The [entities] list of a message, in the shape its handler reads. *)
Inductive MsgData :=
| ReportMsgData (l : list ReportItem)
| KeyPressedMsgData (l : list KeyPressedItem)
| SimpleMsgData (l : list SimpleItem)
| EntityMsgData (l : list EntityData).

(** [event.msg]: [msg.get("type")] and the optional ["entities"] key. *)
Record Msg := mkMsg {
  msg_type : option string;
  msg_entities : option MsgData
}.

Inductive Event :=
| EventMessage (msg : Msg)
| Connected
| Disconnected
| UnknownEvent.

(** ** Constants of [const.py] and [profiles.py]

    These modules are read by the gateway but are given here as a parameter:
    every theorem holds for whatever tables they define. *)

Record TerncyEntityDescription := mkDescription {
  key : string;
  desc_name : string;
  required_attrs : list string
}.

Record Consts := mkConsts {
  DOMAIN : string;
  TERNCY_MANU_NAME : string;
  ACTION_PRESSED : string;
  ACTION_LONG_PRESS : string;
  ACTION_ROTATION : string;
  ACTION_SINGLE_PRESS : string;
  (** [EVENT_ENTITY_BUTTON_EVENTS[n]]; [None] when the subscript raises. *)
  EVENT_ENTITY_BUTTON_EVENTS : Z → option string;
  DEFAULT_ROOMS : gmap string (gmap string string);
  PROFILES : gmap Z (list TerncyEntityDescription)
}.

(** ** Collaborator objects *)

(** Modelled from the spec: [hass/entity.py] ([TerncyEntity]) is not part of
    the gateway file.  A presentation object holds its display name, an
    availability flag and the current attribute values; [set_available] is a
    flag write and [update_state] merges [{attr, value}] pairs. *)
Record TerncyEntity := mkEntity {
  ent_eid : string;
  ent_description : TerncyEntityDescription;
  ent_unique_id_prefix : option string;
  _attr_device_info : option string;     (* [DeviceInfo(identifiers=...)] *)
  _attr_name : string;
  ent_available : bool;
  ent_state : gmap string pyval
}.

Definition merge_attrs (attrs : list AttrValue) (st : gmap string pyval)
    : gmap string pyval :=
  foldl (λ m a, <[attr a := value a]> m) st attrs.

Definition entity_set_available (b : bool) (e : TerncyEntity) : TerncyEntity :=
  {| ent_eid := ent_eid e; ent_description := ent_description e;
     ent_unique_id_prefix := ent_unique_id_prefix e;
     _attr_device_info := _attr_device_info e;
     _attr_name := _attr_name e; ent_available := b;
     ent_state := ent_state e |}.

Definition entity_update_state (attrs : list AttrValue) (e : TerncyEntity)
    : TerncyEntity :=
  {| ent_eid := ent_eid e; ent_description := ent_description e;
     ent_unique_id_prefix := ent_unique_id_prefix e;
     _attr_device_info := _attr_device_info e;
     _attr_name := _attr_name e; ent_available := ent_available e;
     ent_state := merge_attrs attrs (ent_state e) |}.

Definition entity_set_device_info (i : string) (e : TerncyEntity) : TerncyEntity :=
  {| ent_eid := ent_eid e; ent_description := ent_description e;
     ent_unique_id_prefix := ent_unique_id_prefix e;
     _attr_device_info := Some i;
     _attr_name := _attr_name e; ent_available := ent_available e;
     ent_state := ent_state e |}.

Definition entity_set_name (n : string) (e : TerncyEntity) : TerncyEntity :=
  {| ent_eid := ent_eid e; ent_description := ent_description e;
     ent_unique_id_prefix := ent_unique_id_prefix e;
     _attr_device_info := _attr_device_info e;
     _attr_name := n; ent_available := ent_available e;
     ent_state := ent_state e |}.

(** Modelled from the spec: [hass/add_entities.py] ([create_entity]) is not
    part of the gateway file.  The new presentation object is named by its
    description and starts from the attribute values it is created with. *)
Definition create_entity (eid : string) (description : TerncyEntityDescription)
    (prefix : option string) (init_states : list AttrValue) : TerncyEntity :=
  {| ent_eid := eid; ent_description := description;
     ent_unique_id_prefix := prefix; _attr_device_info := None;
     _attr_name := desc_name description; ent_available := true;
     ent_state := merge_attrs init_states ∅ |}.

(** Modelled from the spec: [core/device.py] ([TerncyDevice]) is not part of
    the gateway file.  The record of one hub entity: owning device id, entity
    id, profile, attached presentation objects, availability flag and current
    attribute values; both updates propagate to every attached object. *)
Record TerncyDevice := mkDevice {
  did : string;
  eid : string;
  profile : option Z;
  entities : list TerncyEntity;
  available : bool;
  attributes : gmap string pyval
}.

Definition new_TerncyDevice (did eid : string) (profile : option Z)
    : TerncyDevice :=
  {| did := did; eid := eid; profile := profile; entities := [];
     available := true; attributes := ∅ |}.

Definition device_set_available (b : bool) (d : TerncyDevice) : TerncyDevice :=
  {| did := did d; eid := eid d; profile := profile d;
     entities := entity_set_available b <$> entities d;
     available := b; attributes := attributes d |}.

Definition device_update_state (attrs : list AttrValue) (d : TerncyDevice)
    : TerncyDevice :=
  {| did := did d; eid := eid d; profile := profile d;
     entities := entity_update_state attrs <$> entities d;
     available := available d;
     attributes := merge_attrs attrs (attributes d) |}.

Definition device_append_entity (e : TerncyEntity) (d : TerncyDevice)
    : TerncyDevice :=
  {| did := did d; eid := eid d; profile := profile d;
     entities := (entities d ++ [e])%list;
     available := available d; attributes := attributes d |}.

(** ** Calls issued on collaborators *)

Inductive Level := DEBUG | INFO | WARNING.

(** Arguments of [device_registry.async_get_or_create]; [None] stands for
    [UNDEFINED] or for an argument that is not passed. *)
Record DeviceArgs := mkArgs {
  arg_identifier : string;
  arg_connection : option (string * string);
  arg_model : option string;
  arg_name : string;
  arg_sw_version : option string;
  arg_hw_version : option string;
  arg_suggested_area : option string;
  arg_via_device : option string
}.

Record DeviceEntry := mkEntry { entry_id : N; entry_args : DeviceArgs }.

Inductive ReconnectPc :=
| ReconnectScheduled   (* created, not yet run *)
| ReconnectSleeping    (* suspended in [asyncio.sleep(2)] *)
| ReconnectFinished.

Inductive Coroutine :=
| CoReconnect (pc : ReconnectPc)
| CoRefresh
| CoStop.

Inductive Effect :=
| Log (lv : Level) (fmt : string)
| DeviceSetAvailable (eid : string) (b : bool)
| DeviceUpdateState (eid : string) (attrs : list AttrValue)
| DeviceTriggerEvent (eid : string) (event_type : string) (click_times : option Z)
| EntitySetAvailable (eid : string) (b : bool)
| EntityUpdateState (eid : string) (attrs : list AttrValue)
| BusAsyncFire (event_name : string) (device_id : N) (source : string)
    (click_times : option Z)
| DrGetOrCreate (args : DeviceArgs)
| DrRemoveDevice (device_id : N)
| ErRemove (scene : TerncyEntity)   (* [async_remove(scene.entity_id)], by the object read *)
| HaAddEntity (entity : TerncyEntity)
| ListenerCall (listener : nat) (data : list AttrValue)
| ApiSetAttribute (eid attr : string) (v : pyval) (method : Z)
| ApiSetAttributes (eid : string) (attrs : list AttrValue) (method : Z)
| ApiGetEntities (ent_type : string)
| ApiStart
| ApiStop
| CreateTask (c : Coroutine)
| CreateBackgroundTask (c : Coroutine) (name : string).

(** ** The gateway and its surroundings *)

Record State := mkState {
  (* attributes of [TerncyGateway] *)
  _stopped : bool;
  parsed_devices : gmap string TerncyDevice;      (* key: eid *)
  _listeners : gmap string (gset nat);
  room_data : gmap string string;
  scenes : gmap string TerncyEntity;
  name : string;
  mac : string;
  export_device_groups : bool;
  export_scenes : bool;
  (* [self.api] *)
  unique_id : string;                             (* [api.dev_id] *)
  api_connected : bool;                           (* [api.is_connected()] *)
  (* [self.hass] *)
  language : string;
  device_registry : gmap string DeviceEntry;      (* key: identifier *)
  dr_next : N;
  tasks : list Coroutine
}.

Definition set_stopped (b : bool) (s : State) : State :=
  mkState b (parsed_devices s) (_listeners s) (room_data s) (scenes s)
    (name s) (mac s) (export_device_groups s) (export_scenes s) (unique_id s)
    (api_connected s) (language s) (device_registry s) (dr_next s) (tasks s).

Definition set_parsed_devices (m : gmap string TerncyDevice) (s : State) : State :=
  mkState (_stopped s) m (_listeners s) (room_data s) (scenes s)
    (name s) (mac s) (export_device_groups s) (export_scenes s) (unique_id s)
    (api_connected s) (language s) (device_registry s) (dr_next s) (tasks s).

Definition set_listeners (m : gmap string (gset nat)) (s : State) : State :=
  mkState (_stopped s) (parsed_devices s) m (room_data s) (scenes s)
    (name s) (mac s) (export_device_groups s) (export_scenes s) (unique_id s)
    (api_connected s) (language s) (device_registry s) (dr_next s) (tasks s).

Definition set_room_data (m : gmap string string) (s : State) : State :=
  mkState (_stopped s) (parsed_devices s) (_listeners s) m (scenes s)
    (name s) (mac s) (export_device_groups s) (export_scenes s) (unique_id s)
    (api_connected s) (language s) (device_registry s) (dr_next s) (tasks s).

Definition set_scenes (m : gmap string TerncyEntity) (s : State) : State :=
  mkState (_stopped s) (parsed_devices s) (_listeners s) (room_data s) m
    (name s) (mac s) (export_device_groups s) (export_scenes s) (unique_id s)
    (api_connected s) (language s) (device_registry s) (dr_next s) (tasks s).

Definition set_api_connected (b : bool) (s : State) : State :=
  mkState (_stopped s) (parsed_devices s) (_listeners s) (room_data s) (scenes s)
    (name s) (mac s) (export_device_groups s) (export_scenes s) (unique_id s)
    b (language s) (device_registry s) (dr_next s) (tasks s).

Definition set_device_registry (m : gmap string DeviceEntry) (n : N) (s : State)
    : State :=
  mkState (_stopped s) (parsed_devices s) (_listeners s) (room_data s) (scenes s)
    (name s) (mac s) (export_device_groups s) (export_scenes s) (unique_id s)
    (api_connected s) (language s) m n (tasks s).

Definition set_tasks (l : list Coroutine) (s : State) : State :=
  mkState (_stopped s) (parsed_devices s) (_listeners s) (room_data s) (scenes s)
    (name s) (mac s) (export_device_groups s) (export_scenes s) (unique_id s)
    (api_connected s) (language s) (device_registry s) (dr_next s) l.

(** ** The monad: state, call log and exceptions *)

Definition M (A : Type) : Type := State → Result A * State * list Effect.

Definition ret {A} (a : A) : M A := λ s, (Ok a, s, []).

Definition bind {A B} (m : M A) (f : A → M B) : M B := λ s,
  match m s with
  | (Ok a, s1, t1) => let '(r, s2, t2) := f a s1 in (r, s2, (t1 ++ t2)%list)
  | (Raise e, s1, t1) => (Raise e, s1, t1)
  end.

Notation "'let*' x := m 'in' k" := (bind m (λ x, k))
  (at level 10, x name, m at level 100, k at level 200).
Notation "m >> k" := (bind m (λ _, k))
  (at level 100, k at level 200, right associativity).

Definition get : M State := λ s, (Ok s, s, []).
Definition gets {A} (f : State → A) : M A := λ s, (Ok (f s), s, []).
Definition modify (f : State → State) : M unit := λ s, (Ok tt, f s, []).
Definition emit (e : Effect) : M unit := λ s, (Ok tt, s, [e]).
Definition raise {A} (e : exn) : M A := λ s, (Raise e, s, []).

(** [try: m except Exception: h] *)
Definition try_except {A} (m : M A) (h : exn → M A) : M A := λ s,
  match m s with
  | (Ok a, s1, t1) => (Ok a, s1, t1)
  | (Raise e, s1, t1) => let '(r, s2, t2) := h e s1 in (r, s2, (t1 ++ t2)%list)
  end.

(** [for x in l: body x] *)
Fixpoint for_each {A} (l : list A) (body : A → M unit) : M unit :=
  match l with
  | [] => ret tt
  | x :: l' => body x >> for_each l' body
  end.

(** A loop that threads the value of a local variable. *)
Fixpoint for_fold {A B} (l : list A) (b : B) (body : B → A → M B) : M B :=
  match l with
  | [] => ret b
  | x :: l' => let* b' := body b x in for_fold l' b' body
  end.

Definition when (c : bool) (m : M unit) : M unit := if c then m else ret tt.

Definition logger (lv : Level) (fmt : string) : M unit := emit (Log lv fmt).

(** Python truthiness of an optional string: [None] and [""] are false. *)
Definition truthy (o : option string) : option string :=
  match o with
  | Some s => if decide (s = "") then None else Some s
  | None => None
  end.

(** A string is held as the bytes of its UTF-8 encoding, in which a
    character is one lead byte followed by its continuation bytes
    ([10xxxxxx]).  Python indexes a [str] by character. *)
Definition is_continuation_byte (c : Ascii.ascii) : bool :=
  (128 <=? Ascii.nat_of_ascii c)%nat && (Ascii.nat_of_ascii c <? 192)%nat.

(** The last [n] characters of a string, read from its bytes in reverse
    order and returned in that order. *)
Fixpoint take_chars_rev (rev_bytes : list Ascii.ascii) (n : nat)
    : list Ascii.ascii :=
  match rev_bytes, n with
  | [], _ => []
  | _ :: _, O => []
  | c :: rest, S n' =>
      c :: take_chars_rev rest (if is_continuation_byte c then S n' else n')
  end.

(** [s[-2:]]: the last two characters of [s], all of [s] when it has fewer. *)
Definition last2 (s : string) : string :=
  String.string_of_list_ascii
    (rev (take_chars_rev (rev (String.list_ascii_of_string s)) 2)).

(** Answers of the session client.  [response.get("rsp", {}).get("entities", [])]
    reads a response that may lack ["rsp"], or ["entities"] under it. *)
Inductive Response (A : Type) :=
| NoRsp
| Rsp (entities : option (list A)).
Arguments NoRsp {A}.
Arguments Rsp {A} entities.

(** ** [class TerncyGateway] *)

Section Gateway.
Context (K : Consts).

(** *** Collaborators: session client, host registry, device objects *)

Definition is_connected : M bool := gets api_connected.

(** A call on the session client that may fail with a transport error; the
    outcome is chosen by the environment. *)
Definition api_call (call : Effect) (outcome : option exn) : M unit :=
  emit call >>
  match outcome with
  | Some e => raise e
  | None => ret tt
  end.

(** Modelled from the spec: the host's device registry is an external
    collaborator ([get_device_by_identifier], [get_or_create_device],
    [remove_device]).  Every entry the gateway creates carries a single
    identifier [(DOMAIN, id)], so the registry is a map from that id to the
    entry, and removing an entry removes it under the identifier it was
    found with. *)
Definition dr_async_get_device (identifier : string) : M (option DeviceEntry) :=
  gets (λ s, device_registry s !! identifier).

Definition dr_async_get_or_create (args : DeviceArgs) : M unit :=
  emit (DrGetOrCreate args) >>
  modify (λ s,
    match device_registry s !! arg_identifier args with
    | Some e =>
        set_device_registry
          (<[arg_identifier args := mkEntry (entry_id e) args]> (device_registry s))
          (dr_next s) s
    | None =>
        set_device_registry
          (<[arg_identifier args := mkEntry (dr_next s) args]> (device_registry s))
          (dr_next s + 1)%N s
    end).

Definition dr_async_remove_device (identifier : string) (device_id : N) : M unit :=
  emit (DrRemoveDevice device_id) >>
  modify (λ s,
    set_device_registry (delete identifier (device_registry s)) (dr_next s) s).

(** [device.set_available(b)] on the device object known under [eid]; an
    object that is not held by [parsed_devices] is dropped with the call. *)
Definition device_set_available_at (eid : string) (b : bool) : M unit :=
  emit (DeviceSetAvailable eid b) >>
  modify (λ s,
    set_parsed_devices (alter (device_set_available b) eid (parsed_devices s)) s).

Definition device_update_state_at (eid : string) (attrs : list AttrValue)
    : M unit :=
  emit (DeviceUpdateState eid attrs) >>
  modify (λ s,
    set_parsed_devices (alter (device_update_state attrs) eid (parsed_devices s)) s).

Definition scene_set_available_at (sid : string) (b : bool) : M unit :=
  emit (EntitySetAvailable sid b) >>
  modify (λ s, set_scenes (alter (entity_set_available b) sid (scenes s)) s).

Definition scene_update_state_at (sid : string) (attrs : list AttrValue)
    : M unit :=
  emit (EntityUpdateState sid attrs) >>
  modify (λ s, set_scenes (alter (entity_update_state attrs) sid (scenes s)) s).

(** *** Helpers *)

Definition async_create_task (target : Coroutine) : M unit :=
  emit (CreateTask target) >>
  modify (λ s, set_tasks (tasks s ++ [target])%list s).

Definition async_create_background_task (target : Coroutine) (name : string)
    : M unit :=
  emit (CreateBackgroundTask target name) >>
  modify (λ s, set_tasks (tasks s ++ [target])%list s).

(** *** Connection life cycle *)

(** [stop]: the session client's [stop()] tears the connection down. *)
Definition stop : M unit :=
  modify (set_stopped true) >>
  emit ApiStop >>
  modify (set_api_connected false).

(** [reconnect], up to its suspension in [asyncio.sleep(2)]. *)
Definition reconnect_begin : M ReconnectPc :=
  let* stopped := gets _stopped in
  if stopped : bool then
    logger DEBUG "service stopped, don't retry" >>
    ret ReconnectFinished
  else
    ret ReconnectSleeping.

(** [reconnect], resumed when the delay has elapsed. *)
Definition reconnect_resume : M ReconnectPc :=
  let* connected := is_connected in
  if connected : bool then
    logger WARNING "service is still connected while retry" >>
    ret ReconnectFinished
  else
    logger WARNING "Start reconnecting..." >>
    emit ApiStart >>
    ret ReconnectFinished.

(** *** Listeners *)

Definition add_listener (eid : string) (listener : nat) : M unit :=
  modify (λ s,
    set_listeners
      (<[eid := default ∅ (_listeners s !! eid) ∪ {[listener]}]> (_listeners s)) s).

Definition remove_listener (eid : string) (listener : nat) : M unit :=
  modify (λ s,
    match _listeners s !! eid with
    | Some ls => set_listeners (<[eid := ls ∖ {[listener]}]> (_listeners s)) s
    | None => s
    end).

Definition update_listeners (eid : string) (data : list AttrValue) : M unit :=
  let* registered := gets (λ s, _listeners s !! eid) in
  match registered with
  | Some ls => for_each (elements ls) (λ listener, emit (ListenerCall listener data))
  | None => ret tt
  end.

(** The awaited write on the session client touches no attribute of the
    gateway: the run starts from the state in which the coroutine is resumed,
    and [outcome] says whether the write raised. *)
Definition set_attribute (outcome : option exn) (eid attr : string) (v : pyval)
    (method : Z) : M unit :=
  api_call (ApiSetAttribute eid attr v method) outcome >>
  update_listeners eid [mkAttr attr v].

Definition set_attributes (outcome : option exn) (eid : string)
    (attrs : list AttrValue) (method : Z) : M unit :=
  api_call (ApiSetAttributes eid attrs method) outcome >>
  update_listeners eid attrs.

(** *** Setup *)

Definition add_device (eid : string) (device : TerncyDevice) : M unit :=
  modify (λ s, set_parsed_devices (<[eid := device]> (parsed_devices s)) s).

(** [if room := d.get("room"): if room_name := self.room_data.get(room):
      suggested_area = room_name] *)
Definition room_area (suggested_area : option string) (room : option string)
    : M (option string) :=
  match truthy room with
  | Some r =>
      let* room_name := gets (λ s, truthy (room_data s !! r)) in
      match room_name with
      | Some n => ret (Some n)
      | None => ret suggested_area
      end
  | None => ret suggested_area
  end.

(** [not description.required_attrs
      or set(description.required_attrs).issubset(attrs)] *)
Definition description_applies (attrs : list string)
    (description : TerncyEntityDescription) : bool :=
  match required_attrs description with
  | [] => true
  | ra => forallb (λ r, bool_decide (r ∈ attrs)) ra
  end.

(** The display name of a service: ["<deviceName>-<last 2 chars of eid>"],
    then the eid, when the service name is blank. *)
Definition service_name (device_data : PhysicalDeviceData) (svc : SvcData)
    : string :=
  if decide (svc_name svc = "") then
    match truthy (dd_name device_data) with
    | Some device_name => device_name ++ "-" ++ last2 (svc_id svc)
    | None => svc_id svc
    end
  else svc_name svc.

(** The body of [for svc in svc_list]; [suggested_area] is the local variable
    the loop carries from one service to the next.  [device] names the object
    held by [parsed_devices] under [eid] or, when the new object was not
    added, an object nobody else holds. *)
Definition setup_service (device_data : PhysicalDeviceData)
    (sw_version hw_version : option string) (online : bool)
    (suggested_area : option string) (svc : SvcData) : M (option string) :=
  let did := dd_id device_data in
  let model := dd_model device_data in
  let eid := svc_id svc in
  let name := service_name device_data svc in
  let attributes := default [] (svc_attributes svc) in
  let* device := gets (λ s, parsed_devices s !! eid) in
  let* suggested_area :=
    match device with
    | Some _ => ret suggested_area
    | None =>
        let profile := svc_profile svc in
        let device := new_TerncyDevice did eid profile in
        match profile ≫= (λ p, PROFILES K !! p) with
        | Some profile_descriptions =>
            let* suggested_area := room_area suggested_area (svc_room svc) in
            let attrs := attr <$> attributes in
            let descriptions :=
              List.filter (description_applies attrs) profile_descriptions in
            if (0 <? length descriptions)%nat then
              let* gateway_id := gets unique_id in
              dr_async_get_or_create
                {| arg_identifier := eid;
                   arg_connection := Some ("zigbee", eid);
                   arg_model := model;
                   arg_name := name;
                   arg_sw_version := sw_version;
                   arg_hw_version := hw_version;
                   arg_suggested_area := suggested_area;
                   arg_via_device := Some gateway_id |} >>
              add_device eid device >>
              for_each descriptions (λ description,
                let entity :=
                  entity_set_device_info eid
                    (create_entity eid description None attributes) in
                emit (HaAddEntity entity) >>
                modify (λ s,
                  set_parsed_devices
                    (alter (device_append_entity entity) eid (parsed_devices s)) s)) >>
              ret suggested_area
            else ret suggested_area
        | None =>
            logger DEBUG "[%s] Unsupported profile:%d %s" >>
            ret suggested_area
        end
    end in
  (* update states *)
  device_set_available_at eid online >>
  device_update_state_at eid attributes >>
  ret suggested_area.

Definition setup_device (device_data : PhysicalDeviceData)
    (svc_list : list SvcData) : M unit :=
  let model := dd_model device_data in
  logger DEBUG "setup %s: %s" >>
  let did := dd_id device_data in
  let sw_version := dd_version device_data in
  let hw_version := dd_hwVersion device_data in
  let online := default true (dd_online device_data) in
  let* suggested_area := room_area None (dd_room device_data) in
  let* gateway_id := gets unique_id in
  let* gateway_name := gets name in
  let* gateway_mac := gets mac in
  when (bool_decide (did = gateway_id))
    (* update gateway details, because gateway has no svc_list *)
    (dr_async_get_or_create
       {| arg_identifier := gateway_id;
          arg_connection := Some ("mac", gateway_mac);
          arg_model := model;
          arg_name := gateway_name;
          arg_sw_version := sw_version;
          arg_hw_version := hw_version;
          arg_suggested_area := suggested_area;
          arg_via_device := None |}) >>
  let* _ := for_fold svc_list suggested_area
              (setup_service device_data sw_version hw_version online) in
  ret tt.

Definition group_as_device (g : DeviceGroupData) : PhysicalDeviceData :=
  {| dd_id := dg_id g; dd_model := dg_model g; dd_version := dg_version g;
     dd_hwVersion := dg_hwVersion g; dd_online := dg_online g;
     dd_room := dg_room g; dd_name := Some (dg_name g); dd_services := None |}.

Definition group_as_svc (g : DeviceGroupData) : SvcData :=
  {| svc_id := dg_id g; svc_name := dg_name g;
     svc_attributes := dg_attributes g; svc_profile := dg_profile g;
     svc_room := dg_room g |}.

Definition setup_device_group (device_group_data : DeviceGroupData) : M unit :=
  setup_device (group_as_device device_group_data)
    [group_as_svc device_group_data].

Definition setup_scene (scene_data : SceneData) : M unit :=
  let* export := gets export_scenes in
  if negb export then ret tt
  else
    let sid := scene_id scene_data in
    if (length (default [] (scene_actions scene_data)) =? 0)%nat then
      (* ignore scene without actions *)
      let* entity := gets (λ s, scenes s !! sid) in
      match entity with
      | Some _ => scene_set_available_at sid false   (* already exists: disable *)
      | None => ret tt
      end
    else
      logger DEBUG "setup %s %s" >>
      let name := default sid (truthy (scene_name scene_data)) in
      let online := default true (scene_online scene_data) in
      let* entity := gets (λ s, scenes s !! sid) in
      let init_states := [mkAttr "on" (scene_on scene_data)] in
      match entity with
      | None =>
          let* gateway_id := gets unique_id in
          let description := mkDescription "scene" name [] in
          let entity :=
            entity_set_device_info (gateway_id ++ "_scenes")
              (create_entity sid description (Some gateway_id) init_states) in
          emit (HaAddEntity entity) >>
          modify (λ s, set_scenes (<[sid := entity]> (scenes s)) s)
      | Some _ =>
          modify (λ s, set_scenes (alter (entity_set_name name) sid (scenes s)) s)
      end >>
      scene_set_available_at sid online >>
      scene_update_state_at sid init_states.

(** *** Event handlers *)

Definition _on_report (msg_data : list ReportItem) : M unit :=
  logger DEBUG "EVENT: report: %s" >>
  for_each msg_data (λ id_attributes,
    let attributes := default [] (rep_attributes id_attributes) in
    match rep_id id_attributes with
    | Some eid => update_listeners eid attributes
    | None => ret tt          (* [None] is never a key of [_listeners] *)
    end).

(** [EVENT_ENTITY_BUTTON_EVENTS[times] if 1 <= times <= 9
      else ACTION_SINGLE_PRESS] *)
Definition button_event_type (times : Z) : M string :=
  if ((1 <=? times) && (times <=? 9))%Z then
    match EVENT_ENTITY_BUTTON_EVENTS K times with
    | Some event_type => ret event_type
    | None => raise KeyError
    end
  else
    (* never here *)
    ret (ACTION_SINGLE_PRESS K).

(** The body of [for entity_data in msg_data] of [_on_key_pressed]. *)
Definition key_pressed_entity (entity_data : KeyPressedItem) : M unit :=
  match kp_attributes entity_data with
  | None => ret tt             (* continue *)
  | Some attributes =>
      let eid := kp_id entity_data in
      let* times :=
        match attributes with
        | a :: _ => ret (times a)
        | [] => raise IndexError
        end in
      let* event_type := button_event_type times in
      let* device := gets (λ s, parsed_devices s !! eid) in
      match device with
      | Some _ => emit (DeviceTriggerEvent eid event_type (Some times))
      | None => ret tt
      end >>
      let* device_entry := dr_async_get_device eid in
      match device_entry with
      | Some entry =>
          emit (BusAsyncFire (DOMAIN K ++ "_" ++ ACTION_PRESSED K)
                  (entry_id entry) eid (Some times))
      | None => ret tt
      end
  end.

Definition _on_key_pressed (msg_data : list KeyPressedItem) : M unit :=
  logger DEBUG "EVENT: keyPressed: %s" >>
  for_each msg_data key_pressed_entity.

(** The dual-channel notification of [keyLongPressed] and [rotation]. *)
Definition notify_action (action : string) (item : SimpleItem) : M unit :=
  let eid := simple_id item in
  let* device := gets (λ s, parsed_devices s !! eid) in
  match device with
  | Some _ => emit (DeviceTriggerEvent eid action None)
  | None => ret tt
  end >>
  let* device_entry := dr_async_get_device eid in
  match device_entry with
  | Some entry =>
      emit (BusAsyncFire (DOMAIN K ++ "_" ++ action) (entry_id entry) eid None)
  | None => ret tt
  end.

Definition _on_key_long_pressed (msg_data : list SimpleItem) : M unit :=
  logger DEBUG "EVENT: keyLongPressed: %s" >>
  for_each msg_data (notify_action (ACTION_LONG_PRESS K)).

Definition _on_rotation (msg_data : list SimpleItem) : M unit :=
  logger DEBUG "EVENT: rotation: %s" >>
  for_each msg_data (notify_action (ACTION_ROTATION K)).

Definition _on_entity_available (msg_data : list EntityData) : M unit :=
  logger DEBUG "EVENT: entityAvailable: %s" >>
  for_each msg_data (λ device_data,
    if decide (entity_type device_data = "device") then
      match device_data with
      | EDevice d =>
          let svc_list := default [] (dd_services d) in
          setup_device d svc_list
      | _ => raise KeyError
      end
    else if decide (entity_type device_data = "token") then
      ret tt                   (* do nothing *)
    else
      logger WARNING "entityAvailable: **UNSUPPORTED TYPE**: %s").

(** The body of [for eid, device in will_delete.items()]. *)
Definition delete_device (eid : string) : M unit :=
  device_set_available_at eid false >>
  let* device_entry := dr_async_get_device eid in
  match device_entry with
  | Some entry =>
      dr_async_remove_device eid (entry_id entry) >>
      logger DEBUG "removed device_entry: %s %s"
  | None => ret tt
  end >>
  modify (λ s, set_parsed_devices (delete eid (parsed_devices s)) s).

(** The body of [for item in msg_data] of [_on_entity_deleted]. *)
Definition entity_deleted_item (item : SimpleItem) : M unit :=
  let did_ := simple_id item in        (* did or scene_id *)
  if String.prefix "scene-" did_ then
    let* scene := gets (λ s, scenes s !! did_) in
    match scene with
    | Some scene =>
        scene_set_available_at did_ false >>
        modify (λ s, set_scenes (delete did_ (scenes s)) s) >>
        emit (ErRemove (entity_set_available false scene))
    | None => ret tt
    end
  else
    let* will_delete :=
      gets (λ s, filter (λ kv, did_ = did kv.2) (parsed_devices s)) in
    for_each (map_to_list will_delete) (λ kv, delete_device kv.1).

Definition _on_entity_deleted (msg_data : list SimpleItem) : M unit :=
  logger DEBUG "EVENT: entityDeleted: %s" >>
  for_each msg_data entity_deleted_item.

Definition _on_entity_updated (msg_data : list EntityData) : M unit :=
  logger DEBUG "EVENT: entityUpdated: %s" >>
  for_each msg_data (λ item,
    if decide (entity_type item = "scene") then
      match item with
      | EScene sc => setup_scene sc
      | _ => raise KeyError
      end
    else if decide (entity_type item = "user") then
      logger DEBUG "type user, ignore."
    else
      logger INFO "entityUpdated: **UNSUPPORTED TYPE**: %s").

Definition _on_entity_created (msg_data : list EntityData) : M unit :=
  logger DEBUG "EVENT: entityCreated: %s" >>
  for_each msg_data (λ item,
    if decide (entity_type item = "scene") then
      match item with
      | EScene sc => setup_scene sc
      | _ => raise KeyError
      end
    else if decide (entity_type item = "devicegroup") then
      match item with
      | EDeviceGroup g => setup_device_group g
      | _ => raise KeyError
      end
    else
      logger DEBUG "entityCreated: **UNSUPPORTED TYPE**: %s").

(** [for device in self.parsed_devices.values(): if keep(device):
      device.set_available(b)] *)
Definition set_devices_available (keep : TerncyDevice → bool) (b : bool)
    : M unit :=
  let* devices := gets parsed_devices in
  for_each (map_to_list devices) (λ kv,
    when (keep kv.2) (device_set_available_at kv.1 b)).

Definition _on_offline (msg_data : list SimpleItem) : M unit :=
  logger DEBUG "EVENT: offline: %s" >>
  for_each msg_data (λ device_data,
    let did_ := simple_id device_data in
    set_devices_available (λ device, bool_decide (did_ = did device)) false).

(** *** Dispatch

    A payload in another shape than the one its declared type announces is
    outside the typed payload records; the handler then ends with
    [TypeError]. *)
Definition terncy_event_handler (event : Event) : M unit :=
  match event with
  | EventMessage msg =>
      match msg_entities msg with
      | None => logger WARNING "'entities' not found in message!"
      | Some msg_data =>
          let event_type := msg_type msg in
          if decide (event_type = Some "report") then
            match msg_data with
            | ReportMsgData l => _on_report l
            | _ => raise TypeError
            end
          else if decide (event_type = Some "keyPressed") then
            match msg_data with
            | KeyPressedMsgData l => _on_key_pressed l
            | _ => raise TypeError
            end
          else if decide (event_type = Some "keyLongPressed") then
            match msg_data with
            | SimpleMsgData l => _on_key_long_pressed l
            | _ => raise TypeError
            end
          else if decide (event_type = Some "rotation") then
            match msg_data with
            | SimpleMsgData l => _on_rotation l
            | _ => raise TypeError
            end
          else if decide (event_type = Some "entityAvailable") then
            match msg_data with
            | EntityMsgData l => _on_entity_available l
            | _ => raise TypeError
            end
          else if decide (event_type = Some "entityDeleted") then
            match msg_data with
            | SimpleMsgData l => _on_entity_deleted l
            | _ => raise TypeError
            end
          else if decide (event_type = Some "entityCreated") then
            match msg_data with
            | EntityMsgData l => _on_entity_created l
            | _ => raise TypeError
            end
          else if decide (event_type = Some "entityUpdated") then
            match msg_data with
            | EntityMsgData l => _on_entity_updated l
            | _ => raise TypeError
            end
          else if decide (event_type = Some "offline") then
            match msg_data with
            | SimpleMsgData l => _on_offline l
            | _ => raise TypeError
            end
          else if decide (event_type = None) then
            logger DEBUG "event type is None, ignore. %s"
          else
            logger WARNING "unsupported event type: %s, entities: %s"
      end
  | Connected =>
      logger INFO "Connected: %s" >>
      async_create_task CoRefresh
  | Disconnected =>
      logger WARNING "Disconnected: %s" >>
      set_devices_available (λ _, true) false >>
      let* stopped := gets _stopped in
      when (negb stopped)
        (async_create_background_task (CoReconnect ReconnectScheduled) "Reconnect")
  | UnknownEvent =>
      logger WARNING "Unknown Event: %s"
  end.

(** *** Refresh *)

Definition _fetch_data {A} (ent_type : string)
    (response : Result (Response A)) : M (list A) :=
  emit (ApiGetEntities ent_type) >>
  match response with
  | Raise e => raise e
  | Ok NoRsp =>
      logger WARNING "fetch %s error, response: %s" >>
      ret []
  | Ok (Rsp entities) => ret (default [] entities)
  end.

(** [DEFAULT_ROOMS.get(lang, DEFAULT_ROOMS.get("en"))] *)
Definition default_rooms_for (lang : string) : option (gmap string string) :=
  match DEFAULT_ROOMS K !! lang with
  | Some table => Some table
  | None => DEFAULT_ROOMS K !! "en"
  end.

(** [room["name"] or default_rooms.get(room["id"], "")] *)
Definition resolve_room_name (default_rooms : option (gmap string string))
    (room : RoomData) : M string :=
  if decide (room_name room = "") then
    match default_rooms with
    | Some table => ret (default "" (table !! room_id room))
    | None => raise AttributeError
    end
  else ret (room_name room).

(** The dictionary comprehension over the fetched rooms. *)
Definition resolve_rooms (default_rooms : option (gmap string string))
    (rooms : list RoomData) : M (gmap string string) :=
  for_fold rooms ∅ (λ m room,
    let* room_name := resolve_room_name default_rooms room in
    ret (<[room_id room := room_name]> m)).

(** [async_refresh_devices] up to the end of its room step. *)
Definition refresh_rooms (response : Result (Response RoomData)) : M unit :=
  logger DEBUG "Fetching data..." >>
  let* lang := gets language in
  let default_rooms := default_rooms_for lang in
  try_except
    (let* rooms := _fetch_data "room" response in
     let* resolved := resolve_rooms default_rooms rooms in
     modify (set_room_data resolved) >>
     logger DEBUG "ROOM %s: %s")
    (λ e, logger WARNING "fetch room error: %s").

Definition refresh_devices (response : Result (Response PhysicalDeviceData))
    : M unit :=
  let* devices := _fetch_data "device" response in
  for_each devices (λ device_data,
    let svc_list := default [] (dd_services device_data) in
    setup_device device_data svc_list).

Definition refresh_device_groups (response : Result (Response DeviceGroupData))
    : M unit :=
  let* device_groups := _fetch_data "devicegroup" response in
  let* export := gets export_device_groups in
  when export (for_each device_groups setup_device_group).

Definition refresh_scenes (response : Result (Response SceneData)) : M unit :=
  let* scene_list := _fetch_data "scene" response in
  logger DEBUG "SCENE: %s" >>
  let* export := gets export_scenes in
  when export
    (let* gateway_id := gets unique_id in
     dr_async_get_or_create
       {| arg_identifier := gateway_id ++ "_scenes";
          arg_connection := None;
          arg_model := Some "TERNCY-SCENE";
          arg_name := "TERNCY-SCENE";
          arg_sw_version := None;
          arg_hw_version := None;
          arg_suggested_area := None;
          arg_via_device := Some gateway_id |} >>
     for_each scene_list setup_scene).

(** [async_refresh_devices], given the four answers of the hub.  The
    coroutine is suspended at each fetch; the steps are also available one
    by one above. *)
Definition async_refresh_devices
    (rooms : Result (Response RoomData))
    (devices : Result (Response PhysicalDeviceData))
    (groups : Result (Response DeviceGroupData))
    (scene_list : Result (Response SceneData)) : M unit :=
  refresh_rooms rooms >>
  refresh_devices devices >>
  refresh_device_groups groups >>
  refresh_scenes scene_list.

(** *** The event loop

    What can happen to a running gateway: the session client delivers an
    event, somebody awaits [stop()], the loop resumes a scheduled coroutine
    (for a sleeping [reconnect]: its delay has elapsed), or the connectivity
    of the session client changes. *)
Inductive Step :=
| Deliver (event : Event)
| CallStop
| Resume (task : nat)
| ConnectivityChange (connected : bool).

Definition set_task (i : nat) (c : Coroutine) : M unit :=
  modify (λ s, set_tasks (<[i := c]> (tasks s)) s).

Definition step (st : Step) : M unit :=
  match st with
  | Deliver event => terncy_event_handler event
  | CallStop => stop
  | Resume i =>
      let* task := gets (λ s, tasks s !! i) in
      match task with
      | Some (CoReconnect ReconnectScheduled) =>
          let* pc := reconnect_begin in
          set_task i (CoReconnect pc)
      | Some (CoReconnect ReconnectSleeping) =>
          let* pc := reconnect_resume in
          set_task i (CoReconnect pc)
      | _ => ret tt
      end
  | ConnectivityChange b => modify (set_api_connected b)
  end.

Definition run_steps (l : list Step) : M unit := for_each l step.

End Gateway.

(** ** Reading the outcome of a run *)

Definition result_of {A} (r : Result A * State * list Effect) : Result A := r.1.1.
Definition state_of {A} (r : Result A * State * list Effect) : State := r.1.2.
Definition effects_of {A} (r : Result A * State * list Effect) : list Effect := r.2.

(** [wp m s Q]: from [s], [m] returns normally, with a value and in a state
    that satisfy [Q]. *)
Definition wp {A} (m : M A) (s : State) (Q : A → State → Prop) : Prop :=
  ∃ a s' t, m s = (Ok a, s', t) ∧ Q a s'.

(** What a run emitted, by kind of call. *)
Definition is_debug_log (e : Effect) : bool :=
  match e with
  | Log DEBUG _ => true
  | _ => false
  end.

(** Nothing but debug records: no warning, no call on a collaborator. *)
Definition silent (t : list Effect) : bool := forallb is_debug_log t.

(** The entry ids passed to [device_registry.async_remove_device]. *)
Definition dr_removals (t : list Effect) : list N :=
  omap (λ e, match e with DrRemoveDevice i => Some i | _ => None end) t.

(** The objects passed to the entity registry's [async_remove]. *)
Definition er_removals (t : list Effect) : list TerncyEntity :=
  omap (λ e, match e with ErRemove sc => Some sc | _ => None end) t.

(** The devices [set_available(False)] was called on. *)
Definition marked_unavailable (t : list Effect) : list string :=
  omap (λ e, match e with DeviceSetAvailable i false => Some i | _ => None end) t.

Definition connect_calls (t : list Effect) : nat :=
  length (List.filter (λ e, match e with ApiStart => true | _ => false end) t).

Definition reconnects_scheduled (t : list Effect) : nat :=
  length (List.filter
    (λ e, match e with
          | CreateBackgroundTask (CoReconnect ReconnectScheduled) _ => true
          | _ => false
          end) t).

(** The values of [type] the dispatcher has a handler for. *)
Definition recognized_types : list string :=
  ["report"; "keyPressed"; "keyLongPressed"; "rotation"; "entityAvailable";
   "entityDeleted"; "entityCreated"; "entityUpdated"; "offline"].

(** The listener calls of a run, as (listener, data) pairs. *)
Definition listener_calls (t : list Effect) : list (nat * list AttrValue) :=
  omap (λ e, match e with ListenerCall l d => Some (l, d) | _ => None end) t.

(** The name a fetched room resolves to when the locale has a default table:
    the hub-supplied name, else the table's entry for the room id, else the
    empty string. *)
Definition resolved_name (table : gmap string string) (room : RoomData) : string :=
  if decide (room_name room = "") then default "" (table !! room_id room)
  else room_name room.

(** What the loop over [will_delete] leaves behind and emits, per deleted
    eid: the state without the eid in [parsed_devices] and in the host
    registry, and the calls made for it. *)
Definition deleted_state (eids : list string) (s : State) : State :=
  set_parsed_devices (foldl (λ m k, delete k m) (parsed_devices s) eids)
    (set_device_registry (foldl (λ m k, delete k m) (device_registry s) eids)
       (dr_next s) s).

Definition delete_device_effects (registry : gmap string DeviceEntry)
    (eid : string) : list Effect :=
  DeviceSetAvailable eid false ::
  match registry !! eid with
  | Some entry =>
      [DrRemoveDevice (entry_id entry); Log DEBUG "removed device_entry: %s %s"]
  | None => []
  end.

(** What one pass of the service loop of [setup_device] leaves under the
    eid of the service: a known device gets availability and attribute state
    applied again; an unknown one is first created, with one presentation
    object per description that applies, when its profile is known and a
    description applies, and is left out otherwise. *)
Definition refresh_device (online : bool) (attributes : list AttrValue)
    (device : TerncyDevice) : TerncyDevice :=
  device_update_state attributes (device_set_available online device).

Definition service_entity (eid : string) (attributes : list AttrValue)
    (description : TerncyEntityDescription) : TerncyEntity :=
  entity_set_device_info eid (create_entity eid description None attributes).

Definition created_device (K : Consts) (did_ : string) (svc : SvcData)
    : option TerncyDevice :=
  let attributes := default [] (svc_attributes svc) in
  match svc_profile svc ≫= (λ p, PROFILES K !! p) with
  | Some profile_descriptions =>
      let descriptions :=
        List.filter (description_applies (attr <$> attributes))
          profile_descriptions in
      if (0 <? length descriptions)%nat then
        Some (foldl (λ d description,
                device_append_entity
                  (service_entity (svc_id svc) attributes description) d)
                (new_TerncyDevice did_ (svc_id svc) (svc_profile svc))
                descriptions)
      else None
  | None => None
  end.

Definition service_step (K : Consts) (did_ : string) (online : bool)
    (svc : SvcData) (known : option TerncyDevice) : option TerncyDevice :=
  refresh_device online (default [] (svc_attributes svc)) <$>
    match known with
    | Some device => Some device
    | None => created_device K did_ svc
    end.

Definition services_step (K : Consts) (device_data : PhysicalDeviceData)
    (svc_list : list SvcData) (devices : gmap string TerncyDevice)
    : gmap string TerncyDevice :=
  foldl (λ m svc,
      partial_alter
        (service_step K (dd_id device_data) (default true (dd_online device_data)) svc)
        (svc_id svc) m)
    devices svc_list.

(** The event that announces a device with its services. *)
Definition entity_available (device_data : PhysicalDeviceData) : Step :=
  Deliver (EventMessage
    (mkMsg (Some "entityAvailable") (Some (EntityMsgData [EDevice device_data])))).

(** The effects of the two channels of a key press on [eid]: the trigger on
    the local device object, when there is one, then the event on the host
    bus, when the host registry has a device entry. *)
Definition key_press_channels (K : Consts) (eid label : string) (n : Z)
    (s : State) : list Effect :=
  (match parsed_devices s !! eid with
   | Some _ => [DeviceTriggerEvent eid label (Some n)]
   | None => []
   end ++
   match device_registry s !! eid with
   | Some entry =>
       [BusAsyncFire (DOMAIN K ++ "_" ++ ACTION_PRESSED K) (entry_id entry)
          eid (Some n)]
   | None => []
   end)%list.

(** [K] with another button label table. *)
Definition with_button_events (table : Z → option string) (K : Consts) : Consts :=
  {| DOMAIN := DOMAIN K; TERNCY_MANU_NAME := TERNCY_MANU_NAME K;
     ACTION_PRESSED := ACTION_PRESSED K;
     ACTION_LONG_PRESS := ACTION_LONG_PRESS K;
     ACTION_ROTATION := ACTION_ROTATION K;
     ACTION_SINGLE_PRESS := ACTION_SINGLE_PRESS K;
     EVENT_ENTITY_BUTTON_EVENTS := table;
     DEFAULT_ROOMS := DEFAULT_ROOMS K; PROFILES := PROFILES K |}.

(** ** Sample data

    A gateway with one known device, used to run the handlers on concrete
    inputs. *)
Module Sample.

Definition consts : Consts :=
  {| DOMAIN := "terncy"; TERNCY_MANU_NAME := "Xiaoyan Tech.";
     ACTION_PRESSED := "pressed"; ACTION_LONG_PRESS := "long_press";
     ACTION_ROTATION := "rotation"; ACTION_SINGLE_PRESS := "single_press";
     EVENT_ENTITY_BUTTON_EVENTS :=
       (λ n, if (n =? 2)%Z then Some "double_press"
             else if (n =? 3)%Z then Some "triple_press"
             else None);
     DEFAULT_ROOMS := {[ "en" := {[ "room-1" := "Living Room" ]} ]};
     PROFILES := {[ 1%Z := [mkDescription "switch" "Switch" []] ]} |}.

Definition wall_switch : TerncyDevice :=
  mkDevice "dev-1" "dev-1-01" (Some 1%Z) [] true ∅.

Definition wall_switch_entry : DeviceEntry :=
  mkEntry 7
    (mkArgs "dev-1-01" (Some ("zigbee", "dev-1-01")) None "Wall switch"
       None None None (Some "box-12-34"))%string.

Definition evening : TerncyEntity :=
  mkEntity "scene-000001" (mkDescription "scene" "Evening" [])
    (Some "box-12-34") (Some "box-12-34_scenes") "Evening" true
    {[ "on" := VInt 0 ]}.

(** The device is known locally, the host registry has no entry for it. *)
Definition gateway : State :=
  {| _stopped := false;
     parsed_devices := {[ "dev-1-01" := wall_switch ]};
     _listeners := {[ "dev-1-01" := {[ 1%nat; 2%nat ]} ]};
     room_data := ∅;
     scenes := {[ "scene-000001" := evening ]};
     name := "Terncy hub"; mac := "12:34";
     export_device_groups := true; export_scenes := true;
     unique_id := "box-12-34"; api_connected := false;
     language := "en"; device_registry := ∅; dr_next := 8; tasks := [] |}.

(** The same gateway, with the host registry entry of the device. *)
Definition registered_gateway : State :=
  set_device_registry {[ "dev-1-01" := wall_switch_entry ]} 8 gateway.

(** A device whose service list names the eid ["dev-2-01"] twice: first
    with a profile nobody knows, then with the switch profile. *)
Definition twice_listed : PhysicalDeviceData :=
  mkDeviceData "dev-2" None None None None None (Some "Lamp")
    (Some [mkSvc "dev-2-01" "" (Some [mkAttr "on" (VInt 1)]) (Some 99%Z) None;
           mkSvc "dev-2-01" "" None (Some 1%Z) None]).

(** A device with two services. *)
Definition two_gang : PhysicalDeviceData :=
  mkDeviceData "dev-3" (Some "TERNCY-WS01") (Some "12") None (Some true) None
    (Some "Switch")
    (Some [mkSvc "dev-3-01" "" (Some [mkAttr "on" (VInt 1)]) (Some 1%Z) None;
           mkSvc "dev-3-02" "Left" (Some [mkAttr "on" (VInt 0)]) (Some 99%Z) None]).

End Sample.

(** ** Further observations on runs *)

(** The listener calls an item of a report message gives rise to. *)
Definition report_effects (s : State) (item : ReportItem) : list Effect :=
  match rep_id item with
  | Some eid =>
      (λ listener, ListenerCall listener (default [] (rep_attributes item)))
        <$> elements (default ∅ (_listeners s !! eid))
  | None => []
  end.

(** The two channels of a long press or a rotation on [eid]. *)
Definition action_channels (K : Consts) (action eid : string) (s : State)
    : list Effect :=
  (match parsed_devices s !! eid with
   | Some _ => [DeviceTriggerEvent eid action None]
   | None => []
   end ++
   match device_registry s !! eid with
   | Some entry => [BusAsyncFire (DOMAIN K ++ "_" ++ action) (entry_id entry) eid None]
   | None => []
   end)%list.

(** The presentation objects handed to the host's add-entity path, and the
    arguments of the upserts on the device registry. *)
Definition added_entities (t : list Effect) : list TerncyEntity :=
  omap (λ e, match e with HaAddEntity entity => Some entity | _ => None end) t.

Definition dr_upserts (t : list Effect) : list DeviceArgs :=
  omap (λ e, match e with DrGetOrCreate args => Some args | _ => None end) t.

(** The entity types the session client was asked for. *)
Definition fetched_types (t : list Effect) : list string :=
  omap (λ e, match e with ApiGetEntities ent_type => Some ent_type | _ => None end) t.

(** What [_on_offline] makes of a device, given the device ids of the
    message. *)
Definition offline_device (ids : list string) (device : TerncyDevice)
    : TerncyDevice :=
  if bool_decide (did device ∈ ids) then device_set_available false device
  else device.

(** The devices map is keyed by the eid of the device it holds, and the host
    registry has a device entry for every eid of the map. *)
Definition consistent (s : State) : Prop :=
  ∀ k device, parsed_devices s !! k = Some device →
    eid device = k ∧ is_Some (device_registry s !! k).

(** [triple P m Q E]: from a state in [P], [m] either returns a value and a
    state in [Q], or raises in a state in [E]. *)
Definition triple {A} (P : State → Prop) (m : M A) (Q : A → State → Prop)
    (E : State → Prop) : Prop :=
  ∀ s, P s →
    match m s with
    | (Ok a, s', _) => Q a s'
    | (Raise _, s', _) => E s'
    end.

(** [m] keeps [I], whether it returns or raises. *)
Definition keeps {A} (I : State → Prop) (m : M A) : Prop :=
  triple I m (λ _, I) I.

(** What a sleeping [reconnect] emits when its delay has elapsed. *)
Definition reconnect_resume_effects (s : State) : list Effect :=
  if api_connected s then [Log WARNING "service is still connected while retry"]
  else [Log WARNING "Start reconnecting..."; ApiStart].

(** The display name of a scene, the presentation object [setup_scene]
    creates for it, and the update it applies to the object of the scene,
    new or known. *)
Definition scene_display_name (scene_data : SceneData) : string :=
  default (scene_id scene_data) (truthy (scene_name scene_data)).

Definition scene_entity (gateway_id : string) (scene_data : SceneData)
    : TerncyEntity :=
  entity_set_device_info (gateway_id ++ "_scenes")
    (create_entity (scene_id scene_data)
       (mkDescription "scene" (scene_display_name scene_data) [])
       (Some gateway_id) [mkAttr "on" (scene_on scene_data)]).

Definition scene_refresh (scene_data : SceneData) (entity : TerncyEntity)
    : TerncyEntity :=
  entity_update_state [mkAttr "on" (scene_on scene_data)]
    (entity_set_available (default true (scene_online scene_data)) entity).

(** The value [room_area] leaves in [suggested_area]. *)
Definition area_of (rooms : gmap string string) (suggested_area : option string)
    (room : option string) : option string :=
  match truthy room with
  | Some r =>
      match truthy (rooms !! r) with
      | Some n => Some n
      | None => suggested_area
      end
  | None => suggested_area
  end.

(** The arguments of the registry upsert for a new service. *)
Definition service_args (device_data : PhysicalDeviceData)
    (sw_version hw_version suggested_area : option string) (gateway_id : string)
    (svc : SvcData) : DeviceArgs :=
  {| arg_identifier := svc_id svc;
     arg_connection := Some ("zigbee", svc_id svc);
     arg_model := dd_model device_data;
     arg_name := service_name device_data svc;
     arg_sw_version := sw_version;
     arg_hw_version := hw_version;
     arg_suggested_area := suggested_area;
     arg_via_device := Some gateway_id |}.

(** The descriptions of the profile of a service that apply to it. *)
Definition applicable (K : Consts) (svc : SvcData)
    : option (list TerncyEntityDescription) :=
  List.filter (description_applies (attr <$> default [] (svc_attributes svc)))
    <$> (svc_profile svc ≫= λ p, PROFILES K !! p).

(** A call that [setup_scene] may issue for the scenes of the container
    [container]: every presentation object handed to the host names the
    container as its device, and the host's device registry is neither
    written nor asked to remove an entry. *)
Definition scene_call (container : string) (e : Effect) : Prop :=
  match e with
  | HaAddEntity entity => _attr_device_info entity = Some container
  | DrGetOrCreate _ | DrRemoveDevice _ => False
  | _ => True
  end.

(** The registry entry that holds all scene switches. *)
Definition scenes_container_args (gateway_id : string) : DeviceArgs :=
  {| arg_identifier := gateway_id ++ "_scenes";
     arg_connection := None;
     arg_model := Some "TERNCY-SCENE";
     arg_name := "TERNCY-SCENE";
     arg_sw_version := None;
     arg_hw_version := None;
     arg_suggested_area := None;
     arg_via_device := Some gateway_id |}.

(** A gateway that exports neither device groups nor scenes. *)
Definition devices_only_gateway : State :=
  {| _stopped := false;
     parsed_devices := ∅; _listeners := ∅; room_data := ∅; scenes := ∅;
     name := "Terncy hub"; mac := "12:34";
     export_device_groups := false; export_scenes := false;
     unique_id := "box-12-34"; api_connected := true;
     language := "en"; device_registry := ∅; dr_next := 1; tasks := [] |}.

(** Constants with a default room table for two locales, and a gateway of
    a given locale with nothing in it. *)
Definition two_locales : Consts :=
  {| DOMAIN := "terncy"; TERNCY_MANU_NAME := "Xiaoyan Tech.";
     ACTION_PRESSED := "pressed"; ACTION_LONG_PRESS := "long_press";
     ACTION_ROTATION := "rotation"; ACTION_SINGLE_PRESS := "single_press";
     EVENT_ENTITY_BUTTON_EVENTS := (λ _, None);
     DEFAULT_ROOMS :=
       {[ "en" := {[ "room-1" := "Living Room"; "room-2" := "Bedroom" ]};
          "de" := {[ "room-1" := "Wohnzimmer" ]} ]};
     PROFILES := ∅ |}.

Definition gateway_in (lang : string) : State :=
  {| _stopped := false;
     parsed_devices := ∅; _listeners := ∅; room_data := ∅; scenes := ∅;
     name := "Terncy hub"; mac := "12:34";
     export_device_groups := true; export_scenes := true;
     unique_id := "box-12-34"; api_connected := true;
     language := lang; device_registry := ∅; dr_next := 1; tasks := [] |}.

(** The ids of an entityDeleted message that carry the scene prefix, and
    the ids that do not and are taken for device ids. *)
Definition scene_ids (msg_data : list SimpleItem) : list string :=
  List.filter (String.prefix "scene-") (simple_id <$> msg_data).

Definition device_ids (msg_data : list SimpleItem) : list string :=
  List.filter (λ i, negb (String.prefix "scene-" i)) (simple_id <$> msg_data).

(** What the payloads [msg_data] of an entityDeleted message make of a
    gateway [s], with [s'] the gateway afterwards and [t] the calls issued:
    the scenes named by a scene id and the devices owned by a device id are
    gone, nothing else is; every removed device was marked unavailable, once,
    and met by one removal call on the device registry; every removed scene
    was met by one removal call on the entity registry. *)
Definition deletion (msg_data : list SimpleItem) (s s' : State)
    (t : list Effect) : Prop :=
  scenes s'
  = filter (λ kv : string * TerncyEntity, kv.1 ∉ scene_ids msg_data) (scenes s) ∧
  parsed_devices s'
  = filter (λ kv : string * TerncyDevice, did kv.2 ∉ device_ids msg_data)
      (parsed_devices s) ∧
  (∀ k, is_Some (parsed_devices s !! k) → parsed_devices s' !! k = None →
        k ∈ marked_unavailable t) ∧
  (length (marked_unavailable t) + size (parsed_devices s')
   = size (parsed_devices s))%nat ∧
  (length (dr_removals t) + size (parsed_devices s')
   = size (parsed_devices s))%nat ∧
  (∀ k scene, scenes s !! k = Some scene → scenes s' !! k = None →
              entity_set_available false scene ∈ er_removals t) ∧
  (length (er_removals t) + size (scenes s') = size (scenes s))%nat.

(** * Verification *)

(** ** Running the monad *)

Lemma bind_ret_l {A B} (a : A) (f : A → M B) (s : State) :
  bind (ret a) f s = f a s.
Proof. unfold bind, ret. by destruct (f a s) as [[r s2] t2]. Qed.

Lemma for_each_app {A} (l1 l2 : list A) (body : A → M unit) (s : State) :
  for_each (l1 ++ l2)%list body s = (for_each l1 body >> for_each l2 body) s.
Proof.
  revert s. induction l1 as [|x l1 IH]; intros s; simpl.
  - by rewrite bind_ret_l.
  - unfold bind. destruct (body x s) as [[[[]|e] s1] t1]; [|done].
    rewrite IH. unfold bind.
    destruct (for_each l1 body s1) as [[[[]|e] s2] t2]; [|done].
    destruct (for_each l2 body s2) as [[r s3] t3]. by rewrite app_assoc.
Qed.

(** ** Slicing by character *)

(** [last2] counts characters, not bytes, and returns a short string whole. *)
Lemma last2_counts_characters :
  last2 "dev-3-01" = "01" ∧ last2 "sw-é2" = "é2" ∧ last2 "灯光" = "灯光" ∧
  last2 "7" = "7" ∧ last2 "" = "".
Proof. repeat split. Qed.

(** On a string without continuation bytes (ASCII in particular) the two
    characters are the two last bytes. *)
Lemma take_chars_rev_bytes (l : list Ascii.ascii) (n : nat) :
  Forall (λ c, is_continuation_byte c = false) l →
  take_chars_rev l n = take n l.
Proof.
  intros Hl. revert n. induction Hl as [|c l Hc Hl IH]; intros [|n]; try done.
  cbn [take_chars_rev take]. by rewrite Hc, IH.
Qed.

(** ** Key presses *)

Section KeyPressed.
Context (K : Consts).

Lemma button_event_type_in_range (n : Z) (label : string) (s : State) :
  (1 ≤ n ≤ 9)%Z →
  EVENT_ENTITY_BUTTON_EVENTS K n = Some label →
  button_event_type K n s = (Ok label, s, []).
Proof.
  intros [H1 H9] Hl. unfold button_event_type.
  rewrite (proj2 (Z.leb_le 1 n) H1), (proj2 (Z.leb_le n 9) H9), Hl. done.
Qed.

Lemma button_event_type_out_of_range (n : Z) (s : State) :
  (n < 1 ∨ 9 < n)%Z →
  button_event_type K n s = (Ok (ACTION_SINGLE_PRESS K), s, []).
Proof.
  intros H. unfold button_event_type.
  destruct H as [H|H].
  - by rewrite (proj2 (Z.leb_gt 1 n) H).
  - rewrite (proj2 (Z.leb_gt n 9) H). by rewrite andb_false_r.
Qed.

(** Once the label is known, a payload fires the two channels and nothing
    else, whatever targets exist. *)
Lemma key_pressed_entity_channels entity_data a rest label (s : State) :
  kp_attributes entity_data = Some (a :: rest) →
  button_event_type K (times a) s = (Ok label, s, []) →
  key_pressed_entity K entity_data s
  = (Ok tt, s, key_press_channels K (kp_id entity_data) label (times a) s).
Proof.
  intros Ha Hl. unfold key_pressed_entity, key_press_channels. rewrite Ha.
  unfold bind at 1. cbn [ret]. unfold bind at 1. rewrite Hl.
  unfold bind, gets, dr_async_get_device, emit, ret; cbn.
  destruct (parsed_devices s !! kp_id entity_data);
    destruct (device_registry s !! kp_id entity_data); reflexivity.
Qed.

End KeyPressed.

Lemma key_pressed_entity_state (K : Consts) (item : KeyPressedItem) (s : State) :
  state_of (key_pressed_entity K item s) = s.
Proof.
  unfold key_pressed_entity.
  destruct (kp_attributes item) as [[|a rest]|]; [done| |done].
  unfold bind at 1. cbn [ret]. unfold bind at 1, button_event_type.
  destruct ((1 <=? times a)%Z && (times a <=? 9)%Z);
    [destruct (EVENT_ENTITY_BUTTON_EVENTS K (times a)); [|done]|];
    unfold bind, gets, dr_async_get_device, emit, ret; cbn;
    destruct (parsed_devices s !! kp_id item);
    destruct (device_registry s !! kp_id item); reflexivity.
Qed.

Lemma for_each_state {A} (l : list A) (body : A → M unit) (s : State) :
  (∀ x, state_of (body x s) = s) → state_of (for_each l body s) = s.
Proof.
  intros Hbody. induction l as [|x l IH]; [done|].
  cbn [for_each]. unfold bind. specialize (Hbody x).
  destruct (body x s) as [[[[]|e] s1] t1]; cbn in Hbody; subst s1; [|done].
  by destruct (for_each l body s) as [[r s2] t2].
Qed.

Lemma on_key_pressed_state (K : Consts) (msg_data : list KeyPressedItem)
    (s : State) :
  state_of (_on_key_pressed K msg_data s) = s.
Proof.
  unfold _on_key_pressed, bind, logger, emit.
  pose proof (for_each_state msg_data (key_pressed_entity K) s
                (λ x, key_pressed_entity_state K x s)) as Hs.
  by destruct (for_each msg_data (key_pressed_entity K) s) as [[r s2] t2].
Qed.

(** The dispatcher hands a keyPressed message to [_on_key_pressed]. *)
Lemma dispatch_key_pressed (K : Consts) (msg_data : list KeyPressedItem)
    (s : State) :
  terncy_event_handler K
    (EventMessage (mkMsg (Some "keyPressed") (Some (KeyPressedMsgData msg_data)))) s
  = _on_key_pressed K msg_data s.
Proof. reflexivity. Qed.

(** A well-formed payload in the middle of a message: the handler reaches
    it when the payloads before it were handled, fires its two channels, and
    goes on with the payloads after it. *)
Lemma on_key_pressed_at (K : Consts) (pre post : list KeyPressedItem)
    (item : KeyPressedItem) (a : KeyPressedAttr) (rest : list KeyPressedAttr)
    (label : string) (s : State) :
  kp_attributes item = Some (a :: rest) →
  button_event_type K (times a) s = (Ok label, s, []) →
  result_of (_on_key_pressed K pre s) = Ok tt →
  _on_key_pressed K (pre ++ item :: post) s
  = (result_of (_on_key_pressed K post s), s,
     (effects_of (_on_key_pressed K pre s)
      ++ key_press_channels K (kp_id item) label (times a) s
      ++ tail (effects_of (_on_key_pressed K post s)))%list).
Proof.
  intros Ha Hl Hpre.
  pose proof (on_key_pressed_state K pre s) as Hstate_pre.
  pose proof (on_key_pressed_state K post s) as Hstate_post.
  revert Hpre Hstate_pre Hstate_post.
  unfold _on_key_pressed, bind, logger, emit. rewrite for_each_app.
  unfold bind.
  destruct (for_each pre (key_pressed_entity K) s) as [[[[]|e] s1] t1];
    cbn [result_of state_of effects_of fst snd]; [|done].
  intros _ -> Hpost. cbn [for_each]. unfold bind.
  rewrite (key_pressed_entity_channels K item a rest label s Ha Hl).
  destruct (for_each post (key_pressed_entity K) s) as [[r s2] t2].
  cbn in Hpost. subst s2. reflexivity.
Qed.

(** C7. A keyPressed payload with [times = 3], wherever it stands in a
    message whose earlier payloads were handled, makes the handler raise one
    trigger labelled with the table's entry for 3 on the local device object
    when there is one, and fire one bus event carrying [times: 3] when the
    host registry has a device entry: each channel fires on its own target
    only, a missing target is no error (the handler goes on with the
    payloads that follow), and the gateway is left as it was.  Delivered
    alone through the dispatcher, the payload gives the log line of the
    handler and these calls, nothing else. *)
Theorem key_pressed_three_times_dual_channel
    (K : Consts) (pre post : list KeyPressedItem) (item : KeyPressedItem)
    (rest : list KeyPressedAttr) (label : string) (s : State) :
  kp_attributes item = Some (mkTimes 3 :: rest) →
  EVENT_ENTITY_BUTTON_EVENTS K 3 = Some label →
  result_of (_on_key_pressed K pre s) = Ok tt →
  let eid := kp_id item in
  let trigger := DeviceTriggerEvent eid label (Some 3%Z) in
  let fire entry :=
    BusAsyncFire (DOMAIN K ++ "_" ++ ACTION_PRESSED K) (entry_id entry) eid
      (Some 3%Z) in
  let channels :=
    match parsed_devices s !! eid, device_registry s !! eid with
    | Some _, Some entry => [trigger; fire entry]
    | Some _, None => [trigger]
    | None, Some entry => [fire entry]
    | None, None => []
    end in
  _on_key_pressed K (pre ++ item :: post) s
  = (result_of (_on_key_pressed K post s), s,
     (effects_of (_on_key_pressed K pre s) ++ channels
      ++ tail (effects_of (_on_key_pressed K post s)))%list) ∧
  terncy_event_handler K
    (EventMessage (mkMsg (Some "keyPressed") (Some (KeyPressedMsgData [item])))) s
  = (Ok tt, s, Log DEBUG "EVENT: keyPressed: %s" :: channels).
Proof.
  intros Ha Hl Hpre eid trigger fire channels.
  assert (Hlabel : button_event_type K (times (mkTimes 3)) s = (Ok label, s, []))
    by (by apply button_event_type_in_range).
  assert (Hchannels : key_press_channels K (kp_id item) label (times (mkTimes 3)) s
                      = channels).
  { unfold key_press_channels, channels, trigger, fire; fold eid. cbn [times].
    by destruct (parsed_devices s !! eid), (device_registry s !! eid). }
  split.
  - rewrite (on_key_pressed_at K pre post item (mkTimes 3) rest label s Ha Hlabel Hpre).
    by rewrite Hchannels.
  - rewrite dispatch_key_pressed.
    etrans; [exact (on_key_pressed_at K [] [] item (mkTimes 3) rest label s
                      Ha Hlabel eq_refl)|].
    rewrite Hchannels. cbn. by rewrite app_nil_r.
Qed.

Lemma key_pressed_three_times_dual_channel_witness :
  let pressed := mkKeyPressed "dev-1-01" (Some [mkTimes 3]) in
  let unknown := mkKeyPressed "dev-9-01" (Some [mkTimes 3]) in
  kp_attributes pressed = Some [mkTimes 3] ∧
  EVENT_ENTITY_BUTTON_EVENTS Sample.consts 3 = Some "triple_press" ∧
  result_of (_on_key_pressed Sample.consts [unknown] Sample.registered_gateway)
  = Ok tt ∧
  _on_key_pressed Sample.consts [unknown; pressed; unknown]
    Sample.registered_gateway
  = (Ok tt, Sample.registered_gateway,
     [Log DEBUG "EVENT: keyPressed: %s";
      DeviceTriggerEvent "dev-1-01" "triple_press" (Some 3%Z);
      BusAsyncFire "terncy_pressed" 7 "dev-1-01" (Some 3%Z)]).
Proof.
  intros pressed unknown.
  split; [reflexivity|]. split; [reflexivity|]. split; [reflexivity|].
  exact (proj1 (key_pressed_three_times_dual_channel Sample.consts [unknown]
                  [unknown] pressed [] "triple_press" Sample.registered_gateway
                  eq_refl eq_refl eq_refl)).
Defined.

(** C8. A keyPressed payload whose [times] lies outside [1, 9], wherever it
    stands in a message whose earlier payloads were handled, is labelled by
    the handler with the generic single press on both channels and does not
    raise: the handler goes on with the payloads that follow.  The outcome
    is the same for every label table, also one whose every subscript
    raises: the table is not indexed. *)
Theorem key_pressed_out_of_range_single_press
    (K : Consts) (table : Z → option string) (pre post : list KeyPressedItem)
    (item : KeyPressedItem) (a : KeyPressedAttr) (rest : list KeyPressedAttr)
    (s : State) :
  kp_attributes item = Some (a :: rest) →
  (times a < 1 ∨ 9 < times a)%Z →
  let K' := with_button_events table K in
  result_of (_on_key_pressed K' pre s) = Ok tt →
  let channels :=
    key_press_channels K (kp_id item) (ACTION_SINGLE_PRESS K) (times a) s in
  button_event_type K' (times a) s = (Ok (ACTION_SINGLE_PRESS K), s, []) ∧
  _on_key_pressed K' (pre ++ item :: post) s
  = (result_of (_on_key_pressed K' post s), s,
     (effects_of (_on_key_pressed K' pre s) ++ channels
      ++ tail (effects_of (_on_key_pressed K' post s)))%list) ∧
  terncy_event_handler K'
    (EventMessage (mkMsg (Some "keyPressed") (Some (KeyPressedMsgData [item])))) s
  = (Ok tt, s, Log DEBUG "EVENT: keyPressed: %s" :: channels).
Proof.
  intros Ha Hout K' Hpre channels.
  pose proof (button_event_type_out_of_range K' (times a) s Hout) as Hl.
  split; [exact Hl|]. split.
  - exact (on_key_pressed_at K' pre post item a rest _ s Ha Hl Hpre).
  - rewrite dispatch_key_pressed.
    etrans; [exact (on_key_pressed_at K' [] [] item a rest _ s Ha Hl eq_refl)|].
    cbn. by rewrite app_nil_r.
Qed.

Lemma key_pressed_out_of_range_single_press_witness :
  let pressed := mkKeyPressed "dev-1-01" (Some [mkTimes 15]) in
  let zero := mkKeyPressed "dev-1-01" (Some [mkTimes 0]) in
  let K' := with_button_events (λ _, None) Sample.consts in
  kp_attributes pressed = Some [mkTimes 15] ∧
  (15 < 1 ∨ 9 < 15)%Z ∧
  result_of (_on_key_pressed K' [zero] Sample.registered_gateway) = Ok tt ∧
  _on_key_pressed K' [zero; pressed] Sample.registered_gateway
  = (Ok tt, Sample.registered_gateway,
     [Log DEBUG "EVENT: keyPressed: %s";
      DeviceTriggerEvent "dev-1-01" "single_press" (Some 0%Z);
      BusAsyncFire "terncy_pressed" 7 "dev-1-01" (Some 0%Z);
      DeviceTriggerEvent "dev-1-01" "single_press" (Some 15%Z);
      BusAsyncFire "terncy_pressed" 7 "dev-1-01" (Some 15%Z)]).
Proof.
  intros pressed zero K'.
  assert (Hout : (15 < 1 ∨ 9 < 15)%Z) by (right; reflexivity).
  split; [reflexivity|]. split; [exact Hout|]. split; [reflexivity|].
  exact (proj1 (proj2 (key_pressed_out_of_range_single_press Sample.consts
                         (λ _, None) [zero] [] pressed (mkTimes 15) []
                         Sample.registered_gateway eq_refl Hout eq_refl))).
Defined.

(** C10. A keyPressed payload without the [attributes] key is skipped: it
    fires no trigger and no bus event, raises nothing, and the message is
    handled as if the payload were not in it. *)
Theorem key_pressed_without_attributes_skipped
    (K : Consts) (pre post : list KeyPressedItem) (item : KeyPressedItem)
    (s : State) :
  kp_attributes item = None →
  key_pressed_entity K item s = (Ok tt, s, []) ∧
  _on_key_pressed K (pre ++ item :: post) s = _on_key_pressed K (pre ++ post) s.
Proof.
  intros Hnone.
  assert (Hskip : ∀ s', key_pressed_entity K item s' = (Ok tt, s', [])).
  { intros s'. unfold key_pressed_entity. by rewrite Hnone. }
  split; [apply Hskip|].
  assert (Hloop : ∀ s', for_each (pre ++ item :: post) (key_pressed_entity K) s'
                        = for_each (pre ++ post) (key_pressed_entity K) s').
  { intros s'. rewrite !for_each_app. unfold bind.
    destruct (for_each pre (key_pressed_entity K) s') as [[[[]|e] s1] t1]; [|done].
    cbn [for_each]. unfold bind. rewrite Hskip.
    by destruct (for_each post (key_pressed_entity K) s1) as [[r s2] t2]. }
  unfold _on_key_pressed, bind, logger, emit. by rewrite Hloop.
Qed.

Lemma key_pressed_without_attributes_skipped_witness :
  let skipped := mkKeyPressed "dev-9-01" None in
  let pressed := mkKeyPressed "dev-1-01" (Some [mkTimes 2]) in
  kp_attributes skipped = None ∧
  _on_key_pressed Sample.consts [skipped; pressed] Sample.gateway
  = _on_key_pressed Sample.consts [pressed] Sample.gateway.
Proof.
  intros skipped pressed. split; [reflexivity|].
  exact (proj2 (key_pressed_without_attributes_skipped Sample.consts []
                  [pressed] skipped Sample.gateway eq_refl)).
Defined.

(** ** Dispatch by declared type *)

(** C4, as stated, fails: an empty [type] is not ignored the way an unset one
    is, it is reported with the warning of any unsupported type; and a
    message without the [entities] key is reported with a warning whatever
    its type. *)
Lemma empty_type_is_not_silently_ignored :
  let empty_type := EventMessage (mkMsg (Some "") (Some (SimpleMsgData []))) in
  let no_entities := EventMessage (mkMsg None None) in
  effects_of (terncy_event_handler Sample.consts empty_type Sample.gateway)
  = [Log WARNING "unsupported event type: %s, entities: %s"] ∧
  silent (effects_of (terncy_event_handler Sample.consts empty_type Sample.gateway))
  = false ∧
  effects_of (terncy_event_handler Sample.consts no_entities Sample.gateway)
  = [Log WARNING "'entities' not found in message!"].
Proof. repeat split. Qed.

(** C4, amended.  A message that carries the [entities] key is ignored with
    a debug record only when its [type] is unset ([None]); for every other
    value that is not a handled type, the empty string included, the
    dispatcher logs a warning and drops the message.  A message without the
    [entities] key is logged with a warning and dropped whatever its type.
    In all three cases the state is left as it was and nothing is notified. *)
Theorem unset_type_ignored_other_types_logged
    (K : Consts) (msg : Msg) (s : State) :
  let run := terncy_event_handler K (EventMessage msg) s in
  match msg_entities msg with
  | None => run = (Ok tt, s, [Log WARNING "'entities' not found in message!"])
  | Some _ =>
      (msg_type msg = None →
       run = (Ok tt, s, [Log DEBUG "event type is None, ignore. %s"])) ∧
      (∀ t, msg_type msg = Some t → t ∉ recognized_types →
       run = (Ok tt, s, [Log WARNING "unsupported event type: %s, entities: %s"]))
  end.
Proof.
  intros run. subst run. unfold terncy_event_handler.
  destruct (msg_entities msg) as [msg_data|]; [|done]. split.
  - intros ->. reflexivity.
  - intros t -> Hnot.
    repeat match goal with
           | |- context [decide (Some t = Some ?x)] =>
               destruct (decide (Some t = Some x)) as [Heq|_];
               [exfalso; apply Hnot; simplify_eq; unfold recognized_types;
                set_solver|]
           end.
    destruct (decide (Some t = None)); [done|]. reflexivity.
Qed.

Lemma unset_type_ignored_other_types_logged_witness :
  let heartbeat := mkMsg None (Some (SimpleMsgData [])) in
  let empty_type := mkMsg (Some "") (Some (SimpleMsgData [])) in
  ("" ∉ recognized_types) ∧
  terncy_event_handler Sample.consts (EventMessage heartbeat) Sample.gateway
  = (Ok tt, Sample.gateway, [Log DEBUG "event type is None, ignore. %s"]) ∧
  terncy_event_handler Sample.consts (EventMessage empty_type) Sample.gateway
  = (Ok tt, Sample.gateway,
     [Log WARNING "unsupported event type: %s, entities: %s"]).
Proof.
  intros heartbeat empty_type.
  assert (Hnot : "" ∉ recognized_types)
    by (apply (bool_decide_unpack ("" ∉ recognized_types)); vm_compute; exact I).
  split; [exact Hnot|]. split.
  - exact (proj1 (unset_type_ignored_other_types_logged Sample.consts heartbeat
                    Sample.gateway) eq_refl).
  - exact (proj2 (unset_type_ignored_other_types_logged Sample.consts empty_type
                    Sample.gateway) "" eq_refl Hnot).
Defined.

(** ** Commands *)

Lemma for_each_emit {A} (l : list A) (call : A → Effect) (s : State) :
  for_each l (λ x, emit (call x)) s = (Ok tt, s, call <$> l).
Proof.
  induction l as [|x l IH]; [done|].
  cbn [for_each]. unfold bind, emit at 1. by rewrite IH.
Qed.

Lemma update_listeners_run (eid : string) (data : list AttrValue)
    (s : State) :
  update_listeners eid data s
  = (Ok tt, s,
     (λ l, ListenerCall l data) <$> elements (default ∅ (_listeners s !! eid))).
Proof.
  unfold update_listeners, bind, gets.
  destruct (_listeners s !! eid) as [ls|]; cbn.
  - by rewrite for_each_emit.
  - by rewrite elements_empty.
Qed.

(** C5. [set_attribute] and [set_attributes] first write through the session
    client.  When the write raises, the error reaches the caller, the state
    is unchanged and no listener is called.  When it succeeds, the written
    pairs are pushed at once to the listeners registered for the eid, each
    called once, without any inbound report. *)
Theorem set_attribute_writes_then_notifies
    (eid attr : string) (v : pyval) (attrs : list AttrValue)
    (method : Z) (s : State) :
  let registered := default ∅ (_listeners s !! eid) in
  (∀ e, set_attribute (Some e) eid attr v method s
        = (Raise e, s, [ApiSetAttribute eid attr v method])) ∧
  set_attribute None eid attr v method s
  = (Ok tt, s,
     ApiSetAttribute eid attr v method
       :: ((λ l, ListenerCall l [mkAttr attr v]) <$> elements registered)) ∧
  (∀ e, set_attributes (Some e) eid attrs method s
        = (Raise e, s, [ApiSetAttributes eid attrs method])) ∧
  set_attributes None eid attrs method s
  = (Ok tt, s,
     ApiSetAttributes eid attrs method
       :: ((λ l, ListenerCall l attrs) <$> elements registered)) ∧
  NoDup (elements registered) ∧
  (∀ l, l ∈ registered ↔ l ∈ elements registered).
Proof.
  intros registered. repeat split.
  - unfold set_attribute, api_call, bind, emit, ret.
    by rewrite update_listeners_run.
  - unfold set_attributes, api_call, bind, emit, ret.
    by rewrite update_listeners_run.
  - apply NoDup_elements.
  - by rewrite elem_of_elements.
  - by rewrite elem_of_elements.
Qed.

(** ** Scenes *)

(** C6. With scene export enabled, [setup_scene] on a scene without actions
    has no effect at all when the scene id is not in the scenes map; when it
    is, the scene stays in the map, is marked unavailable, and keeps its name
    and state. *)
Theorem setup_scene_without_actions (scene_data : SceneData) (s : State) :
  export_scenes s = true →
  default [] (scene_actions scene_data) = [] →
  let sid := scene_id scene_data in
  match scenes s !! sid with
  | None => setup_scene scene_data s = (Ok tt, s, [])
  | Some entity =>
      setup_scene scene_data s
      = (Ok tt, set_scenes (<[sid := entity_set_available false entity]> (scenes s)) s,
         [EntitySetAvailable sid false]) ∧
      ent_available (entity_set_available false entity) = false ∧
      _attr_name (entity_set_available false entity) = _attr_name entity ∧
      ent_state (entity_set_available false entity) = ent_state entity
  end.
Proof.
  intros Hexport Hactions sid.
  unfold setup_scene, bind, gets. rewrite Hexport, Hactions. cbn. fold sid.
  destruct (scenes s !! sid) as [entity|] eqn:Hs; [|done].
  repeat split. unfold scene_set_available_at, bind, emit, modify. cbn.
  do 3 f_equal. apply map_eq. intros i. rewrite lookup_alter, lookup_insert.
  case_decide; [subst; by rewrite Hs|done].
Qed.

Lemma setup_scene_without_actions_witness :
  let emptied := mkScene "scene-000001" (Some []) (Some "Night") None (VInt 1) in
  let unseen := mkScene "scene-000002" None (Some "Morning") None (VInt 1) in
  export_scenes Sample.gateway = true ∧
  setup_scene unseen Sample.gateway = (Ok tt, Sample.gateway, []) ∧
  (_attr_name <$> scenes (state_of (setup_scene emptied Sample.gateway))
                    !! "scene-000001") = Some "Evening" ∧
  (ent_available <$> scenes (state_of (setup_scene emptied Sample.gateway))
                       !! "scene-000001") = Some false.
Proof.
  intros emptied unseen. split; [reflexivity|]. split.
  - exact (setup_scene_without_actions unseen Sample.gateway
             eq_refl eq_refl).
  - destruct (setup_scene_without_actions emptied Sample.gateway
                eq_refl eq_refl) as [-> _].
    split; reflexivity.
Defined.

(** ** Room names *)

Section Rooms.
Context (K : Consts).

Lemma resolve_rooms_run (table : gmap string string) (rooms : list RoomData)
    (m0 : gmap string string) (s : State) :
  for_fold rooms m0 (λ m room,
    let* room_name := resolve_room_name (Some table) room in
    ret (<[room_id room := room_name]> m)) s
  = (Ok (foldl (λ m room, <[room_id room := resolved_name table room]> m) m0 rooms),
     s, []).
Proof.
  revert m0. induction rooms as [|room rooms IH]; intros m0; [done|].
  cbn [for_fold foldl]. unfold bind at 1.
  assert (Hbody : (let* room_name := resolve_room_name (Some table) room in
                   ret (<[room_id room := room_name]> m0)) s
                  = (Ok (<[room_id room := resolved_name table room]> m0), s, [])).
  { unfold bind, resolve_room_name, resolved_name, ret.
    by destruct (decide (room_name room = "")). }
  rewrite Hbody, IH. done.
Qed.

Lemma foldl_insert_not_in (table : gmap string string) (post : list RoomData)
    (m0 : gmap string string) (k : string) :
  k ∉ room_id <$> post →
  foldl (λ m room, <[room_id room := resolved_name table room]> m) m0 post !! k
  = m0 !! k.
Proof.
  revert m0. induction post as [|r post IH]; intros m0 Hk; [done|].
  cbn [foldl]. rewrite fmap_cons, not_elem_of_cons in Hk. destruct Hk as [Hne Hk].
  rewrite IH by done. by rewrite lookup_insert_ne.
Qed.

Lemma refresh_rooms_ok (response : Result (Response RoomData)) (s : State) :
  result_of (refresh_rooms K response s) = Ok tt.
Proof.
  unfold refresh_rooms, bind at 1, logger, emit. unfold bind at 1, gets.
  unfold try_except.
  match goal with
  | |- context [match ?m s with _ => _ end] => destruct (m s) as [[[[]|e] s1] t1]
  end; reflexivity.
Qed.

Lemma refresh_rooms_with_table (table : gmap string string)
    (rooms : list RoomData) (s : State) :
  default_rooms_for K (language s) = Some table →
  room_data (state_of (refresh_rooms K (Ok (Rsp (Some rooms))) s))
  = foldl (λ m room, <[room_id room := resolved_name table room]> m) ∅ rooms.
Proof.
  intros Htable.
  unfold refresh_rooms, bind at 1, logger, emit. unfold bind at 1, gets.
  rewrite Htable. unfold try_except, bind at 1, _fetch_data.
  unfold bind at 1, emit, ret. cbn [default]. unfold bind at 1.
  unfold resolve_rooms. rewrite resolve_rooms_run. reflexivity.
Qed.

End Rooms.

(** The table the room step reads: the one of the locale, and the English
    one when [DEFAULT_ROOMS] has none for the locale. *)
Lemma default_rooms_for_locale (K : Consts) (lang : string)
    (table : gmap string string) :
  DEFAULT_ROOMS K !! lang = Some table ∨
  DEFAULT_ROOMS K !! lang = None ∧ DEFAULT_ROOMS K !! "en" = Some table →
  default_rooms_for K lang = Some table.
Proof.
  unfold default_rooms_for. intros [Hlang|[Hlang Hen]]; by rewrite Hlang.
Qed.

(** C9. The room step of the refresh never raises.  With [table] the
    default table of the gateway's locale in [DEFAULT_ROOMS] (the English
    table when [DEFAULT_ROOMS] has none for the locale), every fetched room
    (the one answering for its id, should the hub repeat an id) resolves to
    its hub-supplied name if that is not empty, else to the entry of [table]
    for its id, else to the empty string. *)
Theorem room_names_resolved
    (K : Consts) (table : gmap string string) (pre post : list RoomData)
    (room : RoomData) (s : State) :
  DEFAULT_ROOMS K !! language s = Some table ∨
  DEFAULT_ROOMS K !! language s = None ∧ DEFAULT_ROOMS K !! "en" = Some table →
  room_id room ∉ room_id <$> post →
  let run := refresh_rooms K (Ok (Rsp (Some (pre ++ room :: post)%list))) s in
  let resolved := room_data (state_of run) !! room_id room in
  (∀ K' response s', result_of (refresh_rooms K' response s') = Ok tt) ∧
  resolve_room_name (Some table) room s = (Ok (resolved_name table room), s, []) ∧
  (room_name room ≠ "" → resolved = Some (room_name room)) ∧
  (room_name room = "" →
   ∀ n, table !! room_id room = Some n → resolved = Some n) ∧
  (room_name room = "" → table !! room_id room = None → resolved = Some "").
Proof.
  intros Hlocale Hlast run resolved.
  pose proof (default_rooms_for_locale K (language s) table Hlocale) as Htable.
  split; [intros; apply refresh_rooms_ok|].
  split.
  { unfold resolve_room_name, resolved_name.
    by destruct (decide (room_name room = "")). }
  assert (Hres : resolved = Some (resolved_name table room)).
  { subst resolved run. rewrite (refresh_rooms_with_table K table) by done.
    rewrite foldl_app. cbn [foldl]. rewrite foldl_insert_not_in by done.
    by rewrite lookup_insert_eq. }
  rewrite Hres. unfold resolved_name. repeat split.
  - intros Hname. by destruct (decide (room_name room = "")).
  - intros Hname n Hn. destruct (decide (room_name room = "")); [|done].
    by rewrite Hn.
  - intros Hname Hn. destruct (decide (room_name room = "")); [|done].
    by rewrite Hn.
Qed.

Lemma room_names_resolved_witness :
  let rooms := [mkRoom "room-1" ""; mkRoom "room-2" ""; mkRoom "room-3" "Study"] in
  let german := refresh_rooms two_locales (Ok (Rsp (Some rooms))) (gateway_in "de") in
  let french := refresh_rooms two_locales (Ok (Rsp (Some rooms))) (gateway_in "fr") in
  DEFAULT_ROOMS two_locales !! language (gateway_in "de")
  = Some {[ "room-1" := "Wohnzimmer" ]} ∧
  DEFAULT_ROOMS two_locales !! language (gateway_in "fr") = None ∧
  result_of german = Ok tt ∧
  room_data (state_of german) !! "room-1" = Some "Wohnzimmer" ∧
  room_data (state_of german) !! "room-2" = Some "" ∧
  room_data (state_of german) !! "room-3" = Some "Study" ∧
  room_data (state_of french) !! "room-1" = Some "Living Room" ∧
  room_data (state_of french) !! "room-2" = Some "Bedroom".
Proof.
  intros rooms german french.
  set (de := {[ "room-1" := "Wohnzimmer" ]} : gmap string string).
  set (en := {[ "room-1" := "Living Room"; "room-2" := "Bedroom" ]}
             : gmap string string).
  assert (H1 : "room-1" ∉ room_id <$> [mkRoom "room-2" ""; mkRoom "room-3" "Study"])
    by (apply (bool_decide_unpack _); vm_compute; exact I).
  assert (H2 : "room-2" ∉ room_id <$> [mkRoom "room-3" "Study"])
    by (apply (bool_decide_unpack _); vm_compute; exact I).
  assert (H3 : "room-3" ∉ room_id <$> @nil RoomData)
    by (apply (bool_decide_unpack _); vm_compute; exact I).
  assert (Hde : DEFAULT_ROOMS two_locales !! language (gateway_in "de") = Some de ∨
                DEFAULT_ROOMS two_locales !! language (gateway_in "de") = None ∧
                DEFAULT_ROOMS two_locales !! "en" = Some de)
    by (left; reflexivity).
  assert (Hfr : DEFAULT_ROOMS two_locales !! language (gateway_in "fr") = Some en ∨
                DEFAULT_ROOMS two_locales !! language (gateway_in "fr") = None ∧
                DEFAULT_ROOMS two_locales !! "en" = Some en)
    by (right; split; reflexivity).
  pose proof (room_names_resolved two_locales de
                [] [mkRoom "room-2" ""; mkRoom "room-3" "Study"]
                (mkRoom "room-1" "") (gateway_in "de") Hde H1)
    as (Hok & _ & _ & Hfirst & _).
  pose proof (room_names_resolved two_locales de
                [mkRoom "room-1" ""] [mkRoom "room-3" "Study"]
                (mkRoom "room-2" "") (gateway_in "de") Hde H2)
    as (_ & _ & _ & _ & Hsecond).
  pose proof (room_names_resolved two_locales de
                [mkRoom "room-1" ""; mkRoom "room-2" ""] []
                (mkRoom "room-3" "Study") (gateway_in "de") Hde H3)
    as (_ & _ & Hthird & _).
  pose proof (room_names_resolved two_locales en
                [] [mkRoom "room-2" ""; mkRoom "room-3" "Study"]
                (mkRoom "room-1" "") (gateway_in "fr") Hfr H1)
    as (_ & _ & _ & Hfourth & _).
  pose proof (room_names_resolved two_locales en
                [mkRoom "room-1" ""] [mkRoom "room-3" "Study"]
                (mkRoom "room-2" "") (gateway_in "fr") Hfr H2)
    as (_ & _ & _ & Hfifth & _).
  split; [reflexivity|]. split; [reflexivity|].
  split; [apply Hok|].
  split; [exact (Hfirst eq_refl "Wohnzimmer" eq_refl)|].
  split; [exact (Hsecond eq_refl eq_refl)|].
  split; [apply Hthird; discriminate|].
  split; [exact (Hfourth eq_refl "Living Room" eq_refl)|].
  exact (Hfifth eq_refl "Bedroom" eq_refl).
Defined.

(** ** Deleted entities *)

Lemma for_each_fmap {A B} (f : A → B) (l : list A) (body : B → M unit)
    (s : State) :
  for_each (f <$> l) body s = for_each l (λ x, body (f x)) s.
Proof.
  revert s. induction l as [|x l IH]; intros s; [done|].
  cbn [for_each fmap list_fmap]. unfold bind.
  destruct (body (f x) s) as [[[[]|e] s1] t1]; [|done].
  change (list_fmap A B f l) with (f <$> l). by rewrite IH.
Qed.

Lemma delete_device_run (eid : string) (s : State) :
  delete_device eid s
  = (Ok tt, deleted_state [eid] s, delete_device_effects (device_registry s) eid).
Proof.
  unfold delete_device, deleted_state, delete_device_effects.
  unfold device_set_available_at, dr_async_get_device, dr_async_remove_device.
  unfold bind, emit, modify, gets, logger, emit. cbn.
  destruct s as [st pd ls rd sc nm mc eg es uid conn lang reg nxt tk]. cbn.
  destruct (reg !! eid) as [entry|] eqn:Hreg; cbn;
    unfold set_parsed_devices, set_device_registry; cbn;
    rewrite delete_alter_eq; [done|].
  by rewrite (delete_id reg eid).
Qed.

Lemma delete_device_effects_delete (registry : gmap string DeviceEntry)
    (k : string) (eids : list string) :
  k ∉ eids →
  eids ≫= delete_device_effects (delete k registry)
  = eids ≫= delete_device_effects registry.
Proof.
  induction eids as [|k' eids IH]; intros Hk; [done|].
  rewrite not_elem_of_cons in Hk. destruct Hk as [Hne Hk].
  cbn [mbind list_bind]. rewrite <- (IH Hk). f_equal.
  unfold delete_device_effects. by rewrite lookup_delete_ne.
Qed.

Lemma for_each_delete_device (eids : list string) (s : State) :
  NoDup eids →
  for_each eids delete_device s
  = (Ok tt, deleted_state eids s,
     eids ≫= delete_device_effects (device_registry s)).
Proof.
  revert s. induction eids as [|k eids IH]; intros s Hnd.
  - by destruct s.
  - apply NoDup_cons in Hnd as [Hk Hnd].
    cbn [for_each]. unfold bind. rewrite delete_device_run, (IH _ Hnd).
    cbn [mbind list_bind]. f_equal.
    f_equal. change (device_registry (deleted_state [k] s))
      with (delete k (device_registry s)).
    by rewrite delete_device_effects_delete.
Qed.

Lemma foldl_delete_lookup {V} (m : gmap string V) (eids : list string)
    (k : string) :
  foldl (λ m k, delete k m) m eids !! k
  = if decide (k ∈ eids) then None else m !! k.
Proof.
  revert m. induction eids as [|k' eids IH]; intros m; [done|].
  cbn [foldl]. rewrite IH.
  destruct (decide (k ∈ eids)) as [Hin|Hin].
  - rewrite decide_True; [done|by right].
  - destruct (decide (k = k')) as [->|Hne].
    + rewrite decide_True; [|by left]. by rewrite lookup_delete_eq.
    + rewrite decide_False; [by rewrite lookup_delete_ne|].
      rewrite elem_of_cons. tauto.
Qed.

Lemma foldl_delete_filter (did_ : string) (m : gmap string TerncyDevice) :
  foldl (λ m k, delete k m) m
    (map_to_list (filter (λ kv, did_ = did kv.2) m)).*1
  = filter (λ kv, did_ ≠ did kv.2) m.
Proof.
  apply map_eq. intros k. rewrite foldl_delete_lookup.
  destruct (m !! k) as [d|] eqn:Hk.
  - destruct (decide (did_ = did d)) as [Heq|Hne].
    + rewrite decide_True.
      * symmetry. apply map_lookup_filter_None. right. intros d' Hd'.
        simplify_eq. cbn. tauto.
      * apply list_elem_of_fmap. exists (k, d). split; [done|].
        apply elem_of_map_to_list. by apply map_lookup_filter_Some.
    + rewrite decide_False.
      * symmetry. by apply map_lookup_filter_Some.
      * intros ([k' d'] & -> & Hin)%list_elem_of_fmap.
        apply elem_of_map_to_list, map_lookup_filter_Some in Hin as [Hl Hp].
        cbn in *. simplify_eq.
  - rewrite decide_False.
    + symmetry. apply map_lookup_filter_None. by left.
    + intros ([k' d'] & -> & Hin)%list_elem_of_fmap.
      apply elem_of_map_to_list, map_lookup_filter_Some in Hin as [Hl Hp].
      cbn in *. simplify_eq.
Qed.

Lemma marked_unavailable_delete (registry : gmap string DeviceEntry)
    (eids : list string) :
  marked_unavailable (eids ≫= delete_device_effects registry) = eids.
Proof.
  induction eids as [|k eids IH]; [done|].
  cbn [mbind list_bind]. unfold marked_unavailable in *.
  rewrite omap_app, IH. unfold delete_device_effects.
  by destruct (registry !! k).
Qed.

Lemma dr_removals_delete (registry : gmap string DeviceEntry)
    (eids : list string) :
  dr_removals (eids ≫= delete_device_effects registry)
  = omap (λ k, entry_id <$> registry !! k) eids.
Proof.
  induction eids as [|k eids IH]; [done|].
  cbn [mbind list_bind]. unfold dr_removals in *.
  rewrite omap_app, IH. unfold delete_device_effects. cbn [omap list_omap].
  by destruct (registry !! k).
Qed.

Lemma er_removals_delete (registry : gmap string DeviceEntry)
    (eids : list string) :
  er_removals (eids ≫= delete_device_effects registry) = [].
Proof.
  induction eids as [|k eids IH]; [done|].
  cbn [mbind list_bind]. unfold er_removals in *.
  rewrite omap_app, IH. unfold delete_device_effects.
  by destruct (registry !! k).
Qed.

Lemma entity_deleted_device_run (item : SimpleItem) (s : State) :
  String.prefix "scene-" (simple_id item) = false →
  let eids :=
    (map_to_list (filter (λ kv, simple_id item = did kv.2) (parsed_devices s))).*1 in
  entity_deleted_item item s
  = (Ok tt, deleted_state eids s, eids ≫= delete_device_effects (device_registry s)).
Proof.
  intros Hprefix eids. unfold entity_deleted_item. rewrite Hprefix.
  unfold bind at 1, gets.
  rewrite <- (for_each_fmap fst _ delete_device).
  fold eids. rewrite for_each_delete_device; [done|].
  apply NoDup_fst_map_to_list.
Qed.

Lemma entity_deleted_scene_run (item : SimpleItem) (s : State) :
  String.prefix "scene-" (simple_id item) = true →
  entity_deleted_item item s
  = match scenes s !! simple_id item with
    | Some scene =>
        (Ok tt, set_scenes (delete (simple_id item) (scenes s)) s,
         [EntitySetAvailable (simple_id item) false;
          ErRemove (entity_set_available false scene)])
    | None => (Ok tt, s, [])
    end.
Proof.
  intros Hprefix. unfold entity_deleted_item. rewrite Hprefix.
  unfold bind at 1, gets.
  destruct (scenes s !! simple_id item) as [scene|]; [|done].
  unfold scene_set_available_at, bind, emit, modify. cbn.
  destruct s. unfold set_scenes. cbn. by rewrite delete_alter_eq.
Qed.

(** The removal call on the host registry is guarded by the lookup of the
    device entry.  On a gateway that holds a device the host registry has no
    entry for (the gateway does not get there by itself: it registers a
    device before it records it, and removes both together), the entity is
    marked unavailable and removed from the devices map, and no removal call
    is issued. *)
Lemma device_without_registry_entry_removed_without_call :
  let run := entity_deleted_item (mkSimple "dev-1") Sample.gateway in
  parsed_devices Sample.gateway !! "dev-1-01" = Some Sample.wall_switch ∧
  parsed_devices (state_of run) !! "dev-1-01" = None ∧
  marked_unavailable (effects_of run) = ["dev-1-01"] ∧
  dr_removals (effects_of run) = [].
Proof. vm_compute. repeat split. Qed.

(** ** Disconnect and reconnect *)

Lemma set_parsed_devices_twice (m m' : gmap string TerncyDevice) (s : State) :
  set_parsed_devices m (set_parsed_devices m' s) = set_parsed_devices m s.
Proof. reflexivity. Qed.

Lemma for_each_set_available (b : bool) (l : list (string * TerncyDevice))
    (s : State) :
  for_each l (λ kv, when true (device_set_available_at kv.1 b)) s
  = (Ok tt,
     set_parsed_devices
       (foldl (λ m kv, alter (device_set_available b) kv.1 m) (parsed_devices s) l) s,
     (λ kv, DeviceSetAvailable kv.1 b) <$> l).
Proof.
  revert s. induction l as [|kv l IH]; intros s.
  - by destruct s.
  - cbn [for_each when]. unfold bind at 1.
    unfold device_set_available_at at 1, bind at 1, emit, modify.
    rewrite IH. done.
Qed.

Lemma foldl_alter_lookup {V} (f : V → V) (m : gmap string V)
    (l : list (string * V)) (k : string) :
  NoDup l.*1 →
  foldl (λ m kv, alter f kv.1 m) m l !! k
  = if decide (k ∈ l.*1) then f <$> m !! k else m !! k.
Proof.
  revert m. induction l as [|[k' v] l IH]; intros m Hnd; [done|].
  rewrite fmap_cons in Hnd. apply NoDup_cons in Hnd as [Hk' Hnd].
  cbn [foldl fst]. rewrite (IH _ Hnd). rewrite fmap_cons. cbn [fst].
  destruct (decide (k = k')) as [->|Hne].
  - rewrite (decide_False (P := k' ∈ l.*1)) by done.
    rewrite decide_True by (by left). by rewrite lookup_alter_eq.
  - rewrite lookup_alter_ne by done.
    destruct (decide (k ∈ l.*1)) as [Hin|Hin].
    + rewrite decide_True; [done|by right].
    + rewrite decide_False; [done|]. rewrite elem_of_cons. tauto.
Qed.

Lemma foldl_alter_map_to_list {V} (f : V → V) (m : gmap string V) :
  foldl (λ m kv, alter f kv.1 m) m (map_to_list m) = f <$> m.
Proof.
  apply map_eq. intros k.
  rewrite foldl_alter_lookup by apply NoDup_fst_map_to_list.
  rewrite lookup_fmap. destruct (m !! k) as [v|] eqn:Hk.
  - rewrite decide_True; [done|].
    apply list_elem_of_fmap. exists (k, v). split; [done|].
    by apply elem_of_map_to_list.
  - by destruct (decide _).
Qed.

Lemma set_devices_available_all (b : bool) (s : State) :
  set_devices_available (λ _, true) b s
  = (Ok tt,
     set_parsed_devices (device_set_available b <$> parsed_devices s) s,
     (λ kv, DeviceSetAvailable kv.1 b) <$> map_to_list (parsed_devices s)).
Proof.
  unfold set_devices_available, bind, gets.
  rewrite (for_each_set_available b (map_to_list (parsed_devices s)) s).
  by rewrite foldl_alter_map_to_list.
Qed.

Lemma disconnected_run (K : Consts) (s : State) :
  _stopped s = false →
  terncy_event_handler K Disconnected s
  = (Ok tt,
     set_tasks (tasks s ++ [CoReconnect ReconnectScheduled])%list
       (set_parsed_devices (device_set_available false <$> parsed_devices s) s),
     (Log WARNING "Disconnected: %s"
        :: ((λ kv, DeviceSetAvailable kv.1 false) <$> map_to_list (parsed_devices s))
        ++ [CreateBackgroundTask (CoReconnect ReconnectScheduled) "Reconnect"])%list).
Proof.
  intros Hstopped. cbn [terncy_event_handler]. unfold bind, logger, emit.
  rewrite set_devices_available_all. unfold gets. cbn. rewrite Hstopped. done.
Qed.

(** The first half of C1: a Disconnected event that reaches a gateway that
    is not stopped marks every device of the devices map unavailable and
    schedules one reconnect coroutine. *)
Lemma disconnected_marks_unavailable_and_schedules_reconnect
    (K : Consts) (s : State) :
  _stopped s = false →
  let run := terncy_event_handler K Disconnected s in
  result_of run = Ok tt ∧
  parsed_devices (state_of run) = device_set_available false <$> parsed_devices s ∧
  (∀ eid device, parsed_devices (state_of run) !! eid = Some device →
                 available device = false) ∧
  tasks (state_of run) = (tasks s ++ [CoReconnect ReconnectScheduled])%list ∧
  reconnects_scheduled (effects_of run) = 1%nat ∧
  connect_calls (effects_of run) = 0%nat.
Proof.
  intros Hstopped run. subst run. rewrite (disconnected_run K s Hstopped).
  cbn [result_of state_of effects_of fst snd].
  split; [done|]. split; [done|]. split.
  { intros eid device. cbn. rewrite lookup_fmap.
    destruct (parsed_devices s !! eid) as [d|]; cbn; intros Hd; by simplify_eq. }
  split; [done|].
  unfold reconnects_scheduled, connect_calls. cbn [List.filter].
  rewrite !List.filter_app. cbn.
  generalize (map_to_list (parsed_devices s)). intros l.
  induction l as [|kv l IH]; [done|]. cbn in *. done.
Qed.

(** C1.  The second half of the claim does not hold of [reconnect]: the
    stopped flag is read before the delay, not after it.  A Disconnected
    event reaches the running gateway, the reconnect coroutine starts and
    goes to sleep, [stop()] completes during the delay, the delay elapses:
    the coroutine issues the connect call although the gateway is stopped.
    Had [stop()] completed before the coroutine first ran, no connect call
    would have been issued. *)
Theorem stop_during_reconnect_delay_does_not_prevent_connect :
  let during_delay :=
    run_steps Sample.consts
      [Deliver Disconnected; Resume 0; CallStop; Resume 0] Sample.gateway in
  let before_start :=
    run_steps Sample.consts
      [Deliver Disconnected; CallStop; Resume 0; Resume 0] Sample.gateway in
  result_of during_delay = Ok tt ∧
  _stopped (state_of during_delay) = true ∧
  effects_of during_delay
  = [Log WARNING "Disconnected: %s";
     DeviceSetAvailable "dev-1-01" false;
     CreateBackgroundTask (CoReconnect ReconnectScheduled) "Reconnect";
     ApiStop;
     Log WARNING "Start reconnecting...";
     ApiStart] ∧
  reconnects_scheduled (effects_of during_delay) = 1%nat ∧
  connect_calls (effects_of during_delay) = 1%nat ∧
  connect_calls (effects_of before_start) = 0%nat.
Proof. vm_compute. repeat split. Qed.

(** ** Device setup is a create-or-update *)

Lemma wp_ret {A} (a : A) (s : State) (Q : A → State → Prop) :
  Q a s → wp (ret a) s Q.
Proof. intros H. by exists a, s, []. Qed.

Lemma wp_bind {A B} (m : M A) (f : A → M B) (s : State) (Q : B → State → Prop) :
  wp m s (λ a s1, wp (f a) s1 Q) → wp (bind m f) s Q.
Proof.
  intros (a & s1 & t1 & Hm & b & s2 & t2 & Hf & HQ).
  exists b, s2, (t1 ++ t2)%list. split; [|done].
  unfold bind. by rewrite Hm, Hf.
Qed.

Lemma wp_gets {A} (f : State → A) (s : State) (Q : A → State → Prop) :
  Q (f s) s → wp (gets f) s Q.
Proof. intros H. by exists (f s), s, []. Qed.

Lemma wp_modify (f : State → State) (s : State) (Q : unit → State → Prop) :
  Q tt (f s) → wp (modify f) s Q.
Proof. intros H. by exists tt, (f s), []. Qed.

Lemma wp_emit (e : Effect) (s : State) (Q : unit → State → Prop) :
  Q tt s → wp (emit e) s Q.
Proof. intros H. by exists tt, s, [e]. Qed.

Lemma wp_mono {A} (m : M A) (s : State) (Q Q' : A → State → Prop) :
  (∀ a s', Q a s' → Q' a s') → wp m s Q → wp m s Q'.
Proof. intros HQ (a & s' & t & Hm & H). exists a, s', t. auto. Qed.

Lemma wp_result {A} (m : M A) (s : State) (Q : A → State → Prop) :
  wp m s Q → ∃ a, result_of (m s) = Ok a ∧ Q a (state_of (m s)).
Proof. intros (a & s' & t & Hm & H). exists a. by rewrite Hm. Qed.

Ltac wp_step :=
  first [ apply wp_bind | apply wp_gets | apply wp_modify | apply wp_emit
        | apply wp_ret ].

(** *** Merging attribute values *)

Lemma merge_attrs_union (attrs : list AttrValue) (m m' : gmap string pyval) :
  merge_attrs attrs (m ∪ m') = merge_attrs attrs m ∪ m'.
Proof.
  revert m. induction attrs as [|a attrs IH]; intros m; [done|].
  unfold merge_attrs in *. cbn [foldl]. by rewrite insert_union_l, IH.
Qed.

Lemma merge_attrs_idemp (attrs : list AttrValue) (m : gmap string pyval) :
  merge_attrs attrs (merge_attrs attrs m) = merge_attrs attrs m.
Proof.
  assert (Hunion : ∀ m', merge_attrs attrs m' = merge_attrs attrs ∅ ∪ m').
  { intros m'. by rewrite <- merge_attrs_union, (left_id_L ∅ (∪)). }
  rewrite (Hunion (merge_attrs attrs m)), (Hunion m).
  by rewrite (assoc_L (∪)), (idemp_L (∪)).
Qed.

Lemma refresh_entity_idemp (online : bool) (attrs : list AttrValue)
    (e : TerncyEntity) :
  entity_update_state attrs (entity_set_available online
    (entity_update_state attrs (entity_set_available online e)))
  = entity_update_state attrs (entity_set_available online e).
Proof.
  unfold entity_update_state, entity_set_available. cbn.
  by rewrite merge_attrs_idemp.
Qed.

Lemma refresh_device_idemp (online : bool) (attrs : list AttrValue)
    (d : TerncyDevice) :
  refresh_device online attrs (refresh_device online attrs d)
  = refresh_device online attrs d.
Proof.
  unfold refresh_device, device_update_state, device_set_available. cbn.
  rewrite merge_attrs_idemp. f_equal.
  rewrite <- !list_fmap_compose. apply list_fmap_ext.
  intros i e _. cbn. apply refresh_entity_idemp.
Qed.

Lemma service_step_idemp (K : Consts) (did_ : string) (online : bool)
    (svc : SvcData) (known : option TerncyDevice) :
  service_step K did_ online svc (service_step K did_ online svc known)
  = service_step K did_ online svc known.
Proof.
  unfold service_step.
  destruct known as [d|]; [|destruct (created_device K did_ svc) as [d|]];
    cbn; by rewrite ?refresh_device_idemp.
Qed.

(** *** One service *)

Lemma wp_seq {A B} (m : M A) (f : A → M B) (s : State)
    (R : A → State → Prop) (Q : B → State → Prop) :
  wp m s R → (∀ a s1, R a s1 → wp (f a) s1 Q) → wp (bind m f) s Q.
Proof. intros Hm Hf. apply wp_bind. revert Hm. apply wp_mono. exact Hf. Qed.

Lemma wp_room_area (area room : option string) (s : State) :
  wp (room_area area room) s (λ _ s', s' = s).
Proof.
  unfold room_area. destruct (truthy room) as [r|]; [|by apply wp_ret].
  apply wp_bind, wp_gets. destruct (truthy (room_data s !! r)); by apply wp_ret.
Qed.

Lemma wp_logger (lv : Level) (fmt : string) (s : State) :
  wp (logger lv fmt) s (λ _ s', s' = s).
Proof. by apply wp_emit. Qed.

Lemma wp_dr_async_get_or_create (args : DeviceArgs) (s : State) :
  wp (dr_async_get_or_create args) s
     (λ _ s', parsed_devices s' = parsed_devices s ∧ unique_id s' = unique_id s ∧
              name s' = name s ∧ mac s' = mac s).
Proof.
  unfold dr_async_get_or_create. apply wp_bind, wp_emit, wp_modify.
  by destruct (device_registry s !! arg_identifier args).
Qed.

Lemma wp_append_entities (eid : string)
    (mk : TerncyEntityDescription → TerncyEntity)
    (descriptions : list TerncyEntityDescription) (s : State) :
  wp (for_each descriptions (λ description,
        let entity := mk description in
        emit (HaAddEntity entity) >>
        modify (λ s,
          set_parsed_devices
            (alter (device_append_entity entity) eid (parsed_devices s)) s))) s
     (λ _ s',
        parsed_devices s'
        = foldl (λ m description, alter (device_append_entity (mk description)) eid m)
            (parsed_devices s) descriptions).
Proof.
  revert s. induction descriptions as [|description descriptions IH]; intros s.
  - by apply wp_ret.
  - cbn [for_each foldl]. apply wp_bind, wp_bind, wp_emit, wp_modify.
    eapply wp_mono; [|apply IH]. intros _ s' ->. done.
Qed.

Lemma foldl_append_insert (eid : string)
    (mk : TerncyEntityDescription → TerncyEntity)
    (descriptions : list TerncyEntityDescription) (device : TerncyDevice)
    (devices : gmap string TerncyDevice) :
  foldl (λ m description, alter (device_append_entity (mk description)) eid m)
    (<[eid := device]> devices) descriptions
  = <[eid := foldl (λ d description, device_append_entity (mk description) d)
               device descriptions]> devices.
Proof.
  revert device. induction descriptions as [|description descriptions IH];
    intros device; [done|].
  cbn [foldl]. by rewrite alter_insert_eq, IH.
Qed.

(** The creation block of the loop body, for an eid that is not known. *)
Lemma wp_setup_service_unknown (K : Consts) (device_data : PhysicalDeviceData)
    (sw_version hw_version : option string) (online : bool)
    (suggested_area : option string) (svc : SvcData) (s : State) :
  parsed_devices s !! svc_id svc = None →
  wp (setup_service K device_data sw_version hw_version online suggested_area svc) s
     (λ _ s',
        parsed_devices s'
        = partial_alter (service_step K (dd_id device_data) online svc)
            (svc_id svc) (parsed_devices s)).
Proof.
  intros Hunknown. unfold setup_service.
  apply wp_bind, wp_gets. rewrite Hunknown.
  eapply (wp_seq _ _ _
    (λ _ s1, parsed_devices s1
             = match created_device K (dd_id device_data) svc with
               | Some device => <[svc_id svc := device]> (parsed_devices s)
               | None => parsed_devices s
               end)).
  - unfold created_device.
    destruct (svc_profile svc ≫= λ p, PROFILES K !! p) as [profile_descriptions|].
    + eapply wp_seq; [apply wp_room_area|]. intros area s1 ->.
      destruct (0 <? length _)%nat.
      * apply wp_bind, wp_gets.
        eapply wp_seq; [apply wp_dr_async_get_or_create|].
        intros ? s1 (Hdevices & _).
        unfold add_device. apply wp_bind, wp_modify.
        eapply wp_seq; [apply wp_append_entities|].
        intros ? s2 Hs2. apply wp_ret. rewrite Hs2. cbn.
        rewrite Hdevices. apply foldl_append_insert.
      * by apply wp_ret.
    + eapply wp_seq; [apply wp_logger|]. intros ? s1 ->. by apply wp_ret.
  - intros area s1 Hs1.
    unfold device_set_available_at, device_update_state_at.
    repeat wp_step. cbn. rewrite Hs1.
    apply map_eq. intros k.
    destruct (decide (svc_id svc = k)) as [<-|Hne].
    + rewrite lookup_partial_alter_eq, !lookup_alter_eq.
      unfold service_step. rewrite Hunknown.
      destruct (created_device K (dd_id device_data) svc) as [device|]; cbn.
      * by rewrite lookup_insert_eq.
      * by rewrite Hunknown.
    + rewrite lookup_partial_alter_ne, !lookup_alter_ne by done.
      destruct (created_device K (dd_id device_data) svc) as [device|]; [|done].
      by rewrite lookup_insert_ne.
Qed.

(** The loop body on an eid that is known: nothing is created, availability
    and attribute state are applied again. *)
Lemma setup_service_known (K : Consts) (device_data : PhysicalDeviceData)
    (sw_version hw_version : option string) (online : bool)
    (suggested_area : option string) (svc : SvcData) (device : TerncyDevice)
    (s : State) :
  parsed_devices s !! svc_id svc = Some device →
  setup_service K device_data sw_version hw_version online suggested_area svc s
  = (Ok suggested_area,
     set_parsed_devices
       (<[svc_id svc := refresh_device online (default [] (svc_attributes svc)) device]>
          (parsed_devices s)) s,
     [DeviceSetAvailable (svc_id svc) online;
      DeviceUpdateState (svc_id svc) (default [] (svc_attributes svc))]).
Proof.
  intros Hknown. unfold setup_service, bind, gets. rewrite Hknown.
  unfold device_set_available_at, device_update_state_at, bind, emit, modify, ret.
  cbn. rewrite set_parsed_devices_twice. do 3 f_equal.
  apply map_eq. intros k.
  destruct (decide (svc_id svc = k)) as [<-|Hne].
  - by rewrite !lookup_alter_eq, lookup_insert_eq, Hknown.
  - by rewrite !lookup_alter_ne, lookup_insert_ne.
Qed.

Lemma wp_setup_service (K : Consts) (device_data : PhysicalDeviceData)
    (sw_version hw_version : option string) (online : bool)
    (suggested_area : option string) (svc : SvcData) (s : State) :
  wp (setup_service K device_data sw_version hw_version online suggested_area svc) s
     (λ _ s',
        parsed_devices s'
        = partial_alter (service_step K (dd_id device_data) online svc)
            (svc_id svc) (parsed_devices s)).
Proof.
  destruct (parsed_devices s !! svc_id svc) as [device|] eqn:Hdevice.
  - eexists _, _, _. split; [by apply setup_service_known|]. cbn.
    apply map_eq. intros k.
    destruct (decide (svc_id svc = k)) as [<-|Hne].
    + rewrite lookup_partial_alter_eq, lookup_insert_eq.
      unfold service_step. by rewrite Hdevice.
    + by rewrite lookup_partial_alter_ne, lookup_insert_ne.
  - by apply wp_setup_service_unknown.
Qed.

(** *** The service loop, the handler, the event *)

Lemma wp_setup_services (K : Consts) (device_data : PhysicalDeviceData)
    (sw_version hw_version : option string)
    (svc_list : list SvcData) (suggested_area : option string) (s : State) :
  wp (for_fold svc_list suggested_area
        (setup_service K device_data sw_version hw_version
           (default true (dd_online device_data)))) s
     (λ _ s', parsed_devices s'
              = services_step K device_data svc_list (parsed_devices s)).
Proof.
  revert suggested_area s.
  induction svc_list as [|svc svc_list IH]; intros suggested_area s.
  - by apply wp_ret.
  - cbn [for_fold]. eapply wp_seq; [apply wp_setup_service|].
    intros area s1 Hs1. eapply wp_mono; [|apply IH].
    intros ? s2 ->. unfold services_step. cbn [foldl]. by rewrite Hs1.
Qed.

Lemma wp_setup_device (K : Consts) (device_data : PhysicalDeviceData)
    (svc_list : list SvcData) (s : State) :
  wp (setup_device K device_data svc_list) s
     (λ _ s', parsed_devices s'
              = services_step K device_data svc_list (parsed_devices s)).
Proof.
  unfold setup_device.
  eapply wp_seq; [apply wp_logger|]. intros ? s1 ->.
  eapply wp_seq; [apply wp_room_area|]. intros area s1 ->.
  do 3 (apply wp_bind, wp_gets).
  eapply (wp_seq _ _ _ (λ _ s1, parsed_devices s1 = parsed_devices s)).
  { unfold when. destruct (bool_decide _); [|by apply wp_ret].
    eapply wp_mono; [|apply wp_dr_async_get_or_create]. by intros ? s1 (-> & _). }
  intros ? s1 Hs1. eapply wp_seq; [apply wp_setup_services|].
  intros ? s2 Hs2. apply wp_ret. by rewrite Hs2, Hs1.
Qed.

Lemma wp_entity_available (K : Consts) (device_data : PhysicalDeviceData)
    (s : State) :
  wp (step K (entity_available device_data)) s
     (λ _ s', parsed_devices s'
              = services_step K device_data (default [] (dd_services device_data))
                  (parsed_devices s)).
Proof.
  cbn. unfold _on_entity_available.
  eapply wp_seq; [apply wp_logger|]. intros ? s1 ->.
  cbn. apply wp_bind. eapply wp_mono; [|apply wp_setup_device].
  intros ? s1 Hs1. by apply wp_ret.
Qed.

Lemma wp_entity_available_repeated (K : Consts)
    (device_data : PhysicalDeviceData) (n : nat) (s : State) :
  wp (run_steps K (replicate n (entity_available device_data))) s
     (λ _ s', parsed_devices s'
              = Nat.iter n
                  (services_step K device_data (default [] (dd_services device_data)))
                  (parsed_devices s)).
Proof.
  revert s. induction n as [|n IH]; intros s.
  - by apply wp_ret.
  - unfold run_steps. cbn [replicate for_each].
    eapply wp_seq; [apply wp_entity_available|].
    intros ? s1 Hs1. eapply wp_mono; [|apply IH].
    intros ? s2 ->. rewrite Hs1. by rewrite Nat.iter_succ_r.
Qed.

(** *** Running the loop again changes nothing *)

Section ServicesStep.
Context (K : Consts) (device_data : PhysicalDeviceData).

Local Abbreviation step_of svc :=
  (service_step K (dd_id device_data) (default true (dd_online device_data)) svc).

Lemma services_step_other (svc_list : list SvcData)
    (devices : gmap string TerncyDevice) (k : string) :
  k ∉ svc_id <$> svc_list →
  services_step K device_data svc_list devices !! k = devices !! k.
Proof.
  revert devices. induction svc_list as [|svc svc_list IH]; intros devices Hk;
    [done|].
  rewrite fmap_cons, not_elem_of_cons in Hk. destruct Hk as [Hne Hk].
  unfold services_step in *. cbn [foldl]. rewrite IH by done.
  by rewrite lookup_partial_alter_ne.
Qed.

Lemma services_step_lookup (svc_list : list SvcData)
    (devices : gmap string TerncyDevice) (svc : SvcData) :
  NoDup (svc_id <$> svc_list) → svc ∈ svc_list →
  services_step K device_data svc_list devices !! svc_id svc
  = step_of svc (devices !! svc_id svc).
Proof.
  revert devices. induction svc_list as [|svc' svc_list IH];
    intros devices Hnd Hin; [by apply elem_of_nil in Hin|].
  rewrite fmap_cons in Hnd. apply NoDup_cons in Hnd as [Hfresh Hnd].
  apply elem_of_cons in Hin as [->|Hin].
  - pose proof (services_step_other svc_list
                  (partial_alter (step_of svc') (svc_id svc') devices)
                  (svc_id svc') Hfresh) as Hother.
    unfold services_step in *. cbn [foldl]. rewrite Hother.
    by rewrite lookup_partial_alter_eq.
  - pose proof (IH (partial_alter (step_of svc') (svc_id svc') devices) Hnd Hin)
      as Hrest.
    unfold services_step in *. cbn [foldl]. rewrite Hrest.
    rewrite lookup_partial_alter_ne; [done|].
    intros Heq. apply Hfresh. rewrite Heq. by apply list_elem_of_fmap_2.
Qed.

Lemma services_step_idemp (svc_list : list SvcData)
    (devices : gmap string TerncyDevice) :
  NoDup (svc_id <$> svc_list) →
  services_step K device_data svc_list
    (services_step K device_data svc_list devices)
  = services_step K device_data svc_list devices.
Proof.
  intros Hnd. apply map_eq. intros k.
  destruct (decide (k ∈ svc_id <$> svc_list)) as [Hin|Hout].
  - apply list_elem_of_fmap in Hin as (svc & -> & Hin).
    rewrite !services_step_lookup by done.
    apply service_step_idemp.
  - by rewrite !services_step_other.
Qed.

Lemma services_step_iter (svc_list : list SvcData)
    (devices : gmap string TerncyDevice) (n : nat) :
  NoDup (svc_id <$> svc_list) →
  Nat.iter (S n) (services_step K device_data svc_list) devices
  = services_step K device_data svc_list devices.
Proof.
  intros Hnd. induction n as [|n IH]; [done|].
  rewrite Nat.iter_succ, IH. by apply services_step_idemp.
Qed.

End ServicesStep.

(** C3, as stated, fails when the service list names an eid twice: the first
    entry has a profile that is not known, so the first pass creates the
    device from the second entry only; the next pass finds the device and
    merges the attributes of the first entry as well. *)
Lemma repeated_eid_setup_not_idempotent :
  let event := entity_available Sample.twice_listed in
  let once := run_steps Sample.consts [event] Sample.gateway in
  let twice := run_steps Sample.consts [event; event] Sample.gateway in
  (attributes <$> parsed_devices (state_of once) !! "dev-2-01") = Some ∅ ∧
  (attributes <$> parsed_devices (state_of twice) !! "dev-2-01")
  = Some {[ "on" := VInt 1 ]} ∧
  parsed_devices (state_of twice) ≠ parsed_devices (state_of once).
Proof.
  intros event once twice.
  assert (H1 : (attributes <$> parsed_devices (state_of once) !! "dev-2-01")
               = Some ∅) by (vm_compute; reflexivity).
  assert (H2 : (attributes <$> parsed_devices (state_of twice) !! "dev-2-01")
               = Some {[ "on" := VInt 1 ]}) by (vm_compute; reflexivity).
  split; [exact H1|]. split; [exact H2|].
  intros Heq. rewrite Heq, H1 in H2. vm_compute in H2. discriminate H2.
Qed.

(** C3, amended.  For a device whose service list names every eid once,
    handling the entityAvailable event any number of further times leaves the
    devices map as handling it once did: an eid that is known is not created
    again, availability and attribute state are applied again. *)
Theorem entity_available_idempotent
    (K : Consts) (device_data : PhysicalDeviceData) (n : nat) (s : State) :
  NoDup (svc_id <$> default [] (dd_services device_data)) →
  let event := entity_available device_data in
  let once := run_steps K [event] s in
  let again := run_steps K (replicate (S n) event) s in
  result_of once = Ok tt ∧
  result_of again = Ok tt ∧
  parsed_devices (state_of again) = parsed_devices (state_of once).
Proof.
  intros Hnd event once again.
  destruct (wp_result _ _ _ (wp_entity_available_repeated K device_data 1 s))
    as ([] & Honce & Hdev1).
  destruct (wp_result _ _ _ (wp_entity_available_repeated K device_data (S n) s))
    as ([] & Hagain & Hdevn).
  split; [exact Honce|]. split; [exact Hagain|].
  subst once again event. cbn [replicate] in Hdev1.
  rewrite Hdevn, Hdev1. by rewrite (services_step_iter K device_data _ _ n Hnd).
Qed.

Lemma entity_available_idempotent_witness :
  let event := entity_available Sample.two_gang in
  NoDup (svc_id <$> default [] (dd_services Sample.two_gang)) ∧
  parsed_devices (state_of (run_steps Sample.consts [event; event; event] Sample.gateway))
  = parsed_devices (state_of (run_steps Sample.consts [event] Sample.gateway)).
Proof.
  intros event.
  assert (Hnd : NoDup (svc_id <$> default [] (dd_services Sample.two_gang)))
    by (apply (bool_decide_unpack _); vm_compute; exact I).
  split; [exact Hnd|].
  exact (proj2 (proj2 (entity_available_idempotent Sample.consts Sample.two_gang
                         2 Sample.gateway Hnd))).
Defined.

(** * Further properties of the gateway *)

(** ** The listener registry *)

Lemma listener_calls_fmap (data : list AttrValue) (l : list nat) :
  listener_calls ((λ x, ListenerCall x data) <$> l) = (λ x, (x, data)) <$> l.
Proof. induction l as [|x l IH]; [done|]. cbn. by f_equal. Qed.

Lemma update_listeners_calls (eid : string) (data : list AttrValue) (s : State) :
  (listener_calls (effects_of (update_listeners eid data s))).*1
  = elements (default ∅ (_listeners s !! eid)).
Proof.
  rewrite update_listeners_run. cbn [effects_of snd].
  rewrite listener_calls_fmap, <- list_fmap_compose.
  rewrite <- (list_fmap_id (elements _)) at 2. by apply list_fmap_ext.
Qed.

(** X1. A listener added for an eid is called by the next notification for
    that eid, once, with the data of the notification; the listeners that
    were registered before are still called, nobody else is; adding the same
    listener again changes nothing. *)
Theorem add_listener_then_notified
    (eid : string) (l : nat) (data : list AttrValue) (s : State) :
  let s' := state_of (add_listener eid l s) in
  let calls := listener_calls (effects_of (update_listeners eid data s')) in
  (l, data) ∈ calls ∧
  NoDup calls.*1 ∧
  (∀ c, c ∈ calls → c.2 = data) ∧
  (∀ l', l' ∈ calls.*1 ↔ l' = l ∨ l' ∈ default ∅ (_listeners s !! eid)) ∧
  state_of (add_listener eid l s') = s'.
Proof.
  intros s' calls.
  assert (Hcalls : calls = (λ x, (x, data)) <$>
                     elements (default ∅ (_listeners s !! eid) ∪ {[l]})).
  { subst calls s'. rewrite update_listeners_run. cbn.
    by rewrite lookup_insert_eq, listener_calls_fmap. }
  assert (Hfst : calls.*1 = elements (default ∅ (_listeners s !! eid) ∪ {[l]})).
  { subst calls. rewrite update_listeners_calls. subst s'. cbn.
    by rewrite lookup_insert_eq. }
  split.
  { rewrite Hcalls. apply list_elem_of_fmap. exists l. split; [done|].
    apply elem_of_elements. set_solver. }
  split; [rewrite Hfst; apply NoDup_elements|].
  split.
  { rewrite Hcalls. intros c (x & -> & _)%list_elem_of_fmap. done. }
  split.
  { intros l'. rewrite Hfst, elem_of_elements. set_solver. }
  subst s'. unfold add_listener, modify, state_of, set_listeners. cbn.
  rewrite lookup_insert_eq, insert_insert_eq. cbn. do 2 f_equal. set_solver.
Qed.

(** X2. After [remove_listener] the listener is not called any more, the
    other listeners of the eid still are, and the listeners of other eids
    are untouched; removing again, or removing from an eid nobody listens
    to, changes nothing. *)
Theorem remove_listener_stops_notification
    (eid : string) (l : nat) (data : list AttrValue) (s : State) :
  let s' := state_of (remove_listener eid l s) in
  let calls := listener_calls (effects_of (update_listeners eid data s')) in
  (∀ l', l' ∈ calls.*1 ↔ l' ≠ l ∧ l' ∈ default ∅ (_listeners s !! eid)) ∧
  state_of (remove_listener eid l s') = s' ∧
  (_listeners s !! eid = None → s' = s) ∧
  (∀ other, other ≠ eid → _listeners s' !! other = _listeners s !! other).
Proof.
  intros s' calls. subst calls. rewrite update_listeners_calls. subst s'.
  unfold remove_listener, modify, state_of. cbn.
  destruct (_listeners s !! eid) as [ls|] eqn:Hls; cbn.
  - rewrite !lookup_insert_eq. cbn. split.
    { intros l'. rewrite elem_of_elements. set_solver. }
    split.
    { unfold set_listeners. cbn. rewrite insert_insert_eq. do 2 f_equal.
      set_solver. }
    split; [done|]. intros other Hne. by rewrite lookup_insert_ne.
  - rewrite Hls. cbn. split.
    { intros l'. rewrite elements_empty. set_solver. }
    done.
Qed.

(** ** Reports *)

Lemma for_each_run {A} (l : list A) (body : A → M unit)
    (effects : A → list Effect) (s : State) :
  (∀ x, body x s = (Ok tt, s, effects x)) →
  for_each l body s = (Ok tt, s, l ≫= effects).
Proof.
  intros Hbody. induction l as [|x l IH]; [done|].
  cbn [for_each]. unfold bind. by rewrite Hbody, IH.
Qed.

(** X3. A report message never raises and changes nothing in the gateway;
    item by item, in the order of the message, every listener registered for
    the id of the item is called once with the attributes of the item (none
    given: the empty list); an item without id calls nobody. *)
Theorem on_report_fans_out (msg_data : list ReportItem) (s : State) :
  _on_report msg_data s
  = (Ok tt, s, Log DEBUG "EVENT: report: %s" :: (msg_data ≫= report_effects s)).
Proof.
  unfold _on_report, bind, logger, emit.
  rewrite (for_each_run _ _ (report_effects s)); [done|].
  intros item. unfold report_effects.
  destruct (rep_id item); [apply update_listeners_run|done].
Qed.

(** ** Long presses and rotations *)

Lemma notify_action_run (K : Consts) (action : string) (item : SimpleItem)
    (s : State) :
  notify_action K action item s
  = (Ok tt, s, action_channels K action (simple_id item) s).
Proof.
  unfold notify_action, action_channels, dr_async_get_device, bind, gets, emit, ret.
  destruct (parsed_devices s !! simple_id item);
    destruct (device_registry s !! simple_id item); reflexivity.
Qed.

Lemma notify_loop_state (K : Consts) (fmt action : string)
    (msg_data : list SimpleItem) (s : State) :
  state_of ((logger DEBUG fmt >> for_each msg_data (notify_action K action)) s) = s.
Proof.
  unfold bind, logger, emit.
  by rewrite (for_each_run _ _ (λ item, action_channels K action (simple_id item) s))
    by (intros item; apply notify_action_run).
Qed.

(** X4. keyLongPressed and rotation never raise and change nothing in the
    gateway; each payload raises the trigger on the local device object when
    there is one and fires the bus event when the host registry has a device
    entry, each channel on its own, without a click count. *)
Theorem long_press_and_rotation_dual_channel
    (K : Consts) (msg_data : list SimpleItem) (s : State) :
  _on_key_long_pressed K msg_data s
  = (Ok tt, s,
     Log DEBUG "EVENT: keyLongPressed: %s"
       :: (msg_data ≫= λ item,
             action_channels K (ACTION_LONG_PRESS K) (simple_id item) s)) ∧
  _on_rotation K msg_data s
  = (Ok tt, s,
     Log DEBUG "EVENT: rotation: %s"
       :: (msg_data ≫= λ item,
             action_channels K (ACTION_ROTATION K) (simple_id item) s)).
Proof.
  unfold _on_key_long_pressed, _on_rotation, bind, logger, emit.
  split.
  - rewrite (for_each_run _ _
      (λ item, action_channels K (ACTION_LONG_PRESS K) (simple_id item) s));
      [done|]. intros item. apply notify_action_run.
  - rewrite (for_each_run _ _
      (λ item, action_channels K (ACTION_ROTATION K) (simple_id item) s));
      [done|]. intros item. apply notify_action_run.
Qed.

(** ** Key presses: what a malformed payload does *)

(** X5. A keyPressed payload whose [attributes] list is empty ends the
    handler with [IndexError]: what the payloads before it emitted stays, the
    payloads after it are not handled, and the gateway is left unchanged. *)
Theorem key_pressed_empty_attributes_aborts
    (K : Consts) (pre post : list KeyPressedItem) (item : KeyPressedItem)
    (s : State) :
  kp_attributes item = Some [] →
  result_of (_on_key_pressed K pre s) = Ok tt →
  _on_key_pressed K (pre ++ item :: post) s
  = (Raise IndexError, s, effects_of (_on_key_pressed K pre s)).
Proof.
  intros Hempty Hpre.
  pose proof (on_key_pressed_state K pre s) as Hstate. revert Hpre Hstate.
  unfold _on_key_pressed, bind, logger, emit. rewrite for_each_app.
  unfold bind.
  destruct (for_each pre (key_pressed_entity K) s) as [[[[]|e] s1] t1];
    cbn; [|done].
  intros _ ->. unfold bind, key_pressed_entity. rewrite Hempty. cbn.
  by rewrite app_nil_r.
Qed.

Lemma key_pressed_empty_attributes_aborts_witness :
  let pressed := mkKeyPressed "dev-1-01" (Some [mkTimes 2]) in
  let malformed := mkKeyPressed "dev-1-01" (Some []) in
  kp_attributes malformed = Some [] ∧
  result_of (_on_key_pressed Sample.consts [pressed] Sample.gateway) = Ok tt ∧
  _on_key_pressed Sample.consts [pressed; malformed; pressed] Sample.gateway
  = (Raise IndexError, Sample.gateway,
     [Log DEBUG "EVENT: keyPressed: %s";
      DeviceTriggerEvent "dev-1-01" "double_press" (Some 2%Z)]).
Proof.
  intros pressed malformed. split; [reflexivity|]. split; [reflexivity|].
  exact (key_pressed_empty_attributes_aborts Sample.consts [pressed] [pressed]
           malformed Sample.gateway eq_refl eq_refl).
Defined.

(** ** Offline devices *)

Lemma device_set_available_idemp (b : bool) (d : TerncyDevice) :
  device_set_available b (device_set_available b d) = device_set_available b d.
Proof.
  unfold device_set_available. cbn. f_equal.
  rewrite <- list_fmap_compose. by apply list_fmap_ext.
Qed.

Lemma for_each_when_filter {A} (keep : A → bool) (l : list A)
    (body : A → M unit) (s : State) :
  for_each l (λ x, when (keep x) (body x)) s
  = for_each (List.filter keep l) (λ x, when true (body x)) s.
Proof.
  revert s. induction l as [|x l IH]; intros s; [done|].
  cbn [for_each List.filter]. destruct (keep x); cbn [when for_each].
  - unfold bind. destruct (body x s) as [[[[]|e] s1] t1]; [|done].
    by rewrite IH.
  - by rewrite bind_ret_l.
Qed.

Lemma set_devices_available_run (keep : TerncyDevice → bool) (b : bool)
    (s : State) :
  set_devices_available keep b s
  = (Ok tt,
     set_parsed_devices
       ((λ d, if keep d then device_set_available b d else d) <$> parsed_devices s) s,
     (λ kv, DeviceSetAvailable kv.1 b)
       <$> List.filter (λ kv, keep kv.2) (map_to_list (parsed_devices s))).
Proof.
  unfold set_devices_available, bind, gets.
  rewrite (for_each_when_filter (λ kv, keep kv.2) _
             (λ kv, device_set_available_at kv.1 b)).
  rewrite for_each_set_available. do 2 f_equal. f_equal.
  assert (Hsub : NoDup (List.filter (λ kv, keep kv.2)
                          (map_to_list (parsed_devices s))).*1).
  { pose proof (NoDup_fst_map_to_list (parsed_devices s)) as Hnd.
    induction (map_to_list (parsed_devices s)) as [|[k d] l IH]; [constructor|].
    rewrite fmap_cons in Hnd. apply NoDup_cons in Hnd as [Hk Hnd].
    cbn [List.filter snd]. destruct (keep d); [|by apply IH].
    rewrite fmap_cons. apply NoDup_cons. split; [|by apply IH].
    intros ([k' d'] & Heq & Hin)%list_elem_of_fmap. cbn in Heq. subst k'.
    apply Hk. apply list_elem_of_fmap. exists (k, d'). split; [done|].
    apply list_elem_of_In. apply list_elem_of_In in Hin.
    by apply List.filter_In in Hin as [Hin _]. }
  apply map_eq. intros k. rewrite (foldl_alter_lookup _ _ _ _ Hsub), lookup_fmap.
  destruct (parsed_devices s !! k) as [d|] eqn:Hk; cbn.
  - destruct (keep d) eqn:Hkeep.
    + rewrite decide_True; [done|].
      apply list_elem_of_fmap. exists (k, d). split; [done|].
      apply list_elem_of_In, List.filter_In. split; [|done].
      by apply list_elem_of_In, elem_of_map_to_list.
    + rewrite decide_False; [done|].
      intros ([k' d'] & Heq & Hin)%list_elem_of_fmap. cbn in Heq. subst k'.
      apply list_elem_of_In, List.filter_In in Hin as [Hin Hkeep'].
      apply list_elem_of_In, elem_of_map_to_list in Hin. cbn in Hkeep'.
      congruence.
  - by destruct (decide _).
Qed.

Lemma offline_device_cons (id : string) (ids : list string) (d : TerncyDevice) :
  offline_device ids
    (if bool_decide (id = did d) then device_set_available false d else d)
  = offline_device (id :: ids) d.
Proof.
  unfold offline_device.
  destruct (bool_decide_reflect (id = did d)) as [Heq|Hne].
  - rewrite (bool_decide_eq_true_2 (did d ∈ id :: ids)) by (rewrite Heq; by left).
    cbn. destruct (bool_decide _); [apply device_set_available_idemp|done].
  - destruct (bool_decide_reflect (did d ∈ ids)) as [Hin|Hout].
    + by rewrite bool_decide_eq_true_2 by (by right).
    + rewrite bool_decide_eq_false_2; [done|].
      rewrite elem_of_cons. intros [?|?]; congruence.
Qed.

Lemma on_offline_run (msg_data : list SimpleItem) (s : State) :
  ∃ t, _on_offline msg_data s
       = (Ok tt,
          set_parsed_devices
            (offline_device (simple_id <$> msg_data) <$> parsed_devices s) s, t).
Proof.
  unfold _on_offline, bind, logger, emit.
  enough (∃ t, for_each msg_data (λ device_data,
                 set_devices_available
                   (λ device, bool_decide (simple_id device_data = did device))
                   false) s
               = (Ok tt, set_parsed_devices
                    (offline_device (simple_id <$> msg_data) <$> parsed_devices s) s, t))
    as [t ->] by eauto.
  revert s. induction msg_data as [|item msg_data IH]; intros s.
  - exists []. cbn.
    assert (Hid : offline_device [] <$> parsed_devices s = parsed_devices s).
    { etrans; [|apply map_fmap_id]. apply map_fmap_ext. intros k d _.
      unfold offline_device.
      by rewrite bool_decide_eq_false_2 by apply not_elem_of_nil. }
    rewrite Hid. by destruct s.
  - cbn [for_each]. unfold bind. rewrite set_devices_available_run.
    destruct (IH (set_parsed_devices
                    ((λ d, if bool_decide (simple_id item = did d)
                           then device_set_available false d else d)
                       <$> parsed_devices s) s)) as [t Ht].
    rewrite Ht. eexists. f_equal. f_equal. cbn.
    rewrite set_parsed_devices_twice. f_equal.
    rewrite <- map_fmap_compose. apply map_fmap_ext. intros k d _. cbn.
    apply offline_device_cons.
Qed.

(** X6. An offline message never raises, adds or removes no device, and
    touches nothing but the devices map: the devices owned by one of the
    device ids of the message are marked unavailable, with their
    presentation objects, and every other device is left as it was. *)
Theorem on_offline_marks_owned_devices (msg_data : list SimpleItem) (s : State) :
  let run := _on_offline msg_data s in
  let ids := simple_id <$> msg_data in
  result_of run = Ok tt ∧
  state_of run = set_parsed_devices (offline_device ids <$> parsed_devices s) s ∧
  dom (parsed_devices (state_of run)) = dom (parsed_devices s) ∧
  (∀ k d, parsed_devices s !! k = Some d →
     did d ∈ ids →
     ∃ d', parsed_devices (state_of run) !! k = Some d' ∧
           did d' = did d ∧ available d' = false ∧
           Forall (λ e, ent_available e = false) (entities d')) ∧
  (∀ k d, parsed_devices s !! k = Some d →
     did d ∉ ids → parsed_devices (state_of run) !! k = Some d).
Proof.
  intros run ids. subst run ids.
  destruct (on_offline_run msg_data s) as [t Hrun]. rewrite Hrun. cbn.
  split; [done|]. split; [done|]. split; [by rewrite dom_fmap_L|]. split.
  - intros k d Hk Hin. exists (device_set_available false d).
    rewrite lookup_fmap, Hk. cbn. unfold offline_device.
    rewrite bool_decide_eq_true_2 by done. repeat split.
    apply Forall_fmap, Forall_forall. done.
  - intros k d Hk Hout. rewrite lookup_fmap, Hk. cbn. unfold offline_device.
    by rewrite bool_decide_eq_false_2.
Qed.

(** ** A stopped gateway does not reconnect *)

Lemma disconnected_stopped_run (K : Consts) (s : State) :
  _stopped s = true →
  terncy_event_handler K Disconnected s
  = (Ok tt,
     set_parsed_devices (device_set_available false <$> parsed_devices s) s,
     Log WARNING "Disconnected: %s"
       :: ((λ kv, DeviceSetAvailable kv.1 false) <$> map_to_list (parsed_devices s))).
Proof.
  intros Hstopped. cbn [terncy_event_handler]. unfold bind, logger, emit.
  rewrite set_devices_available_all. unfold gets. cbn. rewrite Hstopped. cbn.
  by rewrite app_nil_r.
Qed.

Lemma stop_run (s : State) :
  stop s = (Ok tt, set_api_connected false (set_stopped true s), [ApiStop]).
Proof. reflexivity. Qed.

(** X7. After [stop()], a Disconnected event still marks every device of
    the devices map unavailable, but schedules no reconnect coroutine and
    issues no connect call, whatever the state [stop()] was called in. *)
Theorem stopped_gateway_does_not_reconnect (K : Consts) (s : State) :
  let run := run_steps K [CallStop; Deliver Disconnected] s in
  result_of run = Ok tt ∧
  _stopped (state_of run) = true ∧
  parsed_devices (state_of run) = device_set_available false <$> parsed_devices s ∧
  tasks (state_of run) = tasks s ∧
  reconnects_scheduled (effects_of run) = 0%nat ∧
  connect_calls (effects_of run) = 0%nat.
Proof.
  intros run. subst run. unfold run_steps. cbn [for_each].
  change (step K CallStop) with stop.
  change (step K (Deliver Disconnected)) with (terncy_event_handler K Disconnected).
  unfold bind. rewrite stop_run.
  rewrite (disconnected_stopped_run K
             (set_api_connected false (set_stopped true s)) eq_refl).
  cbn. repeat split.
  all: unfold reconnects_scheduled, connect_calls; cbn.
  all: generalize (map_to_list (parsed_devices s)); intros l.
  all: induction l as [|kv l IH]; [done|]; cbn in *; done.
Qed.

(** ** The reconnect coroutine *)

Lemma run_steps_cons (K : Consts) (st : Step) (l : list Step) (s : State) :
  run_steps K (st :: l) s = (step K st >> run_steps K l) s.
Proof. reflexivity. Qed.

Lemma resume_other (K : Consts) (i : nat) (s : State) :
  tasks s !! i ≠ Some (CoReconnect ReconnectScheduled) →
  tasks s !! i ≠ Some (CoReconnect ReconnectSleeping) →
  step K (Resume i) s = (Ok tt, s, []).
Proof.
  intros H1 H2. cbn [step]. unfold bind, gets.
  destruct (tasks s !! i) as [[[]| |]|]; done.
Qed.

Lemma resumes_other (K : Consts) (i n : nat) (s : State) :
  tasks s !! i ≠ Some (CoReconnect ReconnectScheduled) →
  tasks s !! i ≠ Some (CoReconnect ReconnectSleeping) →
  run_steps K (replicate n (Resume i)) s = (Ok tt, s, []).
Proof.
  intros H1 H2. induction n as [|n IH]; [done|].
  cbn [replicate]. rewrite run_steps_cons. unfold bind.
  by rewrite resume_other, IH.
Qed.

Lemma resume_sleeping (K : Consts) (i : nat) (s : State) :
  tasks s !! i = Some (CoReconnect ReconnectSleeping) →
  step K (Resume i) s
  = (Ok tt, set_tasks (<[i := CoReconnect ReconnectFinished]> (tasks s)) s,
     reconnect_resume_effects s).
Proof.
  intros Hi. cbn [step]. unfold bind at 1, gets. rewrite Hi.
  unfold reconnect_resume, reconnect_resume_effects, is_connected, bind, gets.
  by destruct (api_connected s).
Qed.

Lemma resume_scheduled (K : Consts) (i : nat) (s : State) :
  tasks s !! i = Some (CoReconnect ReconnectScheduled) →
  step K (Resume i) s
  = (Ok tt,
     set_tasks (<[i := CoReconnect (if _stopped s then ReconnectFinished
                                    else ReconnectSleeping)]> (tasks s)) s,
     if _stopped s then [Log DEBUG "service stopped, don't retry"] else []).
Proof.
  intros Hi. cbn [step]. unfold bind at 1, gets. rewrite Hi.
  unfold reconnect_begin, bind, gets. by destruct (_stopped s).
Qed.

Lemma run_from_sleeping (K : Consts) (i n : nat) (s : State) :
  tasks s !! i = Some (CoReconnect ReconnectSleeping) →
  run_steps K (replicate (S n) (Resume i)) s
  = (Ok tt, set_tasks (<[i := CoReconnect ReconnectFinished]> (tasks s)) s,
     reconnect_resume_effects s).
Proof.
  intros Hi. cbn [replicate]. rewrite run_steps_cons. unfold bind.
  rewrite (resume_sleeping K i s Hi).
  rewrite resumes_other; cbn;
    rewrite ?list_lookup_insert_eq by (by eapply lookup_lt_Some); try done.
  by rewrite app_nil_r.
Qed.

Lemma run_from_scheduled (K : Consts) (i n : nat) (s : State) :
  tasks s !! i = Some (CoReconnect ReconnectScheduled) →
  run_steps K (replicate (S (S n)) (Resume i)) s
  = (Ok tt, set_tasks (<[i := CoReconnect ReconnectFinished]> (tasks s)) s,
     if _stopped s then [Log DEBUG "service stopped, don't retry"]
     else reconnect_resume_effects s).
Proof.
  intros Hi. pose proof (lookup_lt_Some _ _ _ Hi) as Hlt.
  change (replicate (S (S n)) (Resume i))
    with (Resume i :: replicate (S n) (Resume i)).
  rewrite run_steps_cons. unfold bind.
  rewrite (resume_scheduled K i s Hi).
  destruct (_stopped s) eqn:Hstopped.
  - rewrite resumes_other; cbn; rewrite ?list_lookup_insert_eq by done; done.
  - rewrite run_from_sleeping by (cbn; by rewrite list_lookup_insert_eq).
    cbn. by rewrite list_insert_insert_eq.
Qed.


(** X9. A scheduled reconnect coroutine that is run to its end issues the
    connect call exactly when the gateway was not stopped at its first run
    and the session client is not connected when the delay has elapsed; the
    stopped flag is not read again after the delay. *)
Theorem reconnect_connects_iff_not_stopped_at_start
    (K : Consts) (i n : nat) (s : State) :
  tasks s !! i = Some (CoReconnect ReconnectScheduled) →
  let run := run_steps K (replicate (S (S n)) (Resume i)) s in
  connect_calls (effects_of run)
  = (if _stopped s || api_connected s then 0 else 1)%nat ∧
  tasks (state_of run) !! i = Some (CoReconnect ReconnectFinished) ∧
  (∀ s', tasks s' !! i = Some (CoReconnect ReconnectSleeping) →
         api_connected s' = false →
         connect_calls (effects_of (step K (Resume i) s')) = 1%nat).
Proof.
  intros Hi run. subst run. rewrite (run_from_scheduled K i n s Hi).
  split; [|split].
  - cbn. unfold reconnect_resume_effects.
    by destruct (_stopped s), (api_connected s).
  - cbn. apply list_lookup_insert_eq. by eapply lookup_lt_Some.
  - intros s' Hs' Hconn. rewrite (resume_sleeping K i s' Hs').
    unfold reconnect_resume_effects. by rewrite Hconn.
Qed.

Lemma reconnect_connects_iff_not_stopped_at_start_witness :
  let s := state_of (terncy_event_handler Sample.consts Disconnected Sample.gateway) in
  tasks s !! 0%nat = Some (CoReconnect ReconnectScheduled) ∧
  connect_calls
    (effects_of (run_steps Sample.consts [Resume 0; Resume 0; Resume 0] s))
  = 1%nat.
Proof.
  intros s. split; [reflexivity|].
  exact (proj1 (reconnect_connects_iff_not_stopped_at_start Sample.consts 0 1 s
                  eq_refl)).
Defined.

(** ** Scenes with actions *)

Lemma setup_scene_new (scene_data : SceneData) (a : pyval) (rest : list pyval)
    (s : State) :
  export_scenes s = true →
  scene_actions scene_data = Some (a :: rest) →
  scenes s !! scene_id scene_data = None →
  setup_scene scene_data s
  = (Ok tt,
     set_scenes
       (<[scene_id scene_data :=
            scene_refresh scene_data (scene_entity (unique_id s) scene_data)]>
          (scenes s)) s,
     [Log DEBUG "setup %s %s";
      HaAddEntity (scene_entity (unique_id s) scene_data);
      EntitySetAvailable (scene_id scene_data) (default true (scene_online scene_data));
      EntityUpdateState (scene_id scene_data) [mkAttr "on" (scene_on scene_data)]]).
Proof.
  intros Hexport Hactions Hnew.
  unfold setup_scene, bind at 1, gets. rewrite Hexport, Hactions. cbn.
  unfold bind, logger, emit, gets. cbn. rewrite Hnew.
  unfold scene_set_available_at, scene_update_state_at, bind, emit, modify. cbn.
  do 2 f_equal. destruct s. unfold set_scenes. cbn. f_equal.
  rewrite !alter_insert_eq. done.
Qed.

Lemma setup_scene_known (scene_data : SceneData) (a : pyval) (rest : list pyval)
    (known : TerncyEntity) (s : State) :
  export_scenes s = true →
  scene_actions scene_data = Some (a :: rest) →
  scenes s !! scene_id scene_data = Some known →
  setup_scene scene_data s
  = (Ok tt,
     set_scenes
       (<[scene_id scene_data :=
            scene_refresh scene_data
              (entity_set_name (scene_display_name scene_data) known)]>
          (scenes s)) s,
     [Log DEBUG "setup %s %s";
      EntitySetAvailable (scene_id scene_data) (default true (scene_online scene_data));
      EntityUpdateState (scene_id scene_data) [mkAttr "on" (scene_on scene_data)]]).
Proof.
  intros Hexport Hactions Hknown.
  unfold setup_scene, bind at 1, gets. rewrite Hexport, Hactions. cbn.
  unfold bind, logger, emit, gets. cbn. rewrite Hknown.
  unfold scene_set_available_at, scene_update_state_at, bind, emit, modify. cbn.
  do 2 f_equal. destruct s. unfold set_scenes. cbn in *. f_equal.
  apply map_eq. intros k. destruct (decide (scene_id scene_data = k)) as [<-|Hne].
  - rewrite !lookup_alter_eq, lookup_insert_eq, Hknown. done.
  - by rewrite !lookup_alter_ne, lookup_insert_ne.
Qed.

(** X10. With export enabled, [setup_scene] on a scene that has actions and
    is not in the scenes map creates one presentation object, hands it to
    the host once, and records it under the scene id: named by the scene, or
    by the scene id when the name is blank or missing, available as the
    scene says (by default: available), with the [on] value of the scene. *)
Theorem setup_scene_creates
    (scene_data : SceneData) (a : pyval) (rest : list pyval) (s : State) :
  export_scenes s = true →
  scene_actions scene_data = Some (a :: rest) →
  scenes s !! scene_id scene_data = None →
  let run := setup_scene scene_data s in
  result_of run = Ok tt ∧
  added_entities (effects_of run) = [scene_entity (unique_id s) scene_data] ∧
  ∃ entity,
    scenes (state_of run) !! scene_id scene_data = Some entity ∧
    ent_eid entity = scene_id scene_data ∧
    _attr_name entity
    = (if decide (default "" (scene_name scene_data) = "")
       then scene_id scene_data else default "" (scene_name scene_data)) ∧
    ent_available entity = default true (scene_online scene_data) ∧
    ent_state entity = {[ "on" := scene_on scene_data ]} ∧
    ent_unique_id_prefix entity = Some (unique_id s) ∧
    (∀ other, other ≠ scene_id scene_data →
       scenes (state_of run) !! other = scenes s !! other).
Proof.
  intros Hexport Hactions Hnew run. subst run.
  rewrite (setup_scene_new scene_data a rest s Hexport Hactions Hnew).
  cbn [result_of state_of effects_of fst snd].
  split; [done|]. split; [done|]. eexists.
  split; [unfold set_scenes; cbn [scenes]; apply lookup_insert_eq|].
  split; [done|]. split.
  { cbn. unfold scene_display_name, truthy.
    destruct (scene_name scene_data) as [n|]; cbn; [|done].
    by destruct (decide (n = "")). }
  split; [done|]. split.
  { unfold scene_refresh, scene_entity, entity_update_state, entity_set_available,
      entity_set_device_info, create_entity, merge_attrs.
    cbn [ent_state foldl attr value]. by rewrite insert_insert_eq. }
  split; [done|].
  intros other Hne. unfold set_scenes; cbn [scenes]. by rewrite lookup_insert_ne.
Qed.

Lemma setup_scene_creates_witness :
  let morning := mkScene "scene-000002" (Some [VInt 1]) (Some "") None (VInt 1) in
  let run := setup_scene morning Sample.gateway in
  export_scenes Sample.gateway = true ∧
  scenes Sample.gateway !! "scene-000002" = None ∧
  result_of run = Ok tt ∧
  (_attr_name <$> scenes (state_of run) !! "scene-000002") = Some "scene-000002".
Proof.
  intros morning run. split; [reflexivity|]. split; [reflexivity|].
  destruct (setup_scene_creates morning (VInt 1) [] Sample.gateway
              eq_refl eq_refl eq_refl)
    as (Hok & _ & entity & Hentity & _ & Hname & _).
  split; [exact Hok|].
  exact (eq_trans (f_equal (fmap _attr_name) Hentity) (f_equal Some Hname)).
Defined.

(** X11. With export enabled, [setup_scene] on a scene that has actions and
    is already in the scenes map creates nothing: the recorded object is
    renamed in place, its availability is set, and the [on] value is merged
    into its state, whose other attributes are kept. *)
Theorem setup_scene_updates_in_place
    (scene_data : SceneData) (a : pyval) (rest : list pyval)
    (known : TerncyEntity) (s : State) :
  export_scenes s = true →
  scene_actions scene_data = Some (a :: rest) →
  scenes s !! scene_id scene_data = Some known →
  let run := setup_scene scene_data s in
  result_of run = Ok tt ∧
  added_entities (effects_of run) = [] ∧
  ∃ entity,
    scenes (state_of run) !! scene_id scene_data = Some entity ∧
    _attr_name entity = scene_display_name scene_data ∧
    ent_available entity = default true (scene_online scene_data) ∧
    ent_state entity = <["on" := scene_on scene_data]> (ent_state known) ∧
    ent_eid entity = ent_eid known ∧
    ent_description entity = ent_description known ∧
    ent_unique_id_prefix entity = ent_unique_id_prefix known ∧
    _attr_device_info entity = _attr_device_info known.
Proof.
  intros Hexport Hactions Hknown run. subst run.
  rewrite (setup_scene_known scene_data a rest known s Hexport Hactions Hknown).
  cbn. split; [done|]. split; [done|].
  eexists. split; [apply lookup_insert_eq|]. by cbn.
Qed.

Lemma setup_scene_updates_in_place_witness :
  let renamed := mkScene "scene-000001" (Some [VInt 1]) (Some "Night") (Some false)
                   (VInt 1) in
  let run := setup_scene renamed Sample.gateway in
  export_scenes Sample.gateway = true ∧
  scenes Sample.gateway !! "scene-000001" = Some Sample.evening ∧
  added_entities (effects_of run) = [] ∧
  (_attr_name <$> scenes (state_of run) !! "scene-000001") = Some "Night".
Proof.
  intros renamed run. split; [reflexivity|]. split; [reflexivity|].
  destruct (setup_scene_updates_in_place renamed (VInt 1) [] Sample.evening
              Sample.gateway eq_refl eq_refl eq_refl)
    as (_ & Hadded & entity & Hentity & Hname & _).
  split; [exact Hadded|].
  exact (eq_trans (f_equal (fmap _attr_name) Hentity) (f_equal Some Hname)).
Defined.

Lemma setup_scene_disabled (scene_data : SceneData) (s : State) :
  export_scenes s = false → setup_scene scene_data s = (Ok tt, s, []).
Proof. intros H. unfold setup_scene, bind, gets. by rewrite H. Qed.

Lemma setup_scene_empty (scene_data : SceneData) (s : State) :
  export_scenes s = true →
  default [] (scene_actions scene_data) = [] →
  setup_scene scene_data s
  = match scenes s !! scene_id scene_data with
    | Some _ =>
        (Ok tt,
         set_scenes (alter (entity_set_available false) (scene_id scene_data)
                       (scenes s)) s,
         [EntitySetAvailable (scene_id scene_data) false])
    | None => (Ok tt, s, [])
    end.
Proof.
  intros Hexport Hactions. unfold setup_scene, bind, gets.
  rewrite Hexport, Hactions. cbn.
  by destruct (scenes s !! scene_id scene_data).
Qed.

Lemma scene_refresh_idemp (scene_data : SceneData) (n : string)
    (entity : TerncyEntity) :
  scene_refresh scene_data
    (entity_set_name n (scene_refresh scene_data (entity_set_name n entity)))
  = scene_refresh scene_data (entity_set_name n entity).
Proof.
  unfold scene_refresh, entity_set_name, entity_update_state, entity_set_available.
  cbn [ent_eid ent_description ent_unique_id_prefix _attr_device_info _attr_name
       ent_available ent_state].
  by rewrite merge_attrs_idemp.
Qed.

Lemma set_scenes_same (s : State) : set_scenes (scenes s) s = s.
Proof. by destruct s. Qed.

(** X12. [setup_scene] is a create-or-update: handling the same scene data
    again, whatever it is and whatever the gateway held, leaves the gateway
    exactly as the first handling left it and hands no further presentation
    object to the host. *)
Theorem setup_scene_idempotent (scene_data : SceneData) (s : State) :
  let once := state_of (setup_scene scene_data s) in
  let again := setup_scene scene_data once in
  result_of (setup_scene scene_data s) = Ok tt ∧
  result_of again = Ok tt ∧
  state_of again = once ∧
  added_entities (effects_of again) = [].
Proof.
  intros once again. subst again once.
  destruct (export_scenes s) eqn:Hexport;
    [|rewrite (setup_scene_disabled scene_data s Hexport);
      cbn [state_of fst snd];
      by rewrite (setup_scene_disabled scene_data s Hexport)].
  destruct (default [] (scene_actions scene_data)) as [|a rest] eqn:Hactions.
  - rewrite (setup_scene_empty scene_data s Hexport Hactions).
    destruct (scenes s !! scene_id scene_data) as [known|] eqn:Hknown.
    + cbn [state_of result_of fst snd].
      rewrite (setup_scene_empty scene_data
                 (set_scenes (alter (entity_set_available false)
                                (scene_id scene_data) (scenes s)) s)
                 Hexport Hactions).
      cbn [scenes set_scenes]. rewrite lookup_alter_eq, Hknown.
      cbn. split; [done|]. split; [done|]. split; [|done].
      unfold set_scenes. cbn. f_equal. apply map_eq. intros k.
      destruct (decide (scene_id scene_data = k)) as [<-|Hne].
      * rewrite !lookup_alter_eq, Hknown. done.
      * by rewrite !lookup_alter_ne.
    + cbn [state_of result_of fst snd].
      rewrite (setup_scene_empty scene_data s Hexport Hactions), Hknown. done.
  - assert (Hsome : scene_actions scene_data = Some (a :: rest)).
    { destruct (scene_actions scene_data); cbn in Hactions; congruence. }
    destruct (scenes s !! scene_id scene_data) as [known|] eqn:Hknown.
    + rewrite (setup_scene_known scene_data a rest known s Hexport Hsome Hknown).
      cbn [state_of result_of fst snd].
      rewrite (setup_scene_known scene_data a rest
                 (scene_refresh scene_data
                    (entity_set_name (scene_display_name scene_data) known))
                 (set_scenes
                    (<[scene_id scene_data :=
                         scene_refresh scene_data
                           (entity_set_name (scene_display_name scene_data) known)]>
                       (scenes s)) s)
                 Hexport Hsome (lookup_insert_eq _ _ _)).
      cbn [state_of result_of effects_of fst snd].
      split; [done|]. split; [done|]. split; [|done].
      unfold set_scenes. cbn. f_equal.
      by rewrite insert_insert_eq, scene_refresh_idemp.
    + rewrite (setup_scene_new scene_data a rest s Hexport Hsome Hknown).
      cbn [state_of result_of fst snd].
      rewrite (setup_scene_known scene_data a rest
                 (scene_refresh scene_data (scene_entity (unique_id s) scene_data))
                 (set_scenes
                    (<[scene_id scene_data :=
                         scene_refresh scene_data
                           (scene_entity (unique_id s) scene_data)]>
                       (scenes s)) s)
                 Hexport Hsome (lookup_insert_eq _ _ _)).
      cbn [state_of result_of effects_of fst snd].
      split; [done|]. split; [done|]. split; [|done].
      unfold set_scenes. cbn [scenes]. f_equal. rewrite insert_insert_eq.
      by f_equal.
Qed.

(** X13. A scene that [setup_scene] has recorded is removed again by an
    entityDeleted payload with its id when the id carries the scene prefix:
    the scenes map is as before without the id, and the entity registry is
    asked once to remove the object.  A scene whose id lacks the prefix is
    taken for a device id and stays in the scenes map. *)
Theorem setup_scene_then_entity_deleted
    (scene_data : SceneData) (a : pyval) (rest : list pyval) (s : State) :
  export_scenes s = true →
  scene_actions scene_data = Some (a :: rest) →
  let recorded := state_of (setup_scene scene_data s) in
  let run := entity_deleted_item (mkSimple (scene_id scene_data)) recorded in
  result_of run = Ok tt ∧
  is_Some (scenes recorded !! scene_id scene_data) ∧
  if String.prefix "scene-" (scene_id scene_data) then
    scenes (state_of run) = delete (scene_id scene_data) (scenes s) ∧
    length (er_removals (effects_of run)) = 1%nat
  else
    scenes (state_of run) = scenes recorded ∧
    er_removals (effects_of run) = [].
Proof.
  intros Hexport Hactions recorded run.
  assert (Hrecorded : ∃ entity,
            recorded = set_scenes (<[scene_id scene_data := entity]> (scenes s)) s).
  { subst recorded.
    destruct (scenes s !! scene_id scene_data) as [known|] eqn:Hknown.
    - rewrite (setup_scene_known scene_data a rest known s Hexport Hactions Hknown).
      by eexists.
    - rewrite (setup_scene_new scene_data a rest s Hexport Hactions Hknown).
      by eexists. }
  destruct Hrecorded as [entity Hrecorded]. subst run. rewrite Hrecorded.
  destruct (String.prefix "scene-" (scene_id scene_data)) eqn:Hprefix.
  - rewrite (entity_deleted_scene_run (mkSimple (scene_id scene_data)) _ Hprefix).
    cbn [simple_id scenes set_scenes]. rewrite lookup_insert_eq.
    cbn. split; [done|]. split; [by eexists|].
    by rewrite delete_insert_eq.
  - rewrite (entity_deleted_device_run (mkSimple (scene_id scene_data)) _ Hprefix).
    cbn [result_of state_of effects_of fst snd simple_id].
    split; [done|]. split; [cbn; rewrite lookup_insert_eq; by eexists|].
    split; [done|]. apply er_removals_delete.
Qed.

Lemma setup_scene_then_entity_deleted_witness :
  let morning := mkScene "scene-000002" (Some [VInt 1]) (Some "Morning") None (VInt 1) in
  let recorded := state_of (setup_scene morning Sample.gateway) in
  let run := entity_deleted_item (mkSimple "scene-000002") recorded in
  export_scenes Sample.gateway = true ∧
  is_Some (scenes recorded !! "scene-000002") ∧
  scenes (state_of run) = delete "scene-000002" (scenes Sample.gateway) ∧
  length (er_removals (effects_of run)) = 1%nat.
Proof.
  intros morning recorded run. split; [reflexivity|].
  destruct (setup_scene_then_entity_deleted morning (VInt 1) [] Sample.gateway
              eq_refl eq_refl) as (_ & Hrecorded & Hscenes & Hcalls).
  split; [exact Hrecorded|]. split; [exact Hscenes|exact Hcalls].
Defined.

(** ** An invariant of the devices map

    Rules for [triple], then the invariant [consistent] through every
    handler. *)

Lemma triple_ret {A} (P : State → Prop) (a : A) (Q : A → State → Prop)
    (E : State → Prop) :
  (∀ s, P s → Q a s) → triple P (ret a) Q E.
Proof. intros H s Hs. by apply H. Qed.

Lemma triple_bind {A B} (P : State → Prop) (m : M A) (f : A → M B)
    (R : A → State → Prop) (Q : B → State → Prop) (E : State → Prop) :
  triple P m R E → (∀ a, triple (R a) (f a) Q E) → triple P (bind m f) Q E.
Proof.
  intros Hm Hf s Hs. specialize (Hm s Hs). unfold bind.
  destruct (m s) as [[[a|e] s1] t1]; [|done].
  specialize (Hf a s1 Hm). by destruct (f a s1) as [[[b|e] s2] t2].
Qed.

Lemma triple_gets {A} (P : State → Prop) (f : State → A) (E : State → Prop) :
  triple P (gets f) (λ a s, P s ∧ a = f s) E.
Proof. by intros s Hs. Qed.

Lemma triple_modify (P : State → Prop) (f : State → State)
    (Q : unit → State → Prop) (E : State → Prop) :
  (∀ s, P s → Q tt (f s)) → triple P (modify f) Q E.
Proof. intros H s Hs. by apply H. Qed.

Lemma triple_emit (P : State → Prop) (e : Effect) (E : State → Prop) :
  triple P (emit e) (λ _, P) E.
Proof. by intros s Hs. Qed.

Lemma triple_raise {A} (P : State → Prop) (e : exn) (Q : A → State → Prop)
    (E : State → Prop) :
  (∀ s, P s → E s) → triple P (raise e) Q E.
Proof. intros H s Hs. by apply H. Qed.

Lemma triple_conseq {A} (P P' : State → Prop) (m : M A)
    (Q Q' : A → State → Prop) (E : State → Prop) :
  (∀ s, P' s → P s) → (∀ a s, Q a s → Q' a s) →
  triple P m Q E → triple P' m Q' E.
Proof.
  intros HP HQ Hm s Hs. specialize (Hm s (HP s Hs)).
  destruct (m s) as [[[a|e] s1] t1]; auto.
Qed.

Lemma triple_of_wp {A} (P : State → Prop) (m : M A) (Q : A → State → Prop)
    (E : State → Prop) :
  (∀ s, P s → wp m s Q) → triple P m Q E.
Proof. intros H s Hs. destruct (H s Hs) as (a & s' & t & -> & HQ). done. Qed.

Lemma triple_unchanged {A} (P : State → Prop) (m : M A) (E : State → Prop) :
  (∀ s, state_of (m s) = s) → (∀ s, P s → E s) → triple P m (λ _, P) E.
Proof.
  intros Hm HE s Hs. specialize (Hm s).
  destruct (m s) as [[[a|e] s1] t1]; cbn in Hm; subst s1; auto.
Qed.

Lemma keeps_bind {A B} (I : State → Prop) (m : M A) (f : A → M B) :
  keeps I m → (∀ a, keeps I (f a)) → keeps I (bind m f).
Proof. intros Hm Hf. eapply triple_bind; [exact Hm|exact Hf]. Qed.

Lemma keeps_ret {A} (I : State → Prop) (a : A) : keeps I (ret a).
Proof. by apply triple_ret. Qed.

Lemma keeps_gets {A} (I : State → Prop) (f : State → A) : keeps I (gets f).
Proof. eapply triple_conseq; [| |apply triple_gets]; [done|]. by intros a s [? _]. Qed.

Lemma keeps_emit (I : State → Prop) (e : Effect) : keeps I (emit e).
Proof. apply triple_emit. Qed.

Lemma keeps_raise {A} (I : State → Prop) (e : exn) : keeps I (@raise A e).
Proof. by apply triple_raise. Qed.

Lemma keeps_modify (I : State → Prop) (f : State → State) :
  (∀ s, I s → I (f s)) → keeps I (modify f).
Proof. intros H. by apply triple_modify. Qed.

Lemma keeps_when (I : State → Prop) (c : bool) (m : M unit) :
  keeps I m → keeps I (when c m).
Proof. intros H. destruct c; [done|apply keeps_ret]. Qed.

Lemma keeps_for_each {A} (I : State → Prop) (l : list A) (body : A → M unit) :
  (∀ x, keeps I (body x)) → keeps I (for_each l body).
Proof.
  intros Hbody. induction l as [|x l IH]; [apply keeps_ret|].
  cbn [for_each]. apply keeps_bind; [apply Hbody|done].
Qed.

Lemma keeps_for_fold {A B} (I : State → Prop) (l : list A) (b : B)
    (body : B → A → M B) :
  (∀ b x, keeps I (body b x)) → keeps I (for_fold l b body).
Proof.
  intros Hbody. revert b. induction l as [|x l IH]; intros b; [apply keeps_ret|].
  cbn [for_fold]. apply keeps_bind; [apply Hbody|done].
Qed.

Lemma keeps_try_except {A} (I : State → Prop) (m : M A) (h : exn → M A) :
  keeps I m → (∀ e, keeps I (h e)) → keeps I (try_except m h).
Proof.
  intros Hm Hh s Hs. specialize (Hm s Hs). unfold try_except.
  destruct (m s) as [[[a|e] s1] t1]; [done|].
  specialize (Hh e s1 Hm). by destruct (h e s1) as [[[b|e'] s2] t2].
Qed.

Lemma keeps_unchanged {A} (I : State → Prop) (m : M A) :
  (∀ s, state_of (m s) = s) → keeps I m.
Proof. intros H. by apply triple_unchanged. Qed.

Ltac keeps_step :=
  lazymatch goal with
  | |- keeps _ (bind _ _) => apply keeps_bind; [|intros ?]
  | |- keeps _ (gets _) => apply keeps_gets
  | |- keeps _ (emit _) => apply keeps_emit
  | |- keeps _ (logger _ _) => apply keeps_emit
  | |- keeps _ (ret _) => apply keeps_ret
  | |- keeps _ (raise _) => apply keeps_raise
  | |- keeps _ (when _ _) => apply keeps_when
  end.

Ltac keeps_leaf :=
  lazymatch goal with
  | |- keeps _ (logger _ _) => apply keeps_emit
  | |- keeps _ (ret _) => apply keeps_ret
  | |- keeps _ (raise _) => apply keeps_raise
  | |- _ => idtac
  end.

(** *** [consistent] under the updates of the two maps *)

Lemma consistent_same (s s' : State) :
  parsed_devices s' = parsed_devices s →
  device_registry s' = device_registry s →
  consistent s → consistent s'.
Proof. unfold consistent. intros -> ->. done. Qed.

Lemma consistent_alter (f : TerncyDevice → TerncyDevice) (k : string) (s : State) :
  (∀ d, eid (f d) = eid d) →
  consistent s →
  consistent (set_parsed_devices (alter f k (parsed_devices s)) s).
Proof.
  intros Hf Hs k' d. cbn. destruct (decide (k = k')) as [<-|Hne].
  - rewrite lookup_alter_eq. destruct (parsed_devices s !! k) as [d0|] eqn:Hk;
      cbn; [|done]. intros [= <-]. rewrite Hf. by apply Hs.
  - rewrite lookup_alter_ne by done. apply Hs.
Qed.

Lemma consistent_fmap (f : TerncyDevice → TerncyDevice) (s : State) :
  (∀ d, eid (f d) = eid d) →
  consistent s →
  consistent (set_parsed_devices (f <$> parsed_devices s) s).
Proof.
  intros Hf Hs k d. cbn. rewrite lookup_fmap.
  destruct (parsed_devices s !! k) as [d0|] eqn:Hk; cbn; [|done].
  intros [= <-]. rewrite Hf. by apply Hs.
Qed.

Lemma consistent_insert (k : string) (d : TerncyDevice) (s : State) :
  eid d = k → is_Some (device_registry s !! k) →
  consistent s →
  consistent (set_parsed_devices (<[k := d]> (parsed_devices s)) s).
Proof.
  intros Hd Hreg Hs k' d'. cbn. destruct (decide (k = k')) as [<-|Hne].
  - rewrite lookup_insert_eq. by intros [= <-].
  - rewrite lookup_insert_ne by done. apply Hs.
Qed.

Lemma consistent_deleted (eids : list string) (s : State) :
  consistent s → consistent (deleted_state eids s).
Proof.
  intros Hs k d. unfold deleted_state. cbn. rewrite !foldl_delete_lookup.
  destruct (decide (k ∈ eids)); [done|]. apply Hs.
Qed.

Lemma keeps_device_alter (f : TerncyDevice → TerncyDevice) (k : string) :
  (∀ d, eid (f d) = eid d) →
  keeps consistent
    (modify (λ s, set_parsed_devices (alter f k (parsed_devices s)) s)).
Proof. intros Hf. apply keeps_modify. intros s. by apply consistent_alter. Qed.

Lemma keeps_dr_async_get_or_create (args : DeviceArgs) :
  triple consistent (dr_async_get_or_create args)
    (λ _ s, consistent s ∧ is_Some (device_registry s !! arg_identifier args))
    consistent.
Proof.
  unfold dr_async_get_or_create.
  eapply triple_bind; [apply triple_emit|]. intros ?.
  apply triple_modify. intros s Hs.
  assert (Hgrow : ∀ e n,
            consistent (set_device_registry
                          (<[arg_identifier args := e]> (device_registry s)) n s)).
  { intros e n k d Hk. cbn in *. destruct (Hs k d Hk) as [Heid Hreg].
    split; [done|]. destruct (decide (arg_identifier args = k)) as [<-|Hne].
    - rewrite lookup_insert_eq. by eexists.
    - by rewrite lookup_insert_ne. }
  destruct (device_registry s !! arg_identifier args); cbn;
    (split; [apply Hgrow|rewrite lookup_insert_eq; by eexists]).
Qed.

Section Consistent.
Context (K : Consts).

Lemma keeps_room_area (area room : option string) :
  keeps consistent (room_area area room).
Proof.
  apply triple_of_wp. intros s Hs. eapply wp_mono; [|apply wp_room_area].
  by intros ? s' ->.
Qed.

Lemma keeps_setup_service (device_data : PhysicalDeviceData)
    (sw_version hw_version : option string) (online : bool)
    (suggested_area : option string) (svc : SvcData) :
  keeps consistent
    (setup_service K device_data sw_version hw_version online suggested_area svc).
Proof.
  unfold setup_service. keeps_step; [apply keeps_gets|].
  keeps_step.
  - destruct a as [device|]; [apply keeps_ret|].
    destruct (svc_profile svc ≫= λ p, PROFILES K !! p) as [descriptions|].
    + keeps_step; [apply keeps_room_area|].
      destruct (0 <? length _)%nat; [|apply keeps_ret].
      keeps_step; [apply keeps_gets|].
      eapply triple_bind; [apply keeps_dr_async_get_or_create|]. intros ?.
      eapply (triple_bind _ _ _ (λ _, consistent)).
      { unfold add_device. apply triple_modify. intros s [Hs Hreg].
        apply consistent_insert; [done|exact Hreg|exact Hs]. }
      intros ?.
      match goal with |- triple ?I ?m _ _ => change (keeps I m) end.
      keeps_step; [|apply keeps_ret].
      apply keeps_for_each. intros description.
      keeps_step; [apply keeps_emit|]. by apply keeps_device_alter.
    + keeps_step; [apply keeps_emit|apply keeps_ret].
  - unfold device_set_available_at, device_update_state_at.
    keeps_step; [keeps_step; [apply keeps_emit|by apply keeps_device_alter]|].
    keeps_step; [keeps_step; [apply keeps_emit|by apply keeps_device_alter]|].
    apply keeps_ret.
Qed.

Lemma keeps_setup_device (device_data : PhysicalDeviceData)
    (svc_list : list SvcData) :
  keeps consistent (setup_device K device_data svc_list).
Proof.
  unfold setup_device. keeps_step; [apply keeps_emit|].
  keeps_step; [apply keeps_room_area|].
  do 3 (keeps_step; [apply keeps_gets|]).
  keeps_step.
  - apply keeps_when. eapply triple_conseq;
      [| |apply keeps_dr_async_get_or_create]; [done|]. by intros ? s [? _].
  - keeps_step; [|apply keeps_ret].
    apply keeps_for_fold. intros area svc. apply keeps_setup_service.
Qed.

Lemma setup_scene_scenes_only (scene_data : SceneData) (s : State) :
  ∃ m t, setup_scene scene_data s = (Ok tt, set_scenes m s, t).
Proof.
  destruct (export_scenes s) eqn:Hexport.
  - destruct (default [] (scene_actions scene_data)) as [|a rest] eqn:Hactions.
    + rewrite (setup_scene_empty scene_data s Hexport Hactions).
      destruct (scenes s !! scene_id scene_data); [by eexists _, _|].
      exists (scenes s), []. by rewrite set_scenes_same.
    + assert (Hsome : scene_actions scene_data = Some (a :: rest)).
      { destruct (scene_actions scene_data); cbn in Hactions; congruence. }
      destruct (scenes s !! scene_id scene_data) as [known|] eqn:Hknown.
      * rewrite (setup_scene_known scene_data a rest known s Hexport Hsome Hknown).
        by eexists _, _.
      * rewrite (setup_scene_new scene_data a rest s Hexport Hsome Hknown).
        by eexists _, _.
  - rewrite (setup_scene_disabled scene_data s Hexport).
    exists (scenes s), []. by rewrite set_scenes_same.
Qed.

Lemma keeps_setup_scene (scene_data : SceneData) :
  keeps consistent (setup_scene scene_data).
Proof.
  intros s Hs. destruct (setup_scene_scenes_only scene_data s) as (m & t & ->).
  by apply (consistent_same s).
Qed.

Lemma keeps_entity_deleted_item (item : SimpleItem) :
  keeps consistent (entity_deleted_item item).
Proof.
  intros s Hs. destruct (String.prefix "scene-" (simple_id item)) eqn:Hprefix.
  - rewrite (entity_deleted_scene_run item s Hprefix).
    destruct (scenes s !! simple_id item); [|done].
    by apply (consistent_same s).
  - rewrite (entity_deleted_device_run item s Hprefix).
    by apply consistent_deleted.
Qed.

Lemma keeps_terncy_event_handler (event : Event) :
  keeps consistent (terncy_event_handler K event).
Proof.
  destruct event as [msg| | |]; cbn [terncy_event_handler].
  - destruct (msg_entities msg) as [msg_data|]; [|apply keeps_emit].
    repeat case_decide; keeps_leaf.
    + destruct msg_data; keeps_leaf.
      apply (keeps_unchanged consistent (_on_report l)).
      intros s. unfold _on_report, bind, logger, emit.
      rewrite (for_each_run _ _ (report_effects s)); [done|].
      intros item. unfold report_effects.
      destruct (rep_id item); [apply update_listeners_run|done].
    + destruct msg_data; keeps_leaf.
      apply (keeps_unchanged consistent (_on_key_pressed K l)).
      intros s. apply on_key_pressed_state.
    + destruct msg_data; keeps_leaf.
      apply (keeps_unchanged consistent (_on_key_long_pressed K l)).
      intros s. apply notify_loop_state.
    + destruct msg_data; keeps_leaf.
      apply (keeps_unchanged consistent (_on_rotation K l)).
      intros s. apply notify_loop_state.
    + destruct msg_data; keeps_leaf.
      unfold _on_entity_available. keeps_step; [apply keeps_emit|].
      apply keeps_for_each. intros device_data.
      repeat case_decide; keeps_leaf.
      destruct device_data; keeps_leaf. apply keeps_setup_device.
    + destruct msg_data; keeps_leaf.
      unfold _on_entity_deleted. keeps_step; [apply keeps_emit|].
      apply keeps_for_each. apply keeps_entity_deleted_item.
    + destruct msg_data; keeps_leaf.
      unfold _on_entity_created. keeps_step; [apply keeps_emit|].
      apply keeps_for_each. intros item.
      repeat case_decide; keeps_leaf.
      * destruct item; keeps_leaf. apply keeps_setup_scene.
      * destruct item; keeps_leaf. apply keeps_setup_device.
    + destruct msg_data; keeps_leaf.
      unfold _on_entity_updated. keeps_step; [apply keeps_emit|].
      apply keeps_for_each. intros item.
      repeat case_decide; keeps_leaf.
      destruct item; keeps_leaf. apply keeps_setup_scene.
    + destruct msg_data; keeps_leaf.
      intros s Hs. destruct (on_offline_run l s) as [t ->].
      apply consistent_fmap; [|done].
      intros d. unfold offline_device. by destruct (bool_decide _).
  - keeps_step; [apply keeps_emit|]. unfold async_create_task.
    keeps_step; [apply keeps_emit|]. apply keeps_modify.
    intros s. by apply consistent_same.
  - change (keeps consistent (terncy_event_handler K Disconnected)).
    intros s Hs.
    assert (Hmarked : consistent
              (set_parsed_devices (device_set_available false <$> parsed_devices s) s))
      by (by apply consistent_fmap).
    destruct (_stopped s) eqn:Hstopped.
    + by rewrite (disconnected_stopped_run K s Hstopped).
    + rewrite (disconnected_run K s Hstopped). revert Hmarked.
      by apply consistent_same.
  - apply keeps_emit.
Qed.

Lemma keeps_step_of_loop (st : Step) : keeps consistent (step K st).
Proof.
  destruct st as [event| |i|b]; cbn [step].
  - apply keeps_terncy_event_handler.
  - intros s Hs. rewrite stop_run. revert Hs. by apply consistent_same.
  - keeps_step; [apply keeps_gets|].
    assert (Htask : ∀ c, keeps consistent (set_task i c)).
    { intros c. apply keeps_modify. intros s. by apply consistent_same. }
    destruct a as [[[]| |]|]; keeps_leaf.
    + keeps_step; [|apply Htask]. unfold reconnect_begin.
      keeps_step; [apply keeps_gets|].
      match goal with |- keeps _ (if ?b then _ else _) => destruct b end;
        [keeps_step; [apply keeps_emit|]|]; apply keeps_ret.
    + keeps_step; [|apply Htask]. unfold reconnect_resume, is_connected.
      keeps_step; [apply keeps_gets|].
      match goal with |- keeps _ (if ?b then _ else _) => destruct b end;
        repeat (keeps_step; [apply keeps_emit|]); apply keeps_ret.
  - apply keeps_modify. intros s. by apply consistent_same.
Qed.

End Consistent.

Lemma consistent_registered_gateway : consistent Sample.registered_gateway.
Proof.
  intros k d Hk. cbn in Hk. apply lookup_singleton_Some in Hk as [<- <-].
  split; [done|]. cbn. rewrite lookup_singleton_eq. by eexists.
Qed.

(** X14. Whatever the session client delivers and however the event loop
    interleaves [stop()] and the coroutines, the gateway keeps its devices
    map keyed by the eid of the device it holds, and never holds a device
    the host registry has no entry for: the property holds after every run
    of the event loop that starts with it (an empty devices map has it). *)
Theorem event_loop_keeps_devices_registered
    (K : Consts) (steps : list Step) (s : State) :
  consistent s → consistent (state_of (run_steps K steps s)).
Proof.
  intros Hs.
  pose proof (keeps_for_each consistent steps (step K) (keeps_step_of_loop K) s Hs)
    as Hrun.
  unfold run_steps.
  by destruct (for_each steps (step K) s) as [[[[]|e] s1] t1].
Qed.

Lemma event_loop_keeps_devices_registered_witness :
  let steps :=
    [entity_available Sample.two_gang;
     Deliver (EventMessage (mkMsg (Some "entityDeleted")
                (Some (SimpleMsgData [mkSimple "dev-1"]))));
     Deliver Disconnected; Resume 0; CallStop; Resume 0] in
  consistent Sample.registered_gateway ∧
  consistent (state_of (run_steps Sample.consts steps Sample.registered_gateway)).
Proof.
  intros steps. split; [exact consistent_registered_gateway|].
  exact (event_loop_keeps_devices_registered Sample.consts steps
           Sample.registered_gateway consistent_registered_gateway).
Defined.

(** X15. In a gateway whose devices all have an entry in the host registry,
    an entityDeleted payload with a device id issues exactly one removal
    call on the registry per entity it removes from the devices map, and the
    registry loses exactly the entries of the removed entities. *)
Theorem entity_deleted_one_removal_per_entity (item : SimpleItem) (s : State) :
  consistent s →
  String.prefix "scene-" (simple_id item) = false →
  let run := entity_deleted_item item s in
  let removed := filter (λ kv, simple_id item = did kv.2) (parsed_devices s) in
  length (dr_removals (effects_of run)) = size removed ∧
  (size (parsed_devices (state_of run)) + size removed)%nat = size (parsed_devices s) ∧
  (∀ k, device_registry (state_of run) !! k
        = if decide (k ∈ dom removed) then None else device_registry s !! k).
Proof.
  intros Hs Hprefix run removed. subst run.
  rewrite (entity_deleted_device_run item s Hprefix). fold removed.
  cbn [state_of effects_of fst snd]. rewrite dr_removals_delete.
  split; [|split].
  - rewrite <- length_map_to_list, <- (length_fmap fst (map_to_list removed)).
    assert (Hall : ∀ k, k ∈ (map_to_list removed).*1 →
                        is_Some (device_registry s !! k)).
    { intros k ([k' d] & -> & Hin)%list_elem_of_fmap.
      apply elem_of_map_to_list, map_lookup_filter_Some in Hin as [Hk _].
      by apply (Hs _ _ Hk). }
    induction ((map_to_list removed).*1) as [|k l IH]; [done|].
    cbn [omap list_omap]. destruct (Hall k) as [entry Hentry]; [by left|].
    rewrite Hentry. cbn. f_equal. apply IH. intros k' Hk'. apply Hall. by right.
  - unfold deleted_state. cbn [parsed_devices set_parsed_devices].
    subst removed. rewrite foldl_delete_filter.
    pose proof (map_size_disj_union _ _
                  (map_disjoint_filter_complement
                     (λ kv : string * TerncyDevice, simple_id item = did kv.2)
                     (parsed_devices s))) as Hsize.
    rewrite map_filter_union_complement in Hsize. rewrite Hsize. lia.
  - intros k. unfold deleted_state. cbn. rewrite foldl_delete_lookup.
    destruct (decide (k ∈ (map_to_list removed).*1)) as [Hin|Hout].
    + rewrite decide_True; [done|].
      apply list_elem_of_fmap in Hin as ([k' d] & -> & Hin).
      apply elem_of_map_to_list in Hin. apply elem_of_dom. by eexists.
    + rewrite decide_False; [done|]. intros [d Hd]%elem_of_dom. apply Hout.
      apply list_elem_of_fmap. exists (k, d). split; [done|].
      by apply elem_of_map_to_list.
Qed.

Lemma entity_deleted_one_removal_per_entity_witness :
  let run := entity_deleted_item (mkSimple "dev-1") Sample.registered_gateway in
  consistent Sample.registered_gateway ∧
  String.prefix "scene-" "dev-1" = false ∧
  length (dr_removals (effects_of run))
  = size (filter (λ kv, "dev-1" = did kv.2) (parsed_devices Sample.registered_gateway)).
Proof.
  intros run. split; [exact consistent_registered_gateway|].
  split; [reflexivity|].
  exact (proj1 (entity_deleted_one_removal_per_entity (mkSimple "dev-1")
                  Sample.registered_gateway consistent_registered_gateway eq_refl)).
Defined.

(** ** What one service does to the gateway *)

Lemma bind_run {A B} (m : M A) (f : A → M B) (s s1 s2 : State) (a : A)
    (r : Result B) (t1 t2 : list Effect) :
  m s = (Ok a, s1, t1) → f a s1 = (r, s2, t2) →
  bind m f s = (r, s2, (t1 ++ t2)%list).
Proof. intros Hm Hf. unfold bind. by rewrite Hm, Hf. Qed.

Lemma room_area_run (area room : option string) (s : State) :
  room_area area room s = (Ok (area_of (room_data s) area room), s, []).
Proof.
  unfold room_area, area_of. destruct (truthy room) as [r|]; [|done].
  unfold bind, gets. by destruct (truthy (room_data s !! r)).
Qed.

Lemma alter_absent {V} (f : V → V) (k : string) (m : gmap string V) :
  m !! k = None → alter f k m = m.
Proof.
  intros Hk. apply map_eq. intros k'. destruct (decide (k = k')) as [<-|Hne].
  - by rewrite lookup_alter_eq, Hk.
  - by rewrite lookup_alter_ne.
Qed.

Lemma set_parsed_devices_same (s : State) :
  set_parsed_devices (parsed_devices s) s = s.
Proof. by destruct s. Qed.

Lemma refresh_absent_run (eid : string) (online : bool)
    (attributes : list AttrValue) (area : option string) (s : State) :
  parsed_devices s !! eid = None →
  (device_set_available_at eid online >>
   device_update_state_at eid attributes >>
   ret area) s
  = (Ok area, s, [DeviceSetAvailable eid online; DeviceUpdateState eid attributes]).
Proof.
  intros Habsent.
  unfold device_set_available_at, device_update_state_at, bind, emit, modify, ret.
  cbn. rewrite !alter_absent; rewrite ?alter_absent; try done.
  by rewrite set_parsed_devices_twice, set_parsed_devices_same.
Qed.

(** The loop body of [setup_device] on a service it cannot expose. *)
Lemma setup_service_skipped (K : Consts) (device_data : PhysicalDeviceData)
    (sw_version hw_version : option string) (online : bool)
    (suggested_area : option string) (svc : SvcData) (s : State) :
  parsed_devices s !! svc_id svc = None →
  applicable K svc = None ∨ applicable K svc = Some [] →
  setup_service K device_data sw_version hw_version online suggested_area svc s
  = (Ok (match applicable K svc with
         | Some _ => area_of (room_data s) suggested_area (svc_room svc)
         | None => suggested_area
         end),
     s,
     (match applicable K svc with
      | Some _ => []
      | None => [Log DEBUG "[%s] Unsupported profile:%d %s"]
      end ++
      [DeviceSetAvailable (svc_id svc) online;
       DeviceUpdateState (svc_id svc) (default [] (svc_attributes svc))])%list).
Proof.
  intros Hunknown Hskip. unfold applicable in *. unfold setup_service.
  destruct (svc_profile svc ≫= λ p, PROFILES K !! p) as [descriptions|];
    cbn [fmap option_fmap option_map] in *.
  - destruct Hskip as [Hskip|Hskip]; [done|]. injection Hskip as Hskip.
    etrans; [eapply bind_run; [reflexivity|]|].
    + cbn beta. rewrite Hunknown.
      eapply bind_run; [|by apply refresh_absent_run].
      eapply bind_run; [apply room_area_run|].
      cbn beta. rewrite Hskip. reflexivity.
    + reflexivity.
  - etrans; [eapply bind_run; [reflexivity|]|].
    + cbn beta. rewrite Hunknown.
      eapply bind_run; [|by apply refresh_absent_run].
      eapply bind_run; reflexivity.
    + reflexivity.
Qed.

(** X16. A service that [setup_device] cannot expose (its profile is not in
    the profile table, or no description of the profile finds its required
    attributes) changes nothing: no device is recorded, nothing is asked of
    the host registry, no presentation object is created; the loop goes on
    with the next service. *)
Theorem setup_service_unexposed_leaves_no_trace
    (K : Consts) (device_data : PhysicalDeviceData)
    (sw_version hw_version : option string) (online : bool)
    (suggested_area : option string) (svc : SvcData) (s : State) :
  parsed_devices s !! svc_id svc = None →
  applicable K svc = None ∨ applicable K svc = Some [] →
  let run :=
    setup_service K device_data sw_version hw_version online suggested_area svc s in
  (∃ area, result_of run = Ok area) ∧
  state_of run = s ∧
  dr_upserts (effects_of run) = [] ∧
  added_entities (effects_of run) = [].
Proof.
  intros Hunknown Hskip run. subst run.
  rewrite (setup_service_skipped K device_data sw_version hw_version online
             suggested_area svc s Hunknown Hskip).
  cbn [result_of state_of effects_of fst snd].
  split; [by eexists|]. split; [done|].
  by destruct (applicable K svc).
Qed.

Lemma setup_service_unexposed_leaves_no_trace_witness :
  let svc := mkSvc "dev-3-02" "Left" (Some [mkAttr "on" (VInt 0)]) (Some 99%Z) None in
  let run := setup_service Sample.consts Sample.two_gang None None true None svc
               Sample.gateway in
  parsed_devices Sample.gateway !! "dev-3-02" = None ∧
  applicable Sample.consts svc = None ∧
  state_of run = Sample.gateway.
Proof.
  intros svc run. split; [reflexivity|]. split; [reflexivity|].
  exact (proj1 (proj2 (setup_service_unexposed_leaves_no_trace Sample.consts
           Sample.two_gang None None true None svc Sample.gateway eq_refl
           (or_introl eq_refl)))).
Defined.

Lemma append_entities_run (eid : string)
    (mk : TerncyEntityDescription → TerncyEntity)
    (descriptions : list TerncyEntityDescription) (s : State) :
  for_each descriptions (λ description,
    let entity := mk description in
    emit (HaAddEntity entity) >>
    modify (λ s,
      set_parsed_devices
        (alter (device_append_entity entity) eid (parsed_devices s)) s)) s
  = (Ok tt,
     set_parsed_devices
       (foldl (λ m description, alter (device_append_entity (mk description)) eid m)
          (parsed_devices s) descriptions) s,
     (λ description, HaAddEntity (mk description)) <$> descriptions).
Proof.
  revert s. induction descriptions as [|description descriptions IH]; intros s.
  - cbn. by rewrite set_parsed_devices_same.
  - cbn [for_each foldl fmap list_fmap].
    etrans; [eapply bind_run; [reflexivity|apply IH]|]. done.
Qed.

Lemma foldl_append_entities (mk : TerncyEntityDescription → TerncyEntity)
    (descriptions : list TerncyEntityDescription) (d : TerncyDevice) :
  foldl (λ d description, device_append_entity (mk description) d) d descriptions
  = {| did := did d; eid := eid d; profile := profile d;
       entities := (entities d ++ (mk <$> descriptions))%list;
       available := available d; attributes := attributes d |}.
Proof.
  revert d. induction descriptions as [|description descriptions IH]; intros d.
  - cbn. rewrite app_nil_r. by destruct d.
  - cbn [foldl]. rewrite IH. unfold device_append_entity. cbn.
    by rewrite <- app_assoc.
Qed.

Lemma dr_async_get_or_create_run (args : DeviceArgs) (s : State) :
  dr_async_get_or_create args s
  = (Ok tt, state_of (dr_async_get_or_create args s), [DrGetOrCreate args]).
Proof. reflexivity. Qed.

Lemma parsed_devices_set (m : gmap string TerncyDevice) (s : State) :
  parsed_devices (set_parsed_devices m s) = m.
Proof. reflexivity. Qed.

(** The loop body of [setup_device] on a new service it can expose. *)
Lemma setup_service_created (K : Consts) (device_data : PhysicalDeviceData)
    (sw_version hw_version : option string) (online : bool)
    (suggested_area : option string) (svc : SvcData)
    (description : TerncyEntityDescription)
    (descriptions : list TerncyEntityDescription) (s : State) :
  parsed_devices s !! svc_id svc = None →
  applicable K svc = Some (description :: descriptions) →
  let attributes := default [] (svc_attributes svc) in
  let area := area_of (room_data s) suggested_area (svc_room svc) in
  let args :=
    service_args device_data sw_version hw_version area (unique_id s) svc in
  let registered := state_of (dr_async_get_or_create args s) in
  let device :=
    foldl (λ d x,
        device_append_entity (service_entity (svc_id svc) attributes x) d)
      (new_TerncyDevice (dd_id device_data) (svc_id svc) (svc_profile svc))
      (description :: descriptions) in
  setup_service K device_data sw_version hw_version online suggested_area svc s
  = (Ok area,
     set_parsed_devices
       (<[svc_id svc := refresh_device online attributes device]> (parsed_devices s))
       registered,
     (DrGetOrCreate args
        :: ((λ x, HaAddEntity (service_entity (svc_id svc) attributes x))
              <$> (description :: descriptions))
        ++ [DeviceSetAvailable (svc_id svc) online;
            DeviceUpdateState (svc_id svc) attributes])%list).
Proof.
  intros Hunknown Happlicable attributes area args registered device.
  unfold applicable in Happlicable. unfold setup_service.
  destruct (svc_profile svc ≫= λ p, PROFILES K !! p) as [profile_descriptions|];
    cbn [fmap option_fmap option_map] in Happlicable; [|done].
  injection Happlicable as Happlicable.
  assert (Hregistered : parsed_devices registered = parsed_devices s).
  { subst registered.
    destruct (wp_dr_async_get_or_create args s) as (? & s' & t & Hrun & Hpd & _).
    by rewrite Hrun. }
  etrans; [eapply bind_run; [reflexivity|]|].
  - cbn beta. rewrite Hunknown.
    eapply bind_run; [|reflexivity].
    eapply bind_run; [apply room_area_run|].
    cbn beta. rewrite Happlicable. cbn [length Nat.ltb Nat.leb].
    eapply bind_run; [reflexivity|]. cbn beta.
    eapply bind_run; [apply dr_async_get_or_create_run|].
    eapply bind_run; [reflexivity|].
    eapply bind_run; [apply append_entities_run|reflexivity].
  - f_equal; [f_equal|].
    + change (state_of (dr_async_get_or_create _ s)) with registered.
      repeat (rewrite parsed_devices_set || rewrite set_parsed_devices_twice).
      f_equal. cbn [foldl].
      rewrite alter_insert_eq, foldl_append_insert, !alter_insert_eq.
      by rewrite Hregistered.
    + cbn. by rewrite !app_nil_r.
Qed.

Lemma dr_upserts_entities (entities : list TerncyEntity) :
  dr_upserts (HaAddEntity <$> entities) = [].
Proof. induction entities as [|e l IH]; [done|]. exact IH. Qed.

Lemma added_entities_entities (entities : list TerncyEntity) :
  added_entities (HaAddEntity <$> entities) = entities.
Proof. induction entities as [|e l IH]; [done|]. cbn. by f_equal. Qed.

Lemma dr_async_get_or_create_lookup (args : DeviceArgs) (s : State) :
  ∃ entry,
    device_registry (state_of (dr_async_get_or_create args s)) !! arg_identifier args
    = Some entry ∧ entry_args entry = args.
Proof.
  unfold dr_async_get_or_create, bind, emit, modify, state_of. cbn.
  destruct (device_registry s !! arg_identifier args); cbn;
    rewrite lookup_insert_eq; by eexists.
Qed.

(** X17. A service whose eid is not known and to which descriptions of its
    profile apply is exposed: the host registry is asked once to create the
    device entry (named by the service, linked to the gateway, with the area
    resolved for the service), one presentation object per applying
    description is handed to the host, and the device is recorded under the
    eid with the owning device id, the profile, these objects, the online
    flag and the attributes of the service; no other device is touched. *)
Theorem setup_service_exposes_new_service
    (K : Consts) (device_data : PhysicalDeviceData)
    (sw_version hw_version : option string) (online : bool)
    (suggested_area : option string) (svc : SvcData)
    (description : TerncyEntityDescription)
    (descriptions : list TerncyEntityDescription) (s : State) :
  parsed_devices s !! svc_id svc = None →
  applicable K svc = Some (description :: descriptions) →
  let run :=
    setup_service K device_data sw_version hw_version online suggested_area svc s in
  let attrs := default [] (svc_attributes svc) in
  let area := area_of (room_data s) suggested_area (svc_room svc) in
  let args := service_args device_data sw_version hw_version area (unique_id s) svc in
  result_of run = Ok area ∧
  dr_upserts (effects_of run) = [args] ∧
  added_entities (effects_of run)
  = service_entity (svc_id svc) attrs <$> (description :: descriptions) ∧
  (∃ entry, device_registry (state_of run) !! svc_id svc = Some entry ∧
            entry_args entry = args) ∧
  (∃ device,
     parsed_devices (state_of run) !! svc_id svc = Some device ∧
     did device = dd_id device_data ∧
     eid device = svc_id svc ∧
     profile device = svc_profile svc ∧
     available device = online ∧
     attributes device = merge_attrs attrs ∅ ∧
     entities device
     = (λ x, entity_update_state attrs
               (entity_set_available online (service_entity (svc_id svc) attrs x)))
         <$> (description :: descriptions)) ∧
  (∀ other, other ≠ svc_id svc →
     parsed_devices (state_of run) !! other = parsed_devices s !! other).
Proof.
  intros Hunknown Happlicable run attrs area args. subst run.
  rewrite (setup_service_created K device_data sw_version hw_version online
             suggested_area svc description descriptions s Hunknown Happlicable).
  cbn [result_of state_of effects_of fst snd]. fold attrs area args.
  split; [done|]. split.
  { unfold dr_upserts. cbn [omap list_omap]. rewrite omap_app. f_equal.
    rewrite (list_fmap_compose (service_entity (svc_id svc) attrs) HaAddEntity).
    fold (dr_upserts (HaAddEntity <$>
                        (service_entity (svc_id svc) attrs <$>
                           description :: descriptions))).
    by rewrite dr_upserts_entities. }
  split.
  { unfold added_entities. cbn [omap list_omap]. rewrite omap_app. cbn.
    rewrite app_nil_r.
    f_equal.
    rewrite (list_fmap_compose (service_entity (svc_id svc) attrs) HaAddEntity).
    apply (added_entities_entities
             (service_entity (svc_id svc) attrs <$> descriptions)). }
  split.
  { exact (dr_async_get_or_create_lookup args s). }
  split.
  - eexists. split; [apply lookup_insert_eq|].
    rewrite foldl_append_entities. unfold refresh_device. cbn.
    repeat split. by rewrite <- !list_fmap_compose.
  - intros other Hne. cbn. by rewrite lookup_insert_ne.
Qed.

Lemma setup_service_exposes_new_service_witness :
  let svc := mkSvc "dev-3-01" "" (Some [mkAttr "on" (VInt 1)]) (Some 1%Z) None in
  let accented := mkSvc "sw-é2" "" (Some [mkAttr "on" (VInt 1)]) (Some 1%Z) None in
  let run eid :=
    setup_service Sample.consts Sample.two_gang (Some "12") None true None
      eid Sample.gateway in
  parsed_devices Sample.gateway !! "dev-3-01" = None ∧
  applicable Sample.consts svc = Some [mkDescription "switch" "Switch" []] ∧
  (arg_name <$> dr_upserts (effects_of (run svc))) = ["Switch-01"] ∧
  length (added_entities (effects_of (run svc))) = 1%nat ∧
  (arg_name <$> dr_upserts (effects_of (run accented))) = ["Switch-é2"].
Proof.
  intros svc accented run. split; [reflexivity|]. split; [reflexivity|].
  destruct (setup_service_exposes_new_service Sample.consts Sample.two_gang
              (Some "12") None true None svc (mkDescription "switch" "Switch" []) []
              Sample.gateway eq_refl eq_refl)
    as (_ & Hupserts & Hadded & _).
  destruct (setup_service_exposes_new_service Sample.consts Sample.two_gang
              (Some "12") None true None accented
              (mkDescription "switch" "Switch" []) []
              Sample.gateway eq_refl eq_refl)
    as (_ & Haccented & _).
  split; [exact (f_equal (fmap arg_name) Hupserts)|].
  split; [exact (f_equal length Hadded)|].
  exact (f_equal (fmap arg_name) Haccented).
Defined.

(** X18. The area suggested to the host is carried from one service of a
    device to the next: a service that is already known, or whose profile is
    not in the profile table, passes on the area it received; any other
    service passes on the name of its own room when the room table has a
    non-empty name for it, and the area it received otherwise. *)
Theorem suggested_area_after_service
    (K : Consts) (device_data : PhysicalDeviceData)
    (sw_version hw_version : option string) (online : bool)
    (suggested_area : option string) (svc : SvcData) (s : State) :
  result_of
    (setup_service K device_data sw_version hw_version online suggested_area svc s)
  = Ok (match parsed_devices s !! svc_id svc, applicable K svc with
        | None, Some _ => area_of (room_data s) suggested_area (svc_room svc)
        | _, _ => suggested_area
        end).
Proof.
  destruct (parsed_devices s !! svc_id svc) as [device|] eqn:Hdevice.
  - by rewrite (setup_service_known K device_data sw_version hw_version online
                  suggested_area svc device s Hdevice).
  - destruct (applicable K svc) as [[|description descriptions]|] eqn:Happlicable.
    + rewrite (setup_service_skipped K device_data sw_version hw_version online
                 suggested_area svc s Hdevice (or_intror Happlicable)).
      by rewrite Happlicable.
    + by rewrite (setup_service_created K device_data sw_version hw_version online
                    suggested_area svc description descriptions s Hdevice
                    Happlicable).
    + rewrite (setup_service_skipped K device_data sw_version hw_version online
                 suggested_area svc s Hdevice (or_introl Happlicable)).
      by rewrite Happlicable.
Qed.

(** ** Deleting twice *)

Lemma deleted_state_nil (s : State) : deleted_state [] s = s.
Proof. by destruct s. Qed.

(** X19. An entityDeleted payload that is delivered again finds nothing left
    to do: handled on the state its first handling left, it changes nothing
    and issues no call at all. *)
Theorem entity_deleted_again_is_noop (item : SimpleItem) (s : State) :
  let once := state_of (entity_deleted_item item s) in
  entity_deleted_item item once = (Ok tt, once, []).
Proof.
  intros once. subst once.
  destruct (String.prefix "scene-" (simple_id item)) eqn:Hprefix.
  - rewrite (entity_deleted_scene_run item s Hprefix).
    destruct (scenes s !! simple_id item) as [scene|] eqn:Hscene;
      cbn [state_of fst snd];
      rewrite (entity_deleted_scene_run item _ Hprefix).
    + cbn [scenes set_scenes]. by rewrite lookup_delete_eq.
    + by rewrite Hscene.
  - rewrite (entity_deleted_device_run item s Hprefix). cbn [state_of fst snd].
    set (once := deleted_state _ s).
    rewrite (entity_deleted_device_run item once Hprefix).
    assert (Hnone : (map_to_list
                       (filter (λ kv : string * TerncyDevice, simple_id item = did kv.2)
                          (parsed_devices once))).*1 = []).
    { subst once. unfold deleted_state. cbn [parsed_devices set_parsed_devices].
      rewrite foldl_delete_filter.
      replace (filter (λ kv : string * TerncyDevice, simple_id item = did kv.2)
                 (filter (λ kv, simple_id item ≠ did kv.2) (parsed_devices s)))
        with (∅ : gmap string TerncyDevice); [by rewrite map_to_list_empty|].
      symmetry. apply map_eq. intros k. rewrite lookup_empty.
      apply map_lookup_filter_None. right. intros d Hd.
      apply map_lookup_filter_Some in Hd as [_ Hne]. done. }
    rewrite Hnone. cbn [mbind list_bind]. by rewrite deleted_state_nil.
Qed.

(** ** Setting a device up, then deleting it *)

Lemma created_device_did (K : Consts) (did_ : string) (svc : SvcData)
    (device : TerncyDevice) :
  created_device K did_ svc = Some device →
  did device = did_ ∧ eid device = svc_id svc.
Proof.
  unfold created_device.
  destruct (svc_profile svc ≫= λ p, PROFILES K !! p) as [descriptions|]; [|done].
  destruct (0 <? _)%nat; [|done]. intros [= <-].
  by rewrite foldl_append_entities.
Qed.

Lemma service_step_did (K : Consts) (did_ : string) (online : bool)
    (svc : SvcData) (known : option TerncyDevice) (device : TerncyDevice) :
  service_step K did_ online svc known = Some device →
  match known with
  | Some d => did device = did d
  | None => did device = did_ ∧ eid device = svc_id svc
  end.
Proof.
  unfold service_step. destruct known as [d|]; cbn.
  - by intros [= <-].
  - destruct (created_device K did_ svc) as [d|] eqn:Hd; [|done].
    cbn. intros [= <-]. exact (created_device_did K did_ svc d Hd).
Qed.

(** The devices the service loop adds are owned by the device it runs for. *)
Lemma services_step_owned (K : Consts) (device_data : PhysicalDeviceData)
    (svc_list : list SvcData) (devices : gmap string TerncyDevice)
    (k : string) (device : TerncyDevice) :
  devices !! k = None →
  services_step K device_data svc_list devices !! k = Some device →
  did device = dd_id device_data.
Proof.
  intros Hunknown. unfold services_step.
  assert (Hinv : ∀ m : gmap string TerncyDevice,
            (∀ d, m !! k = Some d → did d = dd_id device_data) →
            ∀ d, foldl (λ m svc,
                     partial_alter
                       (service_step K (dd_id device_data)
                          (default true (dd_online device_data)) svc)
                       (svc_id svc) m) m svc_list !! k = Some d →
                 did d = dd_id device_data).
  { induction svc_list as [|svc svc_list IH]; intros m Hm; [exact Hm|].
    cbn [foldl]. apply IH. intros d.
    destruct (decide (svc_id svc = k)) as [<-|Hne].
    - rewrite lookup_partial_alter_eq. intros Hd.
      apply service_step_did in Hd.
      destruct (m !! svc_id svc) as [d0|] eqn:Hd0.
      + rewrite Hd. by apply Hm.
      + apply Hd.
    - rewrite lookup_partial_alter_ne by done. apply Hm. }
  apply Hinv. intros d. by rewrite Hunknown.
Qed.

Lemma entity_deleted_device_devices (item : SimpleItem) (s : State) :
  String.prefix "scene-" (simple_id item) = false →
  parsed_devices (state_of (entity_deleted_item item s))
  = filter (λ kv, simple_id item ≠ did kv.2) (parsed_devices s).
Proof.
  intros Hprefix. rewrite (entity_deleted_device_run item s Hprefix).
  cbn [state_of fst snd]. unfold deleted_state.
  cbn [parsed_devices set_parsed_devices]. apply foldl_delete_filter.
Qed.

(** X20. Setting a device up and then deleting it by its device id leaves no
    device behind under an eid that was unknown before: every device that
    [setup_device] adds is owned by the device id of the data it was given,
    and entityDeleted removes all devices owned by the id it names. *)
Theorem setup_device_then_entity_deleted
    (K : Consts) (device_data : PhysicalDeviceData) (svc_list : list SvcData)
    (k : string) (s : State) :
  String.prefix "scene-" (dd_id device_data) = false →
  parsed_devices s !! k = None →
  let once := state_of (setup_device K device_data svc_list s) in
  let gone := state_of (entity_deleted_item (mkSimple (dd_id device_data)) once) in
  result_of (setup_device K device_data svc_list s) = Ok tt ∧
  (∀ device, parsed_devices once !! k = Some device →
             did device = dd_id device_data) ∧
  parsed_devices gone !! k = None.
Proof.
  intros Hprefix Hunknown once gone.
  destruct (wp_result _ _ _ (wp_setup_device K device_data svc_list s))
    as ([] & Hresult & Hdevices).
  fold once in Hdevices.
  assert (Howned : ∀ device, parsed_devices once !! k = Some device →
                             did device = dd_id device_data).
  { intros device. rewrite Hdevices.
    by apply (services_step_owned K device_data svc_list (parsed_devices s) k). }
  split; [done|]. split; [done|].
  subst gone. rewrite entity_deleted_device_devices by done.
  apply map_lookup_filter_None. right. intros device Hdevice Hne.
  apply Hne. cbn. symmetry. by apply Howned.
Qed.

Lemma setup_device_then_entity_deleted_witness :
  let svc_list := default [] (dd_services Sample.two_gang) in
  let once := state_of (setup_device Sample.consts Sample.two_gang svc_list
                          Sample.gateway) in
  let gone := state_of (entity_deleted_item (mkSimple "dev-3") once) in
  String.prefix "scene-" (dd_id Sample.two_gang) = false ∧
  parsed_devices Sample.gateway !! "dev-3-01" = None ∧
  is_Some (parsed_devices once !! "dev-3-01") ∧
  parsed_devices gone !! "dev-3-01" = None.
Proof.
  intros svc_list once gone. split; [reflexivity|]. split; [reflexivity|].
  split; [vm_compute; by eexists|].
  exact (proj2 (proj2 (setup_device_then_entity_deleted Sample.consts
                         Sample.two_gang svc_list "dev-3-01" Sample.gateway
                         eq_refl eq_refl))).
Defined.

(** X21. A device group is set up as a device that owns itself: when the id
    of the group is not known and descriptions of its profile apply, the
    group is recorded under its id as a device whose owning device id and
    eid are both that id, with the online flag of the group (online when
    the hub does not say), and no other key of the devices map changes. *)
Theorem device_group_owns_itself
    (K : Consts) (group : DeviceGroupData)
    (description : TerncyEntityDescription)
    (descriptions : list TerncyEntityDescription) (s : State) :
  parsed_devices s !! dg_id group = None →
  applicable K (group_as_svc group) = Some (description :: descriptions) →
  let run := setup_device_group K group s in
  result_of run = Ok tt ∧
  (∃ device,
     parsed_devices (state_of run) !! dg_id group = Some device ∧
     did device = dg_id group ∧ eid device = dg_id group ∧
     profile device = dg_profile group ∧
     available device = default true (dg_online group) ∧
     length (entities device) = S (length descriptions)) ∧
  (∀ other, other ≠ dg_id group →
     parsed_devices (state_of run) !! other = parsed_devices s !! other).
Proof.
  intros Hunknown Happlicable run. subst run. unfold setup_device_group.
  destruct (wp_result _ _ _
              (wp_setup_device K (group_as_device group) [group_as_svc group] s))
    as ([] & Hresult & Hdevices).
  split; [done|]. rewrite Hdevices. unfold services_step. cbn [foldl].
  split.
  - rewrite lookup_partial_alter_eq.
    change (svc_id (group_as_svc group)) with (dg_id group). rewrite Hunknown.
    unfold service_step, created_device.
    unfold applicable in Happlicable.
    destruct (svc_profile (group_as_svc group) ≫= λ p, PROFILES K !! p)
      as [profile_descriptions|]; [|done].
    cbn in Happlicable. injection Happlicable as Happlicable.
    cbn [group_as_svc svc_attributes] in Happlicable |- *.
    rewrite Happlicable. cbn [length Nat.ltb Nat.leb fmap option_fmap option_map].
    eexists. split; [reflexivity|].
    rewrite foldl_append_entities. unfold refresh_device. cbn.
    repeat split. by rewrite !length_fmap.
  - intros other Hne. by rewrite lookup_partial_alter_ne.
Qed.

Lemma device_group_owns_itself_witness :
  let group := mkGroup "group-1" "Lamps" None None None None None
                 (Some [mkAttr "on" (VInt 1)]) (Some 1%Z) in
  parsed_devices Sample.gateway !! dg_id group = None ∧
  applicable Sample.consts (group_as_svc group)
  = Some [mkDescription "switch" "Switch" []] ∧
  (did <$> parsed_devices (state_of (setup_device_group Sample.consts group
                                        Sample.gateway)) !! "group-1")
  = Some "group-1".
Proof.
  intros group. split; [reflexivity|]. split; [reflexivity|].
  destruct (device_group_owns_itself Sample.consts group
              (mkDescription "switch" "Switch" []) [] Sample.gateway
              eq_refl eq_refl) as (_ & (device & Hdevice & Hdid & _) & _).
  exact (eq_trans (f_equal (fmap did) Hdevice) (f_equal Some Hdid)).
Defined.

(** ** Refresh *)

Lemma resolve_rooms_silent (default_rooms : option (gmap string string))
    (rooms : list RoomData) (m : gmap string string) (s : State) :
  ∃ r, for_fold rooms m (λ m room,
         let* room_name := resolve_room_name default_rooms room in
         ret (<[room_id room := room_name]> m)) s = (r, s, []).
Proof.
  revert m. induction rooms as [|room rooms IH]; intros m; [by eexists|].
  assert (Hname : ∃ r, resolve_room_name default_rooms room s = (r, s, [])).
  { unfold resolve_room_name.
    destruct (decide (room_name room = "")); [destruct default_rooms|];
      by eexists. }
  destruct Hname as [[n|e] Hname]; cbn [for_fold]; unfold bind, ret;
    rewrite Hname; [|by eexists].
  destruct (IH (<[room_id room := n]> m)) as [r Hr].
  unfold bind, ret in Hr. rewrite Hr. by eexists.
Qed.

(** The room step: one fetch, no other call but log lines, and no change
    outside the room table. *)
Lemma refresh_rooms_run (K : Consts) (response : Result (Response RoomData))
    (s : State) :
  ∃ m t, refresh_rooms K response s = (Ok tt, set_room_data m s, t) ∧
         fetched_types t = ["room"] ∧ dr_upserts t = [] ∧ added_entities t = [].
Proof.
  unfold refresh_rooms, bind at 1, logger, emit. unfold bind at 1, gets.
  unfold try_except, bind at 1, _fetch_data.
  destruct response as [[|[rooms|]]|e]; cbn.
  - exists ∅, [Log DEBUG "Fetching data..."; ApiGetEntities "room";
               Log WARNING "fetch %s error, response: %s";
               Log DEBUG "ROOM %s: %s"]. done.
  - unfold bind at 1.
    destruct (resolve_rooms_silent (default_rooms_for K (language s)) rooms ∅ s)
      as [[resolved|e] Hr]; unfold resolve_rooms; rewrite Hr; cbn.
    + by eexists resolved, _.
    + exists (room_data s), [Log DEBUG "Fetching data..."; ApiGetEntities "room";
                              Log WARNING "fetch room error: %s"].
      by destruct s.
  - exists ∅, [Log DEBUG "Fetching data..."; ApiGetEntities "room";
               Log DEBUG "ROOM %s: %s"]. done.
  - exists (room_data s), [Log DEBUG "Fetching data..."; ApiGetEntities "room";
                            Log WARNING "fetch room error: %s"].
    by destruct s.
Qed.

(** X22. A room fetch that fails is survived and keeps the room table the
    gateway had, with a warning; an answer without ["rsp"], or without
    ["entities"] under it, empties the table instead. *)
Theorem room_fetch_failure_keeps_room_table (K : Consts) (e : exn) (s : State) :
  refresh_rooms K (Raise e) s
  = (Ok tt, s, [Log DEBUG "Fetching data..."; ApiGetEntities "room";
                Log WARNING "fetch room error: %s"]) ∧
  room_data (state_of (refresh_rooms K (Ok NoRsp) s)) = ∅ ∧
  room_data (state_of (refresh_rooms K (Ok (Rsp None)) s)) = ∅.
Proof. done. Qed.

(** X23. A room answer replaces the room table, it is not merged into it: in
    a locale with a default table, an id the answer does not list has no
    name after the room step, whatever name it had before. *)
Theorem room_answer_replaces_room_table
    (K : Consts) (table : gmap string string) (rooms : list RoomData)
    (k : string) (s : State) :
  default_rooms_for K (language s) = Some table →
  k ∉ room_id <$> rooms →
  room_data (state_of (refresh_rooms K (Ok (Rsp (Some rooms))) s)) !! k = None.
Proof.
  intros Htable Hk. rewrite (refresh_rooms_with_table K table) by done.
  by rewrite foldl_insert_not_in.
Qed.

Lemma room_answer_replaces_room_table_witness :
  let s := set_room_data {[ "room-9" := "Attic" ]} Sample.gateway in
  room_data s !! "room-9" = Some "Attic" ∧
  room_data (state_of (refresh_rooms Sample.consts
                         (Ok (Rsp (Some [mkRoom "room-1" ""]))) s)) !! "room-9"
  = None.
Proof.
  intros s. split; [reflexivity|].
  apply (room_answer_replaces_room_table Sample.consts
           {[ "room-1" := "Living Room" ]} [mkRoom "room-1" ""] "room-9" s).
  - reflexivity.
  - cbn. by intros [?|[]%elem_of_nil]%elem_of_cons.
Defined.

(** X24. A device fetch that fails aborts the refresh with that exception:
    the room step has been done, device groups and scenes are not fetched,
    nothing is set up, and the gateway is as the room step left it. *)
Theorem device_fetch_failure_aborts_refresh
    (K : Consts) (rooms : Result (Response RoomData)) (e : exn)
    (groups : Result (Response DeviceGroupData))
    (scene_list : Result (Response SceneData)) (s : State) :
  let run := async_refresh_devices K rooms (Raise e) groups scene_list s in
  result_of run = Raise e ∧
  state_of run = state_of (refresh_rooms K rooms s) ∧
  fetched_types (effects_of run) = ["room"; "device"] ∧
  dr_upserts (effects_of run) = [] ∧
  added_entities (effects_of run) = [].
Proof.
  intros run. subst run. unfold async_refresh_devices.
  destruct (refresh_rooms_run K rooms s) as (m & t & Hrooms & Hfetch & Hdr & Hadd).
  assert (Hrun : (refresh_rooms K rooms >> refresh_devices K (Raise e) >>
                  refresh_device_groups K groups >> refresh_scenes scene_list) s
                 = (Raise e, set_room_data m s,
                    (t ++ [ApiGetEntities "device"])%list)).
  { unfold bind at 1. by rewrite Hrooms. }
  rewrite Hrun, Hrooms. cbn [result_of state_of effects_of fst snd].
  unfold fetched_types, dr_upserts, added_entities in *.
  by rewrite !omap_app, Hfetch, Hdr, Hadd.
Qed.

(** X25. With the export of device groups switched off the hub is still
    asked for its device groups, and nothing is made of the answer: the
    gateway is unchanged, the host registry is not written and no
    presentation object is handed to the host; a failing fetch still fails
    the refresh. *)
Theorem unexported_device_groups_are_fetched_only
    (K : Consts) (response : Result (Response DeviceGroupData)) (s : State) :
  export_device_groups s = false →
  let run := refresh_device_groups K response s in
  result_of run = match response with Raise e => Raise e | Ok _ => Ok tt end ∧
  state_of run = s ∧
  fetched_types (effects_of run) = ["devicegroup"] ∧
  dr_upserts (effects_of run) = [] ∧
  added_entities (effects_of run) = [].
Proof.
  intros Hexport run. subst run.
  unfold refresh_device_groups, bind at 1, _fetch_data.
  destruct response as [[|[device_groups|]]|e]; cbn; unfold bind, gets;
    rewrite ?Hexport; done.
Qed.

Lemma unexported_device_groups_are_fetched_only_witness :
  let group := mkGroup "group-1" "Lamps" None None None None None
                 (Some [mkAttr "on" (VInt 1)]) (Some 1%Z) in
  export_device_groups devices_only_gateway = false ∧
  state_of (refresh_device_groups Sample.consts (Ok (Rsp (Some [group])))
              devices_only_gateway) = devices_only_gateway.
Proof.
  intros group. split; [reflexivity|].
  exact (proj1 (proj2 (unexported_device_groups_are_fetched_only Sample.consts
                         (Ok (Rsp (Some [group]))) devices_only_gateway
                         eq_refl))).
Defined.

(** *** The scene step *)

Lemma scene_calls (container : string) (t : list Effect) :
  Forall (scene_call container) t →
  dr_upserts t = [] ∧
  ∀ entity, entity ∈ added_entities t → _attr_device_info entity = Some container.
Proof.
  induction 1 as [|e t He Ht [IHdr IHadd]].
  - split; [done|]. by intros entity Hin%elem_of_nil.
  - destruct e; cbn in He; try done; split; try exact IHdr; try exact IHadd.
    cbn. intros x [->|Hin]%elem_of_cons; [done|]. by apply IHadd.
Qed.

Lemma setup_scene_calls (scene_data : SceneData) (s : State) :
  ∃ m t, setup_scene scene_data s = (Ok tt, set_scenes m s, t) ∧
         Forall (scene_call (unique_id s ++ "_scenes")) t.
Proof.
  destruct (export_scenes s) eqn:Hexport.
  - destruct (default [] (scene_actions scene_data)) as [|a rest] eqn:Hactions.
    + rewrite (setup_scene_empty scene_data s Hexport Hactions).
      destruct (scenes s !! scene_id scene_data).
      * eexists _, _. split; [done|]. by repeat constructor.
      * exists (scenes s), []. by rewrite set_scenes_same.
    + assert (Hsome : scene_actions scene_data = Some (a :: rest)).
      { destruct (scene_actions scene_data); cbn in Hactions; congruence. }
      destruct (scenes s !! scene_id scene_data) as [known|] eqn:Hknown.
      * rewrite (setup_scene_known scene_data a rest known s Hexport Hsome Hknown).
        eexists _, _. split; [done|]. by repeat constructor.
      * rewrite (setup_scene_new scene_data a rest s Hexport Hsome Hknown).
        eexists _, _. split; [done|]. by repeat constructor.
  - rewrite (setup_scene_disabled scene_data s Hexport).
    exists (scenes s), []. by rewrite set_scenes_same.
Qed.

Lemma for_each_setup_scene_calls (scene_list : list SceneData) (s : State) :
  ∃ m t, for_each scene_list setup_scene s = (Ok tt, set_scenes m s, t) ∧
         Forall (scene_call (unique_id s ++ "_scenes")) t.
Proof.
  revert s. induction scene_list as [|scene_data scene_list IH]; intros s.
  - exists (scenes s), []. by rewrite set_scenes_same.
  - destruct (setup_scene_calls scene_data s) as (m1 & t1 & Hfirst & Ht1).
    destruct (IH (set_scenes m1 s)) as (m2 & t2 & Hrest & Ht2).
    exists m2, (t1 ++ t2)%list. split; [|by apply Forall_app].
    cbn [for_each]. eapply bind_run; [exact Hfirst|exact Hrest].
Qed.

(** X26. With the export of scenes switched on, the scene step writes the
    host registry exactly once, whatever the number of scenes: it ensures
    the entry of the container device, linked to the gateway; every
    presentation object it hands to the host names that container as its
    device, and the devices map is not touched. *)
Theorem scenes_are_attached_to_one_container
    (response : Response SceneData) (s : State) :
  export_scenes s = true →
  let run := refresh_scenes (Ok response) s in
  let container := scenes_container_args (unique_id s) in
  result_of run = Ok tt ∧
  dr_upserts (effects_of run) = [container] ∧
  (∃ entry, device_registry (state_of run) !! (unique_id s ++ "_scenes")
            = Some entry ∧ entry_args entry = container) ∧
  (∀ entity, entity ∈ added_entities (effects_of run) →
     _attr_device_info entity = Some (unique_id s ++ "_scenes")) ∧
  parsed_devices (state_of run) = parsed_devices s.
Proof.
  intros Hexport run container. subst run.
  set (scene_list := match response with
                     | NoRsp => []
                     | Rsp entities => default [] entities
                     end).
  set (registered := state_of (dr_async_get_or_create container s)).
  assert (Hid : unique_id registered = unique_id s).
  { by destruct (wp_result _ _ _ (wp_dr_async_get_or_create container s))
      as (? & _ & _ & ? & _). }
  assert (Hdevices : parsed_devices registered = parsed_devices s).
  { by destruct (wp_result _ _ _ (wp_dr_async_get_or_create container s))
      as (? & _ & ? & _). }
  destruct (for_each_setup_scene_calls scene_list registered)
    as (m & t & Hscenes & Hcalls).
  rewrite Hid in Hcalls.
  destruct (scene_calls _ _ Hcalls) as [Hdr Hadd].
  assert (Hfetch : ∃ logs,
            _fetch_data "scene" (Ok response) s
            = (Ok scene_list, s, ApiGetEntities "scene" :: logs) ∧
            dr_upserts logs = [] ∧ added_entities logs = []).
  { destruct response as [|entities]; by eexists. }
  destruct Hfetch as (logs & Hfetch & Hlogs_dr & Hlogs_add).
  assert (Hrun : refresh_scenes (Ok response) s
                 = (Ok tt, set_scenes m registered,
                    ((ApiGetEntities "scene" :: logs) ++
                     Log DEBUG "SCENE: %s" :: DrGetOrCreate container :: t)%list)).
  { unfold refresh_scenes. eapply bind_run; [exact Hfetch|].
    unfold bind at 1, logger, emit. unfold bind at 1, gets. rewrite Hexport.
    unfold when. unfold bind at 1. unfold bind at 1.
    change (dr_async_get_or_create _ s) with (dr_async_get_or_create container s).
    rewrite (dr_async_get_or_create_run container s). fold registered.
    by rewrite Hscenes. }
  rewrite Hrun.
  cbn [result_of state_of effects_of fst snd].
  split; [done|]. split.
  { unfold dr_upserts in *. rewrite omap_app. cbn [omap list_omap].
    by rewrite Hlogs_dr, Hdr. }
  split.
  { exact (dr_async_get_or_create_lookup container s). }
  split; [|done].
  intros entity. unfold added_entities in *. rewrite omap_app.
  cbn [omap list_omap]. rewrite Hlogs_add. apply Hadd.
Qed.

Lemma scenes_are_attached_to_one_container_witness :
  let morning := mkScene "scene-000002" (Some [VInt 1]) (Some "Morning")
                   (Some true) (VInt 1) in
  let noon := mkScene "scene-000003" (Some [VInt 1]) None None (VInt 0) in
  let run := refresh_scenes (Ok (Rsp (Some [morning; noon]))) Sample.gateway in
  export_scenes Sample.gateway = true ∧
  length (added_entities (effects_of run)) = 2%nat ∧
  (arg_identifier <$> dr_upserts (effects_of run)) = ["box-12-34_scenes"].
Proof.
  intros morning noon run. split; [reflexivity|]. split; [reflexivity|].
  exact (f_equal (fmap arg_identifier)
           (proj1 (proj2 (scenes_are_attached_to_one_container
                            (Rsp (Some [morning; noon])) Sample.gateway eq_refl)))).
Defined.

(** *** The invariant of the devices map *)

Lemma keeps_fetch_data {A} (ent_type : string) (response : Result (Response A)) :
  keeps consistent (_fetch_data ent_type response).
Proof.
  apply keeps_unchanged. intros s. unfold _fetch_data.
  by destruct response as [[|entities]|e].
Qed.

Lemma keeps_refresh (K : Consts)
    (rooms : Result (Response RoomData))
    (devices : Result (Response PhysicalDeviceData))
    (groups : Result (Response DeviceGroupData))
    (scene_list : Result (Response SceneData)) :
  keeps consistent (async_refresh_devices K rooms devices groups scene_list).
Proof.
  unfold async_refresh_devices.
  keeps_step.
  { intros s Hs. destruct (refresh_rooms_run K rooms s) as (m & t & -> & _).
    revert Hs. by apply consistent_same. }
  keeps_step.
  { unfold refresh_devices. keeps_step; [apply keeps_fetch_data|].
    apply keeps_for_each. intros device_data. apply keeps_setup_device. }
  keeps_step.
  { unfold refresh_device_groups. keeps_step; [apply keeps_fetch_data|].
    keeps_step; [apply keeps_gets|]. apply keeps_when, keeps_for_each.
    intros group. apply keeps_setup_device. }
  unfold refresh_scenes. keeps_step; [apply keeps_fetch_data|].
  keeps_step; [apply keeps_emit|]. keeps_step; [apply keeps_gets|].
  apply keeps_when. keeps_step; [apply keeps_gets|].
  keeps_step.
  { eapply triple_conseq; [| |apply keeps_dr_async_get_or_create]; [done|].
    by intros ? s [? _]. }
  apply keeps_for_each. intros scene_data. apply keeps_setup_scene.
Qed.

(** X27. A refresh keeps the devices map keyed by the eid of the device it
    holds, with a host registry entry for every device of the map, whatever
    the hub answers to the four fetches and also when a failing fetch aborts
    the refresh half way. *)
Theorem refresh_keeps_devices_registered
    (K : Consts)
    (rooms : Result (Response RoomData))
    (devices : Result (Response PhysicalDeviceData))
    (groups : Result (Response DeviceGroupData))
    (scene_list : Result (Response SceneData)) (s : State) :
  consistent s →
  consistent (state_of (async_refresh_devices K rooms devices groups scene_list s)).
Proof.
  intros Hs. pose proof (keeps_refresh K rooms devices groups scene_list s Hs) as Hrun.
  by destruct (async_refresh_devices K rooms devices groups scene_list s)
    as [[[[]|e] s1] t1].
Qed.

Lemma refresh_keeps_devices_registered_witness :
  consistent Sample.registered_gateway ∧
  consistent
    (state_of (async_refresh_devices Sample.consts
                 (Ok (Rsp (Some [mkRoom "room-1" ""])))
                 (Ok (Rsp (Some [Sample.two_gang; Sample.twice_listed])))
                 (Raise (TransportError "timeout")) (Ok NoRsp)
                 Sample.registered_gateway)).
Proof.
  split; [exact consistent_registered_gateway|].
  exact (refresh_keeps_devices_registered Sample.consts _ _ _ _
           Sample.registered_gateway consistent_registered_gateway).
Defined.

(** ** Refresh and the entity events *)

Lemma for_each_ext {A} (l : list A) (body body' : A → M unit) (s : State) :
  (∀ x s', body x s' = body' x s') → for_each l body s = for_each l body' s.
Proof.
  intros Hbody. revert s. induction l as [|x l IH]; intros s; [done|].
  cbn [for_each]. unfold bind. rewrite Hbody.
  destruct (body' x s) as [[[[]|e] s1] t1]; [|done]. by rewrite IH.
Qed.

(** X28. The device step of a refresh treats the fetched devices exactly as
    an entityAvailable message that lists the same devices would: same
    outcome, same gateway afterwards, and the same calls after the first one
    (the fetch for the one, the log line of the event for the other). *)
Theorem refresh_devices_as_entity_available
    (K : Consts) (devices : list PhysicalDeviceData) (s : State) :
  let fetched := refresh_devices K (Ok (Rsp (Some devices))) s in
  let announced := _on_entity_available K (EDevice <$> devices) s in
  result_of fetched = result_of announced ∧
  state_of fetched = state_of announced ∧
  effects_of fetched = ApiGetEntities "device" :: tail (effects_of announced).
Proof.
  intros fetched announced. subst fetched announced.
  set (body := λ device_data, setup_device K device_data
                                (default [] (dd_services device_data))).
  assert (Hfetched : refresh_devices K (Ok (Rsp (Some devices))) s
                     = let '(r, s1, t1) := for_each devices body s in
                       (r, s1, ApiGetEntities "device" :: t1)).
  { unfold refresh_devices, _fetch_data. unfold bind at 1. cbn.
    fold body. by destruct (for_each devices body s) as [[r s1] t1]. }
  assert (Hannounced : _on_entity_available K (EDevice <$> devices) s
                       = let '(r, s1, t1) := for_each devices body s in
                         (r, s1, Log DEBUG "EVENT: entityAvailable: %s" :: t1)).
  { unfold _on_entity_available, logger. unfold bind at 1. cbn [emit].
    rewrite for_each_fmap. rewrite (for_each_ext devices _ body).
    - by destruct (for_each devices body s) as [[r s1] t1].
    - intros d s'. cbn [entity_type].
      by destruct (decide ("device" = "device")). }
  rewrite Hfetched, Hannounced.
  by destruct (for_each devices body s) as [[r s1] t1].
Qed.

(** *** entityUpdated *)

Lemma on_entity_updated_scenes_only (msg_data : list EntityData) (s : State) :
  ∃ r m t, for_each msg_data (λ item,
             if decide (entity_type item = "scene") then
               match item with
               | EScene sc => setup_scene sc
               | _ => raise KeyError
               end
             else if decide (entity_type item = "user") then
               logger DEBUG "type user, ignore."
             else
               logger INFO "entityUpdated: **UNSUPPORTED TYPE**: %s") s
           = (r, set_scenes m s, t) ∧
           Forall (scene_call (unique_id s ++ "_scenes")) t.
Proof.
  revert s. induction msg_data as [|item msg_data IH]; intros s.
  - exists (Ok tt), (scenes s), []. by rewrite set_scenes_same.
  - cbn [for_each]. unfold bind.
    assert (Hitem : ∃ r m t,
              (if decide (entity_type item = "scene") then
                 match item with
                 | EScene sc => setup_scene sc
                 | _ => raise KeyError
                 end
               else if decide (entity_type item = "user") then
                 logger DEBUG "type user, ignore."
               else
                 logger INFO "entityUpdated: **UNSUPPORTED TYPE**: %s") s
              = (r, set_scenes m s, t) ∧
              Forall (scene_call (unique_id s ++ "_scenes")) t).
    { assert (Hlog : ∀ lv fmt, ∃ r m t,
                logger lv fmt s = (r, set_scenes m s, t) ∧
                Forall (scene_call (unique_id s ++ "_scenes")) t).
      { intros lv fmt. exists (Ok tt), (scenes s), [Log lv fmt].
        rewrite set_scenes_same. split; [done|]. by repeat constructor. }
      assert (Hraise : ∃ r m t,
                @raise unit KeyError s = (r, set_scenes m s, t) ∧
                Forall (scene_call (unique_id s ++ "_scenes")) t).
      { exists (Raise KeyError), (scenes s), []. by rewrite set_scenes_same. }
      destruct (decide (entity_type item = "scene"));
        [|destruct (decide (entity_type item = "user")); apply Hlog].
      destruct item as [d|g|sc|type]; try exact Hraise.
      destruct (setup_scene_calls sc s) as (m & t & Hm & Ht).
      by exists (Ok tt), m, t. }
    destruct Hitem as ([[]|e] & m1 & t1 & -> & Ht1).
    + destruct (IH (set_scenes m1 s)) as (r & m2 & t2 & -> & Ht2).
      exists r, m2, (t1 ++ t2)%list. split; [done|]. by apply Forall_app.
    + by exists (Raise e), m1, t1.
Qed.

Lemma scene_calls_no_removal (container : string) (t : list Effect) :
  Forall (scene_call container) t → dr_removals t = [].
Proof.
  induction 1 as [|e t He Ht IH]; [done|].
  destruct e; cbn in He |- *; try done; exact IH.
Qed.

(** X29. An entityUpdated message only ever reaches the scenes: whatever it
    lists (devices and device groups included), the devices map and the
    host's device registry are as before, the registry is not written, and
    every presentation object handed to the host is a scene switch of the
    scene container. *)
Theorem entity_updated_reaches_scenes_only
    (msg_data : list EntityData) (s : State) :
  let run := _on_entity_updated msg_data s in
  parsed_devices (state_of run) = parsed_devices s ∧
  device_registry (state_of run) = device_registry s ∧
  dr_upserts (effects_of run) = [] ∧
  dr_removals (effects_of run) = [] ∧
  (∀ entity, entity ∈ added_entities (effects_of run) →
     _attr_device_info entity = Some (unique_id s ++ "_scenes")).
Proof.
  intros run. subst run.
  destruct (on_entity_updated_scenes_only msg_data s) as (r & m & t & Hrun & Ht).
  assert (Hupdated : _on_entity_updated msg_data s
                     = (r, set_scenes m s,
                        Log DEBUG "EVENT: entityUpdated: %s" :: t)).
  { unfold _on_entity_updated. unfold bind at 1.
    change (logger DEBUG "EVENT: entityUpdated: %s" s)
      with (Ok tt, s, [Log DEBUG "EVENT: entityUpdated: %s"]).
    cbv beta iota. by rewrite Hrun. }
  rewrite Hupdated. cbn [state_of effects_of fst snd].
  destruct (scene_calls _ _ Ht) as [Hdr Hadd].
  split; [done|]. split; [done|]. split; [exact Hdr|]. split; [|exact Hadd].
  exact (scene_calls_no_removal _ _ Ht).
Qed.

(** ** entityDeleted events *)

Lemma scene_ids_cons (item : SimpleItem) (msg_data : list SimpleItem) :
  scene_ids (item :: msg_data) = (scene_ids [item] ++ scene_ids msg_data)%list.
Proof.
  unfold scene_ids. cbn. by destruct (String.prefix "scene-" (simple_id item)).
Qed.

Lemma device_ids_cons (item : SimpleItem) (msg_data : list SimpleItem) :
  device_ids (item :: msg_data) = (device_ids [item] ++ device_ids msg_data)%list.
Proof.
  unfold device_ids. cbn. by destruct (String.prefix "scene-" (simple_id item)).
Qed.

Lemma size_filter_complement {V} (P : string * V → Prop)
    `{!∀ x, Decision (P x)} (m : gmap string V) :
  (size (filter P m) + size (filter (λ x, ¬ P x) m))%nat = size m.
Proof.
  pose proof (map_size_disj_union _ _ (map_disjoint_filter_complement P m)) as Hsize.
  by rewrite map_filter_union_complement in Hsize.
Qed.

Lemma delete_as_filter {V} (k : string) (m : gmap string V) :
  delete k m = filter (λ kv : string * V, kv.1 ∉ [k]) m.
Proof.
  apply map_eq. intros j. apply option_eq. intros x.
  rewrite lookup_delete_Some, map_lookup_filter_Some. cbn.
  rewrite list_elem_of_singleton. naive_solver.
Qed.

Lemma filter_nothing {V} (f : string * V → string) (m : gmap string V) :
  filter (λ kv : string * V, f kv ∉ @nil string) m = m.
Proof. apply map_filter_id. intros i x _. apply not_elem_of_nil. Qed.

Lemma registered_removals (registry : gmap string DeviceEntry)
    (eids : list string) :
  (∀ k, k ∈ eids → is_Some (registry !! k)) →
  length (omap (λ k, entry_id <$> registry !! k) eids) = length eids.
Proof.
  induction eids as [|k eids IH]; intros Hall; [done|].
  cbn [omap list_omap]. destruct (Hall k) as [entry Hentry]; [by left|].
  rewrite Hentry. cbn. f_equal. apply IH. intros k' Hk'. apply Hall. by right.
Qed.

(** One payload. *)
Lemma deletion_item (item : SimpleItem) (s : State) :
  consistent s →
  ∃ s1 t, entity_deleted_item item s = (Ok tt, s1, t) ∧ consistent s1 ∧
          deletion [item] s s1 t.
Proof.
  intros Hs. unfold deletion, scene_ids, device_ids.
  cbn [fmap list_fmap List.filter].
  destruct (String.prefix "scene-" (simple_id item)) eqn:Hprefix; cbn [negb].
  - rewrite (entity_deleted_scene_run item s Hprefix).
    destruct (scenes s !! simple_id item) as [scene|] eqn:Hscene.
    + eexists _, _. split; [done|]. split; [by apply (consistent_same s)|].
      cbn [scenes set_scenes parsed_devices].
      split; [apply delete_as_filter|].
      split; [by rewrite (filter_nothing (λ kv, did kv.2))|].
      split; [by intros k [d ->]|].
      split; [done|]. split; [done|].
      split.
      * intros k scene' Hk Hgone. apply lookup_delete_None in Hgone as [<-|Hnone].
        -- rewrite Hscene in Hk. injection Hk as <-. cbn. by left.
        -- by rewrite Hnone in Hk.
      * cbn. rewrite map_size_delete, Hscene.
        pose proof (map_size_ne_0_lookup_2 (scenes s) (simple_id item)
                      (ex_intro _ scene Hscene)).
        lia.
    + exists s, []. split; [done|]. split; [done|].
      split.
      { symmetry. apply map_filter_id. intros i x Hi. cbn.
        rewrite list_elem_of_singleton. intros ->. by rewrite Hscene in Hi. }
      split; [by rewrite (filter_nothing (λ kv, did kv.2))|].
      split; [by intros k [d ->]|].
      split; [done|]. split; [done|].
      split; [|done]. intros k scene' Hk Hgone. by rewrite Hgone in Hk.
  - rewrite (entity_deleted_device_run item s Hprefix).
    set (will_delete := filter (λ kv, simple_id item = did kv.2) (parsed_devices s)).
    set (eids := (map_to_list will_delete).*1).
    assert (Hdevices : parsed_devices (deleted_state eids s)
                       = filter (λ kv, simple_id item ≠ did kv.2) (parsed_devices s)).
    { unfold deleted_state. cbn [parsed_devices set_parsed_devices].
      apply foldl_delete_filter. }
    assert (Hlength : length eids = size will_delete).
    { unfold eids. by rewrite length_fmap, length_map_to_list. }
    assert (Hsize : (length eids + size (parsed_devices (deleted_state eids s))
                     = size (parsed_devices s))%nat).
    { rewrite Hdevices, Hlength.
      apply (size_filter_complement
               (λ kv : string * TerncyDevice, simple_id item = did kv.2)). }
    eexists _, _. split; [done|]. split; [by apply consistent_deleted|].
    rewrite marked_unavailable_delete, dr_removals_delete, er_removals_delete.
    split; [by rewrite (filter_nothing (λ kv, kv.1))|].
    split.
    { rewrite Hdevices. apply map_filter_ext. intros i x _. cbn.
      rewrite list_elem_of_singleton. naive_solver. }
    split.
    { intros k [d Hd] Hgone. unfold deleted_state in Hgone. cbn in Hgone.
      rewrite foldl_delete_lookup in Hgone.
      destruct (decide (k ∈ eids)); [done|]. by rewrite Hd in Hgone. }
    split; [exact Hsize|].
    split.
    { rewrite registered_removals; [exact Hsize|].
      intros k ([k' d] & -> & Hin)%list_elem_of_fmap.
      apply elem_of_map_to_list, map_lookup_filter_Some in Hin as [Hk _].
      by apply (Hs _ _ Hk). }
    split; [|done]. intros k scene Hk Hgone. cbn in Hgone. by rewrite Hgone in Hk.
Qed.

(** Payload after payload. *)
Lemma deletion_cons (item : SimpleItem) (msg_data : list SimpleItem)
    (s s1 s2 : State) (t1 t2 : list Effect) :
  deletion [item] s s1 t1 → deletion msg_data s1 s2 t2 →
  deletion (item :: msg_data) s s2 (t1 ++ t2).
Proof.
  intros (Hsc1 & Hpd1 & Hmark1 & Hnm1 & Hnd1 & Her1 & Hne1)
         (Hsc2 & Hpd2 & Hmark2 & Hnm2 & Hnd2 & Her2 & Hne2).
  unfold deletion, marked_unavailable, dr_removals, er_removals in *.
  rewrite !omap_app, !length_app, scene_ids_cons, device_ids_cons.
  split.
  { rewrite Hsc2, Hsc1. apply map_filter_strong_ext_1. intros i x.
    rewrite map_lookup_filter_Some. cbn. rewrite elem_of_app. naive_solver. }
  split.
  { rewrite Hpd2, Hpd1. apply map_filter_strong_ext_1. intros i x.
    rewrite map_lookup_filter_Some. cbn. rewrite elem_of_app. naive_solver. }
  split.
  { intros k [d Hd] Hgone. apply elem_of_app.
    destruct (parsed_devices s1 !! k) as [d1|] eqn:Hk1.
    - right. apply Hmark2; [by eexists|done].
    - left. apply Hmark1; [by eexists|done]. }
  split; [lia|]. split; [lia|]. split; [|lia].
  intros k scene Hk Hgone. apply elem_of_app.
  destruct (scenes s1 !! k) as [scene1|] eqn:Hk1.
  - right. apply (Her2 k); [|done]. rewrite Hk1. f_equal.
    rewrite Hsc1 in Hk1. apply map_lookup_filter_Some in Hk1 as [Hk1 _].
    rewrite Hk1 in Hk. by injection Hk.
  - left. by apply (Her1 k).
Qed.

Lemma deletion_loop (msg_data : list SimpleItem) (s : State) :
  consistent s →
  ∃ s' t, for_each msg_data entity_deleted_item s = (Ok tt, s', t) ∧
          deletion msg_data s s' t.
Proof.
  revert s. induction msg_data as [|item msg_data IH]; intros s Hs.
  - exists s, []. split; [done|]. unfold deletion, scene_ids, device_ids. cbn.
    rewrite (filter_nothing (λ kv, kv.1)), (filter_nothing (λ kv, did kv.2)).
    repeat split; try done.
    + by intros k [d ->].
    + intros k scene Hk Hgone. by rewrite Hgone in Hk.
  - destruct (deletion_item item s Hs) as (s1 & t1 & Hitem & Hs1 & Hdel1).
    destruct (IH s1 Hs1) as (s2 & t2 & Hrest & Hdel2).
    exists s2, (t1 ++ t2)%list. split.
    + cbn [for_each]. eapply bind_run; [exact Hitem|exact Hrest].
    + by apply (deletion_cons item msg_data s s1 s2).
Qed.

(** C2. An entityDeleted event, on a gateway whose devices all have their
    entry in the host's device registry (every handler and the refresh keep
    it so), never raises and removes what its payloads name: a scene whose
    id is listed with the scene prefix leaves the scenes map and is met by
    exactly one removal call on the entity registry; every entity of the
    devices map whose owning device id is listed without the prefix is
    marked unavailable and leaves the devices map, with exactly one removal
    call on the device registry per removed entity; nothing else leaves
    either map. *)
Theorem entity_deleted_removes
    (K : Consts) (msg_data : list SimpleItem) (s : State) :
  consistent s →
  let run :=
    terncy_event_handler K
      (EventMessage (mkMsg (Some "entityDeleted") (Some (SimpleMsgData msg_data))))
      s in
  let devices' := parsed_devices (state_of run) in
  let scenes' := scenes (state_of run) in
  result_of run = Ok tt ∧
  scenes'
  = filter (λ kv : string * TerncyEntity, kv.1 ∉ scene_ids msg_data) (scenes s) ∧
  devices'
  = filter (λ kv : string * TerncyDevice, did kv.2 ∉ device_ids msg_data)
      (parsed_devices s) ∧
  (∀ k, is_Some (parsed_devices s !! k) → devices' !! k = None →
        k ∈ marked_unavailable (effects_of run)) ∧
  (length (marked_unavailable (effects_of run)) + size devices'
   = size (parsed_devices s))%nat ∧
  (length (dr_removals (effects_of run)) + size devices'
   = size (parsed_devices s))%nat ∧
  (∀ k scene, scenes s !! k = Some scene → scenes' !! k = None →
              entity_set_available false scene ∈ er_removals (effects_of run)) ∧
  (length (er_removals (effects_of run)) + size scenes' = size (scenes s))%nat.
Proof.
  intros Hs run devices' scenes'. subst run devices' scenes'.
  destruct (deletion_loop msg_data s Hs) as (s' & t & Hloop & Hdeletion).
  assert (Hrun : terncy_event_handler K
                   (EventMessage (mkMsg (Some "entityDeleted")
                                    (Some (SimpleMsgData msg_data)))) s
                 = (Ok tt, s', Log DEBUG "EVENT: entityDeleted: %s" :: t)).
  { change (terncy_event_handler K _ s) with (_on_entity_deleted msg_data s).
    unfold _on_entity_deleted. unfold bind at 1.
    change (logger DEBUG "EVENT: entityDeleted: %s" s)
      with (Ok tt, s, [Log DEBUG "EVENT: entityDeleted: %s"]).
    cbv beta iota. by rewrite Hloop. }
  rewrite Hrun. cbn [result_of state_of effects_of fst snd].
  split; [done|]. exact Hdeletion.
Qed.

Lemma entity_deleted_removes_witness :
  let msg_data := [mkSimple "scene-000001"; mkSimple "dev-1"; mkSimple "dev-1"] in
  let run :=
    terncy_event_handler Sample.consts
      (EventMessage (mkMsg (Some "entityDeleted") (Some (SimpleMsgData msg_data))))
      Sample.registered_gateway in
  consistent Sample.registered_gateway ∧
  size (parsed_devices Sample.registered_gateway) = 1%nat ∧
  size (scenes Sample.registered_gateway) = 1%nat ∧
  parsed_devices (state_of run) = ∅ ∧
  scenes (state_of run) = ∅ ∧
  length (dr_removals (effects_of run)) = 1%nat ∧
  length (er_removals (effects_of run)) = 1%nat.
Proof.
  intros msg_data run.
  assert (Hdevices : parsed_devices (state_of run) = ∅) by reflexivity.
  assert (Hscenes : scenes (state_of run) = ∅) by reflexivity.
  destruct (entity_deleted_removes Sample.consts msg_data
              Sample.registered_gateway consistent_registered_gateway)
    as (_ & _ & _ & _ & _ & Hdr & _ & Her).
  fold run in Hdr, Her. rewrite Hdevices in Hdr. rewrite Hscenes in Her.
  split; [exact consistent_registered_gateway|].
  split; [reflexivity|]. split; [reflexivity|].
  split; [exact Hdevices|]. split; [exact Hscenes|].
  split; [exact Hdr|exact Her].
Defined.
